(** * Gym management system: indexed entity store and snapshot persistence

    A shallow embedding of the Python package [gym] (gym.py, pricing.py,
    memberships.py, people.py, payments.py, workouts.py, storage.py) and the
    properties of its dual-index collections, membership state machine,
    charging rules, codec and snapshot store.

    Conventions of the embedding.
    - A Python [dict] keyed by strings that the program uses as an index is a
      [gmap string _], iterated in an order that is a parameter; a decoded
      JSON object is an association list, since the decoders iterate over
      it.
    - A Python [float] is a binary64 primitive float.
    - A method that mutates its receiver is a computation in the state and
      exception monad [M S]: the state reached when an exception is raised is
      kept, as the mutations made before a [raise] stay in Python.
    - [uuid4()] and [datetime.now()] read an explicit [world].
    - [isinstance] guards on well-typed arguments are type constraints here. *)

From Stdlib Require Import ZArith String Ascii List Bool PrimFloat Lia.
From stdpp Require Import gmap strings list fin_maps.

Set Warnings "-inexact-float,-register-all".

(* ===================================================================== *)
(** * Part I. The embedding *)
(* ===================================================================== *)

(** ** The Python runtime the package relies on *)

Module Py.

(** Exceptions: the package's own hierarchy (gym.py, lines 12-22) and the
    built-in ones its code can let escape. *)
Inductive exn : Type :=
| ValidationError (msg : string)
| NotFoundError (msg : string)
| PaymentError (msg : string)
| TypeError (msg : string)
| ValueError (msg : string)
| KeyError (key : string)
| AttributeError (msg : string)
| OverflowError
| JSONDecodeError
| OSError (msg : string).

Definition is_ValidationError (e : exn) : bool :=
  match e with ValidationError _ => true | _ => false end.

Definition is_NotFoundError (e : exn) : bool :=
  match e with NotFoundError _ => true | _ => false end.

Inductive result (A : Type) : Type :=
| Ok (a : A)
| Raise (e : exn).
Arguments Ok {A} a.
Arguments Raise {A} e.

Definition rbind {A B} (r : result A) (k : A -> result B) : result B :=
  match r with
  | Ok a => k a
  | Raise e => Raise e
  end.

(** State and exception monad. *)
Definition M (S A : Type) : Type := S -> result A * S.

Definition ret {S A} (a : A) : M S A := fun s => (Ok a, s).
Definition raise {S A} (e : exn) : M S A := fun s => (Raise e, s).
Definition bind {S A B} (m : M S A) (k : A -> M S B) : M S B :=
  fun s =>
    match m s with
    | (Ok a, s') => k a s'
    | (Raise e, s') => (Raise e, s')
    end.
Definition get {S} : M S S := fun s => (Ok s, s).
Definition put {S} (s : S) : M S unit := fun _ => (Ok tt, s).
Definition modify {S} (f : S -> S) : M S unit := fun s => (Ok tt, f s).
Definition lift_result {S A} (r : result A) : M S A := fun s => (r, s).

(** Run a computation on a component of the state. *)
Definition zoom {S T A} (proj : S -> T) (upd : T -> S -> S) (m : M T A) : M S A :=
  fun s => let '(r, t) := m (proj s) in (r, upd t s).

Fixpoint for_each {S A} (xs : list A) (body : A -> M S unit) : M S unit :=
  match xs with
  | [] => ret tt
  | x :: xs' => bind (body x) (fun _ => for_each xs' body)
  end.

(** A loop that threads a local variable. *)
Fixpoint fold_each {S A B} (xs : list A) (acc : B) (body : B -> A -> M S B) : M S B :=
  match xs with
  | [] => ret acc
  | x :: xs' => bind (body acc x) (fun acc' => fold_each xs' acc' body)
  end.

(** *** Strings

    A [string] is a sequence of characters below 256. The operations below
    are Python's on ASCII text, where a character is a code point: on other
    text [str.strip] also removes the white space beyond code point 127 and
    [str.lower] and [str.title] map the case of the letters beyond it.
    Properties that depend on what these operations compute are stated for
    ASCII text. *)

Definition is_ascii (s : string) : bool :=
  forallb (fun c => (nat_of_ascii c <? 128)%nat) (list_ascii_of_string s).

(** Code points below 128 that [str.strip] removes. *)
Definition is_space (c : ascii) : bool :=
  let n := nat_of_ascii c in
  ((9 <=? n)%nat && (n <=? 13)%nat) || ((28 <=? n)%nat && (n <=? 32)%nat).

Fixpoint lstrip_chars (l : list ascii) : list ascii :=
  match l with
  | [] => []
  | c :: l' => if is_space c then lstrip_chars l' else l
  end.

Definition rstrip_chars (l : list ascii) : list ascii :=
  rev (lstrip_chars (rev l)).

Definition strip (s : string) : string :=
  string_of_list_ascii (lstrip_chars (rstrip_chars (list_ascii_of_string s))).

Definition is_upper (c : ascii) : bool :=
  let n := nat_of_ascii c in (65 <=? n)%nat && (n <=? 90)%nat.

Definition is_lower (c : ascii) : bool :=
  let n := nat_of_ascii c in (97 <=? n)%nat && (n <=? 122)%nat.

Definition lower_char (c : ascii) : ascii :=
  if is_upper c then ascii_of_nat (nat_of_ascii c + 32) else c.

Definition upper_char (c : ascii) : ascii :=
  if is_lower c then ascii_of_nat (nat_of_ascii c - 32) else c.

Definition lower (s : string) : string :=
  string_of_list_ascii (map lower_char (list_ascii_of_string s)).

(** [str.title]: a cased character is upper-cased after an uncased one and
    lower-cased after a cased one. *)
Fixpoint title_chars (prev_cased : bool) (l : list ascii) : list ascii :=
  match l with
  | [] => []
  | c :: l' =>
      let cased := is_upper c || is_lower c in
      (if prev_cased then lower_char c else upper_char c) :: title_chars cased l'
  end.

Definition title (s : string) : string :=
  string_of_list_ascii (title_chars false (list_ascii_of_string s)).

(** [c in s] for a one-character needle. *)
Definition contains_char (c : ascii) (s : string) : bool :=
  existsb (Ascii.eqb c) (list_ascii_of_string s).

(** Truth value of a string. *)
Definition str_truthy (s : string) : bool := negb (String.eqb s "").

(** The recurring guard [not s or not s.strip()]. *)
Definition blank (s : string) : bool :=
  negb (str_truthy s) || negb (str_truthy (strip s)).

Arguments strip : simpl never.
Arguments lower : simpl never.
Arguments title : simpl never.
Arguments blank : simpl never.

(** *** Decimal printing, for [isoformat] *)

Definition digit_char (d : Z) : ascii := ascii_of_nat (48 + Z.to_nat d).

Fixpoint zero_padded (width : nat) (n : Z) : list ascii :=
  match width with
  | O => []
  | S w => zero_padded w (n / 10) ++ [digit_char (n mod 10)]
  end.

Record date : Type := { year : Z; month : Z; day : Z }.

Record datetime : Type :=
  { on_date : date; hour : Z; minute : Z; second : Z; microsecond : Z }.

Definition date_chars (d : date) : list ascii :=
  zero_padded 4 (year d) ++ ["-"%char] ++ zero_padded 2 (month d)
    ++ ["-"%char] ++ zero_padded 2 (day d).

(** [date.isoformat()]: YYYY-MM-DD. *)
Definition date_isoformat (d : date) : string :=
  string_of_list_ascii (date_chars d).

(** [datetime.isoformat()] of a naive datetime: YYYY-MM-DDTHH:MM:SS, followed
    by .ffffff when the microsecond is not zero. *)
Definition datetime_isoformat (t : datetime) : string :=
  string_of_list_ascii
    (date_chars (on_date t) ++ ["T"%char] ++ zero_padded 2 (hour t)
       ++ [":"%char] ++ zero_padded 2 (minute t)
       ++ [":"%char] ++ zero_padded 2 (second t)
       ++ (if (microsecond t =? 0)%Z then []
           else ["."%char] ++ zero_padded 6 (microsecond t))).

(** *** Values of a decoded JSON document *)

Inductive pyval : Type :=
| PNone
| PBool (b : bool)
| PInt (n : Z)
| PFloat (x : float)
| PStr (s : string)
| PList (items : list pyval)
| PDict (items : list (string * pyval)).

Fixpoint assoc {A} (k : string) (kvs : list (string * A)) : option A :=
  match kvs with
  | [] => None
  | (k', v) :: kvs' => if String.eqb k k' then Some v else assoc k kvs'
  end.

(** [d.get(k)] and [d.get(k, default)]; a receiver that is not a dict has no
    attribute [get]. *)
Definition dict_get_default (d : pyval) (k : string) (default : pyval) : result pyval :=
  match d with
  | PDict kvs => Ok (match assoc k kvs with Some v => v | None => default end)
  | _ => Raise (AttributeError "get")
  end.

Definition dict_get (d : pyval) (k : string) : result pyval :=
  dict_get_default d k PNone.

(** [d[k]] on a dict. *)
Definition dict_item (d : pyval) (k : string) : result pyval :=
  match d with
  | PDict kvs =>
      match assoc k kvs with Some v => Ok v | None => Raise (KeyError k) end
  | _ => Raise (TypeError "subscript")
  end.

Definition is_dict (v : pyval) : bool :=
  match v with PDict _ => true | _ => false end.

Definition is_list (v : pyval) : bool :=
  match v with PList _ => true | _ => false end.

Definition is_None (v : pyval) : bool :=
  match v with PNone => true | _ => false end.

(** Truth value of an object. *)
Definition truthy (v : pyval) : bool :=
  match v with
  | PNone => false
  | PBool b => b
  | PInt n => negb (n =? 0)%Z
  | PFloat x => negb (PrimFloat.eqb x 0%float)
  | PStr s => str_truthy s
  | PList l => match l with [] => false | _ => true end
  | PDict l => match l with [] => false | _ => true end
  end.

(** An object that is not text, or is ASCII text. *)
Definition ascii_value (v : pyval) : bool :=
  match v with PStr s => is_ascii s | _ => true end.

(** [v == s] for a string literal [s]. *)
Definition eq_str (v : pyval) (s : string) : bool :=
  match v with PStr s' => String.eqb s' s | _ => false end.

(** [v == n] for an integer literal [n]: numbers compare by value and a bool
    is the integer 0 or 1. *)
Definition eq_int (v : pyval) (n : Z) : bool :=
  match v with
  | PInt m => (m =? n)%Z
  | PBool b => ((if b then 1 else 0) =? n)%Z
  | PFloat x =>
      match n with
      | 0%Z => PrimFloat.eqb x 0%float
      | 1%Z => PrimFloat.eqb x 1%float
      | _ => false
      end
  | _ => false
  end.

(** *** Iteration over a dict

    A dict iterates in insertion order. A finite map keeps no history of the
    insertions, so the order is a parameter: [dict_items m] lists the items
    of [m], each once, in the order the dict that holds them would. *)
Class DictOrder : Type :=
  { dict_items : forall {A : Type}, gmap string A -> list (string * A);
    dict_items_permutation :
      forall (A : Type) (m : gmap string A), dict_items m ≡ₚ map_to_list m }.

(** Built-ins whose results depend on decimal conversion: they are taken as
    given. [None] stands for the built-in's [ValueError] (or [OverflowError]
    for [float_of_int]); for [int_of_float] it stands for the [ValueError]
    of a NaN, and is not asked about an infinity. *)
Class Builtins : Type :=
  { float_of_str : string -> option float;
    float_of_int : Z -> option float;
    int_of_str : string -> option Z;
    int_of_float : float -> option Z;
    repr : pyval -> string;
    round_ndigits : float -> Z -> float;
    datetime_fromisoformat : string -> option datetime }.

Section WithBuiltins.
Context {builtins : Builtins}.

(** [str(v)] *)
Definition str (v : pyval) : string :=
  match v with
  | PStr s => s
  | _ => repr v
  end.

(** [float(v)] *)
Definition float_ (v : pyval) : result float :=
  match v with
  | PFloat x => Ok x
  | PInt n =>
      match float_of_int n with Some x => Ok x | None => Raise OverflowError end
  | PBool b => Ok (if b then 1%float else 0%float)
  | PStr s =>
      match float_of_str s with
      | Some x => Ok x
      | None => Raise (ValueError "float")
      end
  | _ => Raise (TypeError "float")
  end.

(** [int(v)] *)
Definition int_ (v : pyval) : result Z :=
  match v with
  | PInt n => Ok n
  | PBool b => Ok (if b then 1%Z else 0%Z)
  | PFloat x =>
      if PrimFloat.is_infinity x then Raise OverflowError
      else
        match int_of_float x with Some n => Ok n | None => Raise (ValueError "int") end
  | PStr s =>
      match int_of_str s with Some n => Ok n | None => Raise (ValueError "int") end
  | _ => Raise (TypeError "int")
  end.

(** [datetime.fromisoformat(s)] *)
Definition fromisoformat (s : string) : result datetime :=
  match datetime_fromisoformat s with
  | Some t => Ok t
  | None => Raise (ValueError "fromisoformat")
  end.

End WithBuiltins.

(** *** Randomness and time *)

(** The n-th call of [uuid4().hex] returns [uuid_hex n]; the n-th reading of
    the clock returns [clock n]. *)
Record world : Type :=
  { uuid_hex : nat -> string;
    uuid_calls : nat;
    clock : nat -> datetime;
    clock_reads : nat }.

Definition uuid4_hex : M world string :=
  fun w =>
    (Ok (uuid_hex w (uuid_calls w)),
     {| uuid_hex := uuid_hex w; uuid_calls := S (uuid_calls w);
        clock := clock w; clock_reads := clock_reads w |}).

Definition datetime_now : M world datetime :=
  fun w =>
    (Ok (clock w (clock_reads w)),
     {| uuid_hex := uuid_hex w; uuid_calls := uuid_calls w;
        clock := clock w; clock_reads := S (clock_reads w) |}).

Definition date_today : M world date :=
  bind datetime_now (fun t => ret (on_date t)).

End Py.

Export Py.

Notation "'let?' x ':=' r 'in' k" := (Py.rbind r (fun x => k))
  (at level 10, x name, r at level 100, k at level 200).
Notation "'let!' x ':=' m 'in' k" := (Py.bind m (fun x => k))
  (at level 10, x name, m at level 100, k at level 200).
Notation "'exec' m1 'in' m2" := (Py.bind m1 (fun _ => m2))
  (at level 10, m1 at level 100, m2 at level 200).

(** [v.strip()] for a value that reaches a string method unchecked. *)
Definition strip_of (v : pyval) : result string :=
  match v with
  | PStr s => Ok (strip s)
  | _ => Raise (AttributeError "strip")
  end.

(** The guard [not v or not v.strip()] followed by [v = v.strip()]: the
    stripped text, or [invalid] when the guard fires. *)
Definition required_text (v : pyval) (invalid : exn) : result string :=
  if negb (truthy v) then Raise invalid
  else
    let? s := strip_of v in
    if negb (str_truthy s) then Raise invalid else Ok s.

(** ** gym.py, lines 24-36: enumerations and identifiers *)

Inductive MembershipStatus : Type := ACTIVE | PAUSED | CANCELLED.

Inductive PaymentStatus : Type := SUCCESS | FAILED.

Definition MembershipStatus_eqb (a b : MembershipStatus) : bool :=
  match a, b with
  | ACTIVE, ACTIVE | PAUSED, PAUSED | CANCELLED, CANCELLED => true
  | _, _ => false
  end.

Definition PaymentStatus_eqb (a b : PaymentStatus) : bool :=
  match a, b with
  | SUCCESS, SUCCESS | FAILED, FAILED => true
  | _, _ => false
  end.

(** The [value] of an enumeration member. *)
Definition MembershipStatus_value (s : MembershipStatus) : string :=
  match s with
  | ACTIVE => "active"
  | PAUSED => "paused"
  | CANCELLED => "cancelled"
  end.

Definition PaymentStatus_value (s : PaymentStatus) : string :=
  match s with
  | SUCCESS => "success"
  | FAILED => "failed"
  end.

(** [MembershipStatus(v)]: lookup by value; no member has that value:
    [ValueError]. *)
Definition MembershipStatus_of (v : pyval) : result MembershipStatus :=
  if eq_str v "active" then Ok ACTIVE
  else if eq_str v "paused" then Ok PAUSED
  else if eq_str v "cancelled" then Ok CANCELLED
  else Raise (ValueError "MembershipStatus").

Definition PaymentStatus_of (s : string) : result PaymentStatus :=
  if String.eqb s "success" then Ok SUCCESS
  else if String.eqb s "failed" then Ok FAILED
  else Raise (ValueError "PaymentStatus").

Definition new_id (prefix : string) : M world string :=
  if blank prefix
  then raise (ValidationError "Prefix must be a non empty string.")
  else let! h := uuid4_hex in ret (prefix ++ "_" ++ h)%string.

(** ** pricing.py *)

Module PricePolicy.

Inductive t : Type :=
| NoDiscount
| PercentOff (discount : float)
| FixedPrice (price : float).

(** [PercentOff(discount=d)] with its [__post_init__]. *)
Definition new_PercentOff (d : float) : result t :=
  if negb (PrimFloat.ltb 0%float d && PrimFloat.ltb d 1%float)
  then Raise (ValidationError
                "Discount must be between 0 and 1, For Example: 20% Discount is 0.20")
  else Ok (PercentOff d).

(** [FixedPrice(price=p)] with its [__post_init__]. *)
Definition new_FixedPrice (p : float) : result t :=
  if negb (PrimFloat.ltb 0%float p)
  then Raise (ValidationError "Price must be greater than $0.")
  else Ok (FixedPrice p).

Definition apply (policy : t) (base_price : float) : float :=
  match policy with
  | NoDiscount => base_price
  | PercentOff discount => PrimFloat.mul base_price (PrimFloat.sub 1%float discount)
  | FixedPrice price => price
  end.

End PricePolicy.

(** ** memberships.py *)

Module BaseMembership.

(** The concrete class of a membership object. *)
Inductive cls : Type := BasicMembership | PremiumMembership.

Record t : Type :=
  { class_of : cls;
    id : string;
    status : MembershipStatus;
    price_policy : PricePolicy.t }.

Definition set_status (s : MembershipStatus) (m : t) : t :=
  {| class_of := class_of m; id := id m; status := s;
     price_policy := price_policy m |}.

(** [BasicMembership(price_policy=p)] or [PremiumMembership(price_policy=p)],
    with [__post_init__]. *)
Definition new (c : cls) (policy : PricePolicy.t) : M world t :=
  let! i := new_id "ms" in
  ret {| class_of := c; id := i; status := ACTIVE; price_policy := policy |}.

Definition name (m : t) : string :=
  match class_of m with
  | BasicMembership => "Basic"
  | PremiumMembership => "Premium"
  end.

Definition base_monthly_price (m : t) : float :=
  match class_of m with
  | BasicMembership => 29.99%float
  | PremiumMembership => 59.99%float
  end.

Definition monthly_price {builtins : Builtins} (m : t) : float :=
  round_ndigits (PricePolicy.apply (price_policy m) (base_monthly_price m)) 2.

Definition is_active (m : t) : bool :=
  MembershipStatus_eqb (status m) ACTIVE.

Definition pause : M t unit :=
  let! self := get in
  if MembershipStatus_eqb (status self) CANCELLED
  then raise (ValidationError "Cannot pause a cancelled membership.")
  else put (set_status PAUSED self).

Definition resume : M t unit :=
  let! self := get in
  if MembershipStatus_eqb (status self) CANCELLED
  then raise (ValidationError "Cannot resume a cancelled membership.")
  else put (set_status ACTIVE self).

Definition cancel : M t unit :=
  let! self := get in
  put (set_status CANCELLED self).

Definition benefits (m : t) : list string :=
  match class_of m with
  | BasicMembership => ["24/7 Gym Access"; "Pool"; "Sauna"]
  | PremiumMembership =>
      ["24/7 Gym Access"; "Pool"; "Sauna"] ++ ["Group Fitness Classes"; "Recovery Room"]
  end.

End BaseMembership.

(** ** people.py *)

Module Person.

(** [Person.__post_init__]: the identifier is minted first, then the name
    and the email are checked and stripped. Returns (id, full_name, email). *)
Definition post_init (full_name email : pyval) : M world (string * string * string) :=
  let! i := new_id "per" in
  let! full_name := lift_result
      (required_text full_name (ValidationError "Name field cannot be empty.")) in
  let! email := lift_result
      (required_text email (ValidationError "Email must be provided.")) in
  if negb (contains_char "@" email) || negb (contains_char "." email)
  then raise (ValidationError "Please enter a valid email.")
  else ret (i, full_name, email).

End Person.

Module Member.

Record t : Type :=
  { id : string;
    full_name : string;
    email : string;
    membership : BaseMembership.t;
    join_date : date }.

Definition set_id (i : string) (m : t) : t :=
  {| id := i; full_name := full_name m; email := email m;
     membership := membership m; join_date := join_date m |}.

Definition set_membership (ms : BaseMembership.t) (m : t) : t :=
  {| id := id m; full_name := full_name m; email := email m;
     membership := ms; join_date := join_date m |}.

(** [Member(full_name=.., email=.., membership=..)], with [join_date] given
    or defaulting to [date.today()] (evaluated before [__post_init__]). *)
Definition new (full_name email : pyval) (membership : BaseMembership.t)
    (join_date : option date) : M world t :=
  let! jd := match join_date with Some d => ret d | None => date_today end in
  let! p := Person.post_init full_name email in
  let! i := new_id "mem" in
  ret {| id := i; full_name := snd (fst p); email := snd p;
         membership := membership; join_date := jd |}.

Definition membership_id (m : t) : string := BaseMembership.id (membership m).
Definition membership_name (m : t) : string := BaseMembership.name (membership m).
Definition membership_status (m : t) : MembershipStatus :=
  BaseMembership.status (membership m).
Definition is_active (m : t) : bool := BaseMembership.is_active (membership m).
Definition monthly_price {builtins : Builtins} (m : t) : float :=
  BaseMembership.monthly_price (membership m).

Definition cancel_membership : M t unit :=
  zoom membership set_membership BaseMembership.cancel.

Definition pause_membership : M t unit :=
  zoom membership set_membership BaseMembership.pause.

End Member.

Module Trainer.

Record t : Type :=
  { id : string;
    full_name : string;
    email : string;
    specialty : option string }.

Definition set_id (i : string) (tr : t) : t :=
  {| id := i; full_name := full_name tr; email := email tr;
     specialty := specialty tr |}.

(** [Trainer(full_name=.., email=.., specialty=..)]; [specialty] is [None] or
    a value whose [strip] and [title] methods are called. *)
Definition new (full_name email specialty : pyval) : M world t :=
  let! p := Person.post_init full_name email in
  let! i := new_id "trn" in
  let! sp :=
    match specialty with
    | PNone => ret None
    | PStr s =>
        if negb (str_truthy (strip s))
        then raise (ValidationError "Speciality cannot be just empty space.")
        else ret (Some (title s))
    | _ => raise (AttributeError "strip")
    end in
  ret {| id := i; full_name := snd (fst p); email := snd p; specialty := sp |}.

End Trainer.

(** ** payments.py *)

Module PaymentRecord.

Record t : Type :=
  { id : string;
    member_id : string;
    member_name : string;
    amount : float;
    status : PaymentStatus;
    message : string;
    created_at : datetime }.

Definition set_id (i : string) (r : t) : t :=
  {| id := i; member_id := member_id r; member_name := member_name r;
     amount := amount r; status := status r; message := message r;
     created_at := created_at r |}.

Definition set_created_at (c : datetime) (r : t) : t :=
  {| id := id r; member_id := member_id r; member_name := member_name r;
     amount := amount r; status := status r; message := message r;
     created_at := c |}.

(** The class is declared [@dataclass(frozen=True, init=False)]: no
    [__init__] is generated, so [cls(id=..., ...)] raises [TypeError] once
    its arguments, among them [new_id("pay")] and [datetime.now()], have
    been evaluated. *)
Definition create (member_id member_name : string) (amount : float)
    (status : PaymentStatus) (message : string) : M world t :=
  if blank member_id then raise (ValidationError "Member id cannot be empty")
  else if blank member_name then raise (ValidationError "Member cannot be empty.")
  else if PrimFloat.ltb amount 0%float
  then raise (ValidationError "Amount cannot be less than 0.")
  else if blank message then raise (ValidationError "Message cannot be empty.")
  else
    let! i := new_id "pay" in
    let! now := datetime_now in
    raise (TypeError "PaymentRecord() takes no arguments").

End PaymentRecord.

Module FakePaymentProcessor.

Record t : Type := { fail_threshold : option float }.

(** The class declares no [__init__]: [FakePaymentProcessor()] takes no
    argument, and any keyword argument is a [TypeError]. *)
Definition new (kwargs : list (string * pyval)) : result t :=
  match kwargs with
  | [] => Ok {| fail_threshold := None |}
  | _ :: _ => Raise (TypeError "FakePaymentProcessor() takes no arguments")
  end.

Definition charge (self : t) (member_id member_name : string) (amount : float)
    : M world PaymentRecord.t :=
  match fail_threshold self with
  | Some threshold =>
      if PrimFloat.ltb threshold amount
      then PaymentRecord.create member_id member_name amount FAILED
             "Simulated Failure, amount exceeds threshold"
      else PaymentRecord.create member_id member_name amount SUCCESS
             "Payment sucessfully processed"
  | None =>
      PaymentRecord.create member_id member_name amount SUCCESS
        "Payment sucessfully processed"
  end.

End FakePaymentProcessor.

Module InMemoryPaymentLedger.

Record t : Type := { records : list PaymentRecord.t }.

Definition add (record : PaymentRecord.t) : M t unit :=
  modify (fun self => {| records := records self ++ [record] |}).

Definition list_all (self : t) : list PaymentRecord.t := records self.

Definition list_all_for_member (self : t) (member_id : string) : list PaymentRecord.t :=
  List.filter (fun r => String.eqb (PaymentRecord.member_id r) member_id) (records self).

(** [sum(xs)]: the additions are made from the left, starting from 0. *)
Definition sum (xs : list float) : float := fold_left PrimFloat.add xs 0%float.

Definition total_success_for_member (self : t) (member_id : string) : float :=
  sum (map PaymentRecord.amount
         (List.filter
            (fun r => String.eqb (PaymentRecord.member_id r) member_id
                      && PaymentStatus_eqb (PaymentRecord.status r) SUCCESS)
            (records self))).

Definition total_success_for_all (self : t) : float :=
  sum (map PaymentRecord.amount
         (List.filter (fun r => PaymentStatus_eqb (PaymentRecord.status r) SUCCESS)
            (records self))).

End InMemoryPaymentLedger.

(** ** workouts.py *)

Module Exercise.

Record t : Type :=
  { name : string;
    sets : Z;
    reps : Z;
    load : option float;
    notes : option string }.

(** [Exercise(name=.., sets=.., reps=.., load=.., notes=..)] with
    [__post_init__]. *)
Definition new (name : string) (sets reps : Z) (load : option float)
    (notes : option string) : result t :=
  let n := lower (strip name) in
  if negb (str_truthy n) then Raise (ValidationError "Exercise name cannot be empty.")
  else if (sets <=? 0)%Z then Raise (ValidationError "Sets must be >= 1")
  else if (reps <=? 0)%Z then Raise (ValidationError "Reps must be >= 1")
  else if match load with Some x => PrimFloat.ltb x 0%float | None => false end
  then Raise (ValidationError "Load cannot be negative.")
  else
    Ok {| name := n; sets := sets; reps := reps; load := load;
          notes := match notes with
                   | Some s => if str_truthy (strip s) then Some (strip s) else None
                   | None => None
                   end |}.

End Exercise.

Module WorkoutPlan.

Record t : Type :=
  { member_id : string;
    title : string;
    id : string;
    created_at : datetime;
    _exercises : list Exercise.t }.

Definition set_id (i : string) (p : t) : t :=
  {| member_id := member_id p; title := title p; id := i;
     created_at := created_at p; _exercises := _exercises p |}.

Definition set_created_at (c : datetime) (p : t) : t :=
  {| member_id := member_id p; title := title p; id := id p;
     created_at := c; _exercises := _exercises p |}.

Definition set_exercises (l : list Exercise.t) (p : t) : t :=
  {| member_id := member_id p; title := title p; id := id p;
     created_at := created_at p; _exercises := l |}.

(** [WorkoutPlan(member_id=.., title=..)] with [__post_init__]. *)
Definition new (member_id title : pyval) : M world t :=
  let! member_id := lift_result
      (required_text member_id (ValidationError "member_id cannot be empty.")) in
  let! title := lift_result
      (required_text title (ValidationError "title cannot be left empty.")) in
  let! i := new_id "wkp" in
  let! now := datetime_now in
  ret {| member_id := member_id; title := title; id := i; created_at := now;
         _exercises := [] |}.

Definition exercises (self : t) : list Exercise.t := _exercises self.

Fixpoint enumerate_from {A} (start : Z) (l : list A) : list (Z * A) :=
  match l with
  | [] => []
  | x :: l' => (start, x) :: enumerate_from (start + 1) l'
  end.

Definition list_exercises_numbered (self : t) : list (Z * Exercise.t) :=
  enumerate_from 1 (exercises self).

Definition add_exercise (exercise : Exercise.t) : M t unit :=
  modify (fun self => set_exercises (_exercises self ++ [exercise]) self).

Definition remove_exercise_by_number (num : Z) : M t unit :=
  let! self := get in
  if (num <? 1)%Z || (Z.of_nat (length (_exercises self)) <? num)%Z
  then raise (ValidationError "Exercise number out of range.")
  else put (set_exercises (delete (Z.to_nat (num - 1)) (_exercises self)) self).

(** [list.remove(x)] after the first [x] found by the loop: the first
    element whose name matches is dropped. *)
Fixpoint remove_first (matches : Exercise.t -> bool) (l : list Exercise.t)
    : option (list Exercise.t) :=
  match l with
  | [] => None
  | e :: l' =>
      if matches e then Some l'
      else match remove_first matches l' with
           | Some r => Some (e :: r)
           | None => None
           end
  end.

Definition remove_exercise_by_name (name : string) : M t unit :=
  let! self := get in
  let name_key := lower (strip name) in
  if negb (str_truthy name_key)
  then raise (ValidationError "Exercise name cannot be empty.")
  else
    match remove_first
            (fun ex => String.eqb (strip (lower (Exercise.name ex))) name_key)
            (_exercises self) with
    | Some l => put (set_exercises l self)
    | None => raise (ValidationError "This exercise does not exist in the plan.")
    end.

Definition total_sets (self : t) : Z :=
  fold_left Z.add (map Exercise.sets (_exercises self)) 0%Z.

End WorkoutPlan.

Module WorkoutCatalog.

Record t : Type :=
  { plans : gmap string WorkoutPlan.t;
    plans_by_member : gmap string (list string) }.

Definition empty : t := {| plans := ∅; plans_by_member := ∅ |}.

Definition add_plan (plan : WorkoutPlan.t) : M t unit :=
  let! self := get in
  match plans self !! WorkoutPlan.id plan with
  | Some _ => raise (ValidationError "This plan already exists in the system.")
  | None =>
      put {| plans := <[WorkoutPlan.id plan := plan]> (plans self);
             plans_by_member :=
               <[WorkoutPlan.member_id plan :=
                   default [] (plans_by_member self !! WorkoutPlan.member_id plan)
                     ++ [WorkoutPlan.id plan]]> (plans_by_member self) |}
  end.

Definition get_plan (plan_id : string) : M t WorkoutPlan.t :=
  let! self := get in
  match plans self !! plan_id with
  | None =>
      raise (ValidationError
               ("Plan with '" ++ plan_id ++ "' does not exist in the system."))
  | Some plan => ret plan
  end.

Definition list_all_plans_for_member (self : t) (member_id : string)
    : list WorkoutPlan.t :=
  omap (fun pid => plans self !! pid)
    (default [] (plans_by_member self !! member_id)).

(** The second lookup of [remove_plan] reads [self.plans] again, with the
    owner's key: it finds nothing unless that key is also the id of another
    plan, and then [plan_id not in plan_ids] tests membership in a
    [WorkoutPlan], which is not a container. [plans_by_member] is never
    read or written. *)
Definition remove_plan (plan_id : string) : M t unit :=
  let! self := get in
  match plans self !! plan_id with
  | None => raise (ValidationError "This plan does not exist in the system.")
  | Some plan =>
      let member_id_key := WorkoutPlan.member_id plan in
      exec put {| plans := delete plan_id (plans self);
                  plans_by_member := plans_by_member self |} in
      let! self := get in
      match plans self !! member_id_key with
      | None =>
          raise (ValidationError "Workout index in consistent: member key missing.")
      | Some plan_ids =>
          raise (TypeError "argument of type 'WorkoutPlan' is not iterable")
      end
  end.

End WorkoutCatalog.

(** ** gym.py, lines 38-237: the aggregate *)

Module Gym.

Record t : Type :=
  { name : string;
    members : gmap string Member.t;
    trainers : gmap string Trainer.t;
    members_by_email : gmap string string;
    trainers_by_email : gmap string string;
    payment_processor : FakePaymentProcessor.t;
    payment_ledger : InMemoryPaymentLedger.t;
    workouts : WorkoutCatalog.t }.

Definition set_members (m : gmap string Member.t) (g : t) : t :=
  {| name := name g; members := m; trainers := trainers g;
     members_by_email := members_by_email g;
     trainers_by_email := trainers_by_email g;
     payment_processor := payment_processor g;
     payment_ledger := payment_ledger g; workouts := workouts g |}.

Definition set_trainers (m : gmap string Trainer.t) (g : t) : t :=
  {| name := name g; members := members g; trainers := m;
     members_by_email := members_by_email g;
     trainers_by_email := trainers_by_email g;
     payment_processor := payment_processor g;
     payment_ledger := payment_ledger g; workouts := workouts g |}.

Definition set_members_by_email (m : gmap string string) (g : t) : t :=
  {| name := name g; members := members g; trainers := trainers g;
     members_by_email := m;
     trainers_by_email := trainers_by_email g;
     payment_processor := payment_processor g;
     payment_ledger := payment_ledger g; workouts := workouts g |}.

Definition set_trainers_by_email (m : gmap string string) (g : t) : t :=
  {| name := name g; members := members g; trainers := trainers g;
     members_by_email := members_by_email g;
     trainers_by_email := m;
     payment_processor := payment_processor g;
     payment_ledger := payment_ledger g; workouts := workouts g |}.

Definition set_payment_processor (p : FakePaymentProcessor.t) (g : t) : t :=
  {| name := name g; members := members g; trainers := trainers g;
     members_by_email := members_by_email g;
     trainers_by_email := trainers_by_email g;
     payment_processor := p;
     payment_ledger := payment_ledger g; workouts := workouts g |}.

Definition set_payment_ledger (l : InMemoryPaymentLedger.t) (g : t) : t :=
  {| name := name g; members := members g; trainers := trainers g;
     members_by_email := members_by_email g;
     trainers_by_email := trainers_by_email g;
     payment_processor := payment_processor g;
     payment_ledger := l; workouts := workouts g |}.

Definition set_workouts (w : WorkoutCatalog.t) (g : t) : t :=
  {| name := name g; members := members g; trainers := trainers g;
     members_by_email := members_by_email g;
     trainers_by_email := trainers_by_email g;
     payment_processor := payment_processor g;
     payment_ledger := payment_ledger g; workouts := w |}.

(** [Gym(name=..)]: every other field takes its default; [__post_init__]
    checks the name and keeps it as given. *)
Definition new (name : pyval) : result t :=
  if negb (truthy name) then Raise (ValidationError "Gym name cannot be empty")
  else
    match name with
    | PStr s =>
        if negb (str_truthy (strip s))
        then Raise (ValidationError "Gym name cannot be empty")
        else
          let? processor := FakePaymentProcessor.new [] in
          Ok {| name := s; members := ∅; trainers := ∅;
                members_by_email := ∅; trainers_by_email := ∅;
                payment_processor := processor;
                payment_ledger := {| InMemoryPaymentLedger.records := [] |};
                workouts := WorkoutCatalog.empty |}
    | _ => Raise (AttributeError "strip")
    end.

(** The state of a method that also mints identifiers or reads the clock. *)
Definition on_gym {A} (m : M t A) : M (t * world) A :=
  zoom fst (fun g s => (g, snd s)) m.

Definition on_world {A} (m : M world A) : M (t * world) A :=
  zoom snd (fun w s => (fst s, w)) m.

Definition email_key (email : string) : string := strip (lower email).

Definition add_member (member : Member.t) : M t unit :=
  let! self := get in
  if MembershipStatus_eqb (BaseMembership.status (Member.membership member)) CANCELLED
  then raise (ValidationError "Cannot add a member with cancelled status.")
  else
    match members self !! Member.id member with
    | Some _ => raise (ValidationError "This member already exists in the system.")
    | None =>
        let email_key := email_key (Member.email member) in
        match members_by_email self !! email_key with
        | Some _ =>
            raise (ValidationError
                     "Member with this email already exists in the system.")
        | None =>
            exec modify (set_members (<[Member.id member := member]> (members self))) in
            modify (set_members_by_email
                      (<[email_key := Member.id member]> (members_by_email self)))
        end
    end.

Definition get_member (member_id : string) : M t Member.t :=
  let! self := get in
  match members self !! strip member_id with
  | Some m => ret m
  | None =>
      raise (NotFoundError
               ("Member with '" ++ member_id ++ "' member id not found in the system."))
  end.

Definition find_member_by_email (email : string) : M t (option Member.t) :=
  let! self := get in
  match members_by_email self !! email_key email with
  | None => ret None
  | Some member_id =>
      match members self !! member_id with
      | Some m => ret (Some m)
      | None => raise (KeyError member_id)
      end
  end.

Definition remove_member (member_id : string) : M t unit :=
  let! self := get in
  match members self !! member_id with
  | None => raise (NotFoundError "This member does not exist in the system.")
  | Some member =>
      let email_key := email_key (Member.email member) in
      exec modify (set_members (delete member_id (members self))) in
      if decide (members_by_email self !! email_key = Some member_id)
      then modify (set_members_by_email (delete email_key (members_by_email self)))
      else raise (ValidationError "Inconsistent email index for member.")
  end.

(** The member object is shared with the index: the change made by the
    method is stored back under the key it was found at. *)
Definition update_member (member_id : string) (method : M Member.t unit) : M t unit :=
  let! member := get_member member_id in
  let '(r, member') := method member in
  exec modify (fun self =>
                 set_members (<[strip member_id := member']> (members self)) self) in
  lift_result r.

Definition cancel_member_membership (member_id : string) : M t unit :=
  update_member member_id Member.cancel_membership.

Definition pause_membership (member_id : string) : M t unit :=
  update_member member_id Member.pause_membership.

Definition list_members {order : DictOrder} (self : t) : list Member.t :=
  snd <$> dict_items (members self).

Definition charge_member {builtins : Builtins} (member_id : string) (amount : option float)
    : M (t * world) PaymentRecord.t :=
  let! member := on_gym (get_member member_id) in
  if negb (Member.is_active member)
  then raise (ValidationError "Cannot charge an inactive member.")
  else
    let charge_amount :=
      match amount with None => Member.monthly_price member | Some a => a end in
    if PrimFloat.ltb charge_amount 0%float
    then raise (ValidationError "Charge amount cannot be negative.")
    else
      let! self := on_gym get in
      let! record := on_world
          (FakePaymentProcessor.charge (payment_processor self)
             (Member.id member) (Member.full_name member) charge_amount) in
      exec on_gym (zoom payment_ledger set_payment_ledger
                     (InMemoryPaymentLedger.add record)) in
      ret record.

Definition list_all_payments_for_member (member_id : string)
    : M t (list PaymentRecord.t) :=
  let! _m := get_member member_id in
  let! self := get in
  ret (InMemoryPaymentLedger.list_all_for_member (payment_ledger self) member_id).

Definition total_paid_by_member (member_id : string) : M t float :=
  let! _m := get_member member_id in
  let! self := get in
  ret (InMemoryPaymentLedger.total_success_for_member (payment_ledger self) member_id).

Definition total_revenue (self : t) : float :=
  InMemoryPaymentLedger.total_success_for_all (payment_ledger self).

Definition on_workouts {A} (m : M WorkoutCatalog.t A) : M t A :=
  zoom workouts set_workouts m.

Definition create_workout_plan (member_id title : string)
    : M (t * world) WorkoutPlan.t :=
  let! member := on_gym (get_member member_id) in
  let! plan := on_world (WorkoutPlan.new (PStr (Member.id member)) (PStr title)) in
  exec on_gym (on_workouts (WorkoutCatalog.add_plan plan)) in
  ret plan.

Definition get_workout_plan (plan_id : string) : M t WorkoutPlan.t :=
  on_workouts (WorkoutCatalog.get_plan plan_id).

Definition remove_workout_plan (plan_id : string) : M t unit :=
  on_workouts (WorkoutCatalog.remove_plan plan_id).

(** The plan object is shared with the catalog. *)
Definition update_plan (plan_id : string) (method : M WorkoutPlan.t unit) : M t unit :=
  let! plan := get_workout_plan plan_id in
  let '(r, plan') := method plan in
  exec on_workouts
         (modify (fun cat =>
                    {| WorkoutCatalog.plans := <[plan_id := plan']> (WorkoutCatalog.plans cat);
                       WorkoutCatalog.plans_by_member := WorkoutCatalog.plans_by_member cat |})) in
  lift_result r.

Definition add_exercise_to_plan (plan_id : string) (exercise : Exercise.t) : M t unit :=
  update_plan plan_id (WorkoutPlan.add_exercise exercise).

Definition remove_exercise_from_plan (plan_id : string) (number : Z) : M t unit :=
  update_plan plan_id (WorkoutPlan.remove_exercise_by_number number).

Definition remove_exercise_by_name (plan_id name : string) : M t unit :=
  update_plan plan_id (WorkoutPlan.remove_exercise_by_name name).

Definition list_plans_for_member (member_id : string) : M t (list WorkoutPlan.t) :=
  let! member := get_member member_id in
  let! self := get in
  ret (WorkoutCatalog.list_all_plans_for_member (workouts self) (Member.id member)).

Definition add_trainer (trainer : Trainer.t) : M t unit :=
  let! self := get in
  match trainers self !! Trainer.id trainer with
  | Some _ => raise (ValidationError "This trainer already exists in the system.")
  | None =>
      let email_key := email_key (Trainer.email trainer) in
      match trainers_by_email self !! email_key with
      | Some _ =>
          raise (ValidationError
                   "Trainer with this email already exists in the system.")
      | None =>
          exec modify (set_trainers (<[Trainer.id trainer := trainer]> (trainers self))) in
          modify (set_trainers_by_email
                    (<[email_key := Trainer.id trainer]> (trainers_by_email self)))
      end
  end.

Definition get_trainer (trainer_id : string) : M t Trainer.t :=
  let! self := get in
  match trainers self !! trainer_id with
  | Some tr => ret tr
  | None => raise (NotFoundError "This trainer does not exist in the system.")
  end.

Definition find_trainer_by_email (email : string) : M t (option Trainer.t) :=
  let! self := get in
  match trainers_by_email self !! email_key email with
  | None => ret None
  | Some trainer_id =>
      match trainers self !! trainer_id with
      | Some tr => ret (Some tr)
      | None => raise (KeyError trainer_id)
      end
  end.

Definition remove_trainer (trainer_id : string) : M t unit :=
  let! self := get in
  match trainers self !! trainer_id with
  | None => raise (NotFoundError "This trainer does not exist in the system.")
  | Some trainer =>
      let email_key := email_key (Trainer.email trainer) in
      exec modify (set_trainers (delete trainer_id (trainers self))) in
      if decide (trainers_by_email self !! email_key = Some trainer_id)
      then modify (set_trainers_by_email (delete email_key (trainers_by_email self)))
      else raise (ValidationError "Inconsistent email index for trainer.")
  end.

Definition list_trainers {order : DictOrder} (self : t) : list Trainer.t :=
  snd <$> dict_items (trainers self).

Definition total_member_count (self : t) : nat := size (members self).

Definition total_trainer_count (self : t) : nat := size (trainers self).

End Gym.

(** ** The file system and [pathlib], as far as storage.py uses them *)

Module Fs.

(** A path is its sequence of components; its name is the last one. *)
Definition Path : Type := list string.

Definition name (p : Path) : string := List.last p "".

Definition parent (p : Path) : Path := removelast p.

Definition to_string (p : Path) : string := String.concat "/" p.

(** [name.rfind('.')] *)
Fixpoint rfind_dot (l : list ascii) (pos : nat) (found : option nat) : option nat :=
  match l with
  | [] => found
  | c :: l' =>
      rfind_dot l' (S pos) (if Ascii.eqb c "." then Some pos else found)
  end.

(** [PurePath.suffix]: the name from its last dot on, when that dot is
    neither the first nor the last character. *)
Definition suffix_chars (name : list ascii) : list ascii :=
  match rfind_dot name 0 None with
  | Some i =>
      if (0 <? i)%nat && (i <? length name - 1)%nat then drop i name else []
  | None => []
  end.

Definition suffix (p : Path) : string :=
  string_of_list_ascii (suffix_chars (list_ascii_of_string (name p))).

(** [PurePath.with_suffix(suffix)] *)
Definition with_suffix (p : Path) (new_suffix : string) : result Path :=
  let sfx := list_ascii_of_string new_suffix in
  if contains_char "/" new_suffix
     || (match sfx with
         | [] => false
         | c :: rest => negb (Ascii.eqb c ".") || match rest with [] => true | _ => false end
         end)
  then Raise (ValueError "Invalid suffix")
  else
    let n := list_ascii_of_string (name p) in
    match n with
    | [] => Raise (ValueError "path has an empty name")
    | _ :: _ =>
        let old_suffix := suffix_chars n in
        let n' :=
          match old_suffix with
          | [] => n ++ sfx
          | _ :: _ => take (length n - length old_suffix) n ++ sfx
          end in
        Ok (parent p ++ [string_of_list_ascii n'])
    end.

(** What is at a path: a directory, or a regular file with its content as
    [json.load] sees it, that is the text of a JSON document, identified
    with the document ([json.load] returns what [json.dump] was given), or
    text that is not a JSON document. *)
Inductive content : Type :=
| Json (doc : pyval)
| NotJson (text : string)
| Directory.

(** The directories and regular files, by path relative to the current
    directory, which is the empty path and always exists. *)
Definition t : Type := gmap Path content.

Definition exists_ (fs : gmap Path content) (p : Path) : bool :=
  bool_decide (is_Some (fs !! p)).

Definition is_file (fs : gmap Path content) (p : Path) : bool :=
  match fs !! p with
  | Some (Json _) | Some (NotJson _) => true
  | Some Directory | None => false
  end.

Definition is_dir (fs : gmap Path content) (p : Path) : bool :=
  match p with
  | [] => true
  | _ :: _ => match fs !! p with Some Directory => true | _ => false end
  end.

(** The non-empty prefixes of a path: the directories [mkdir(parents=True)]
    visits. *)
Definition ancestors_or_self (p : Path) : list Path :=
  map (fun n => take n p) (seq 1 (length p)).

Definition make_directories (dirs : list Path) (fs : gmap Path content)
    : gmap Path content :=
  foldr (fun d fs => <[d := Directory]> fs) fs dirs.

(** The primitive steps of a write. *)
Inductive op : Type :=
| Mkdir (dir : Path)
| OpenTruncate (p : Path)
| Dump (payload : pyval) (p : Path)
| Replace (src dst : Path).

(** One step.
    - [Mkdir] is [mkdir(parents=True, exist_ok=True)]: it fails when a
      regular file is in the way, and otherwise leaves a directory at every
      prefix of the path.
    - [OpenTruncate] is [open("w")]: it fails on a directory and where there
      is no directory to hold the file; the file is empty until the document
      has been written.
    - [Dump] writes the document to the file just opened.
    - [Replace] is [os.replace] of a regular file: it fails when the
      destination is a directory, and the source then stays where it is. *)
Definition step (o : op) : M (gmap Path content) unit :=
  match o with
  | Mkdir dir =>
      let! fs := get in
      if existsb (is_file fs) (ancestors_or_self dir)
      then raise (OSError (if is_file fs dir then "FileExistsError"
                           else "NotADirectoryError"))
      else put (make_directories (ancestors_or_self dir) fs)
  | OpenTruncate p =>
      let! fs := get in
      if negb (is_dir fs (parent p))
      then raise (OSError (if is_file fs (parent p) then "NotADirectoryError"
                           else "FileNotFoundError"))
      else
        match fs !! p with
        | Some Directory => raise (OSError "IsADirectoryError")
        | _ => put (<[p := NotJson ""]> fs)
        end
  | Dump payload p => modify (fun fs => <[p := Json payload]> fs)
  | Replace src dst =>
      let! fs := get in
      match fs !! src with
      | Some Directory => raise (OSError "NotADirectoryError")
      | Some c =>
          match fs !! dst with
          | Some Directory => raise (OSError "IsADirectoryError")
          | _ => put (<[dst := c]> (delete src fs))
          end
      | None => raise (OSError "FileNotFoundError")
      end
  end.

Definition run (ops : list op) : M (gmap Path content) unit :=
  for_each ops step.

(** [json.load] of what [open("r")] gives at [p]. *)
Definition json_load (fs : gmap Path content) (p : Path) : result pyval :=
  match fs !! p with
  | Some (Json doc) => Ok doc
  | Some (NotJson _) => Raise JSONDecodeError
  | Some Directory => Raise (OSError "IsADirectoryError")
  | None => Raise (OSError "FileNotFoundError")
  end.

End Fs.

(** ** storage.py: the codec *)

Module storage.

Section Codec.
Context {builtins : Builtins} {order : DictOrder}.

Definition price_policy_to_dict (policy : PricePolicy.t) : pyval :=
  match policy with
  | PricePolicy.NoDiscount => PDict [("type", PStr "no_discount")]
  | PricePolicy.PercentOff discount =>
      PDict [("type", PStr "percent_off"); ("discount", PFloat discount)]
  | PricePolicy.FixedPrice price =>
      PDict [("type", PStr "fixed_price"); ("price", PFloat price)]
  end.

Definition price_policy_from_dict (data : pyval) : result PricePolicy.t :=
  let? policy_type := dict_get data "type" in
  if eq_str policy_type "no_discount" then Ok PricePolicy.NoDiscount
  else if eq_str policy_type "percent_off" then
    let? raw := dict_item data "discount" in
    let? discount := float_ raw in
    PricePolicy.new_PercentOff discount
  else if eq_str policy_type "fixed_price" then
    let? raw := dict_item data "price" in
    let? price := float_ raw in
    PricePolicy.new_FixedPrice price
  else Raise (ValidationError ("Unknown policy type: " ++ str policy_type)).

(** [isinstance(m, BaseMembership)]: both classes derive from it. *)
Definition isinstance_BaseMembership (m : BaseMembership.t) : bool := true.

Definition isinstance_PremiumMembership (m : BaseMembership.t) : bool :=
  match BaseMembership.class_of m with
  | BaseMembership.PremiumMembership => true
  | BaseMembership.BasicMembership => false
  end.

Definition membership_to_dict (membership : BaseMembership.t) : result pyval :=
  let? membership_type :=
    if isinstance_BaseMembership membership then Ok "basic"
    else if isinstance_PremiumMembership membership then Ok "premium"
    else Raise (ValidationError "Unknown membership type") in
  Ok (PDict [("type", PStr membership_type);
             ("status", PStr (MembershipStatus_value (BaseMembership.status membership)));
             ("price_policy", price_policy_to_dict (BaseMembership.price_policy membership))]).

Definition membership_from_dict (data : pyval) : M world BaseMembership.t :=
  let! membership_type := lift_result (dict_get data "type") in
  let! status_str := lift_result (dict_get data "status") in
  let! policy_data := lift_result (dict_get data "price_policy") in
  let! policy := lift_result (price_policy_from_dict policy_data) in
  let! membership :=
    if eq_str membership_type "basic"
    then BaseMembership.new BaseMembership.BasicMembership policy
    else if eq_str membership_type "premium"
    then BaseMembership.new BaseMembership.PremiumMembership policy
    else raise (ValidationError ("Unknown membership type: " ++ str membership_type)) in
  let! status := lift_result (MembershipStatus_of status_str) in
  ret (BaseMembership.set_status status membership).

Definition member_to_dict (member : Member.t) : result pyval :=
  let? membership := membership_to_dict (Member.membership member) in
  Ok (PDict [("id", PStr (Member.id member));
             ("full_name", PStr (Member.full_name member));
             ("email", PStr (Member.email member));
             ("join_date", PStr (date_isoformat (Member.join_date member)));
             ("membership", membership)]).

(** The key [join_date] is not read: the member is built with the default
    join date. *)
Definition member_from_dict (data : pyval) : M world Member.t :=
  if negb (is_dict data) then raise (ValidationError "Member data must be a dictionary.")
  else
    let! full_name := lift_result (dict_get data "full_name") in
    let! email := lift_result (dict_get data "email") in
    if negb (truthy full_name) || negb (str_truthy (strip (str full_name)))
    then raise (ValidationError "Member missing full name.")
    else if negb (truthy email) && negb (str_truthy (strip (str email)))
    then raise (ValidationError "Trainer missing email.")
    else
      let! membership_data := lift_result (dict_item data "membership") in
      let! membership := membership_from_dict membership_data in
      let! member := Member.new full_name email membership None in
      let! stored_id := lift_result (dict_get data "id") in
      if truthy stored_id
      then ret (Member.set_id (str stored_id) member)
      else ret member.

Definition trainer_to_dict (trainer : Trainer.t) : pyval :=
  PDict [("id", PStr (Trainer.id trainer));
         ("full_name", PStr (Trainer.full_name trainer));
         ("email", PStr (Trainer.email trainer));
         ("specialty", match Trainer.specialty trainer with
                       | Some s => PStr s
                       | None => PNone
                       end)].

(** [trainer.id = stored_id] stores the value as it is; identifiers are
    strings here, so a stored id of another type is kept as its text. *)
Definition trainer_from_dict (data : pyval) : M world Trainer.t :=
  if negb (is_dict data) then raise (ValidationError "Trainer data must be a dictionary.")
  else
    let! full_name := lift_result (dict_get data "full_name") in
    let! email := lift_result (dict_get data "email") in
    if negb (truthy full_name) || negb (str_truthy (strip (str full_name)))
    then raise (ValidationError "Trainer full name missing.")
    else if negb (truthy email) || negb (str_truthy (strip (str email)))
    then raise (ValidationError "Trainer email missing.")
    else
      let! specialty := lift_result (dict_get data "specialty") in
      let! trainer := Trainer.new full_name email specialty in
      let! stored_id := lift_result (dict_get data "id") in
      if truthy stored_id
      then ret (Trainer.set_id (str stored_id) trainer)
      else ret trainer.

Definition optional {A} (inj : A -> pyval) (o : option A) : pyval :=
  match o with Some a => inj a | None => PNone end.

Definition exercise_to_dict (exercise : Exercise.t) : pyval :=
  PDict [("name", PStr (Exercise.name exercise));
         ("sets", PInt (Exercise.sets exercise));
         ("reps", PInt (Exercise.reps exercise));
         ("load", optional PFloat (Exercise.load exercise));
         ("notes", optional PStr (Exercise.notes exercise))].

Definition exercise_from_dict (data : pyval) : result Exercise.t :=
  if negb (is_dict data) then Raise (ValidationError "Exercise data must be a dictionary.")
  else
    let? name := dict_get data "name" in
    if negb (truthy name) || negb (str_truthy (strip (str name)))
    then Raise (ValidationError "Exercise name missing.")
    else
      let? raw_sets := dict_get_default data "sets" (PInt 0) in
      let? sets := int_ raw_sets in
      let? raw_reps := dict_get_default data "reps" (PInt 0) in
      let? reps := int_ raw_reps in
      let? raw_load := dict_get data "load" in
      let? load :=
        if is_None raw_load then Ok None
        else let? x := float_ raw_load in Ok (Some x) in
      let? raw_notes := dict_get data "notes" in
      let notes := if is_None raw_notes then None else Some (str raw_notes) in
      Exercise.new (str name) sets reps load notes.

Definition workout_plan_to_dict (plan : WorkoutPlan.t) : pyval :=
  PDict [("id", PStr (WorkoutPlan.id plan));
         ("member_id", PStr (WorkoutPlan.member_id plan));
         ("title", PStr (WorkoutPlan.title plan));
         ("created_at", PStr (datetime_isoformat (WorkoutPlan.created_at plan)));
         ("exercises", PList (map exercise_to_dict (WorkoutPlan.exercises plan)))].

Definition workout_plan_from_dict (data : pyval) : M world WorkoutPlan.t :=
  if negb (is_dict data)
  then raise (ValidationError "Workout plan data must be a dictionary.")
  else
    let! member_id := lift_result (dict_get data "member_id") in
    let! title := lift_result (dict_get data "title") in
    if negb (truthy member_id) || negb (str_truthy (strip (str member_id)))
    then raise (ValidationError "WorkoutPlan missing member_id.")
    else if negb (truthy title) || negb (str_truthy (strip (str title)))
    then raise (ValidationError "WorkoutPlan missing title.")
    else
      let! plan := WorkoutPlan.new member_id title in
      let! raw_id := lift_result (dict_get data "id") in
      let stored_id := str raw_id in
      let plan := if str_truthy stored_id then WorkoutPlan.set_id stored_id plan else plan in
      let! created_at := lift_result (dict_get data "created_at") in
      let! plan :=
        if truthy created_at
        then let! c := lift_result (fromisoformat (str created_at)) in
             ret (WorkoutPlan.set_created_at c plan)
        else ret plan in
      let! exercise_data := lift_result (dict_get_default data "exercises" (PList [])) in
      match exercise_data with
      | PList exs =>
          fold_each exs plan
            (fun plan ex =>
               let! e := lift_result (exercise_from_dict ex) in
               ret (snd (WorkoutPlan.add_exercise e plan)))
      | _ => raise (ValidationError "WorkoutPlan.exercises must be a list.")
      end.

Definition workout_catalog_to_dict (cat : WorkoutCatalog.t) : pyval :=
  PDict [("plans",
          PDict (map (fun kv => (fst kv, workout_plan_to_dict (snd kv)))
                   (dict_items (WorkoutCatalog.plans cat))))].

Definition workout_catalog_from_dict (data : pyval) : M world WorkoutCatalog.t :=
  if negb (is_dict data)
  then raise (ValidationError "WorkoutCatalog data must be a Dictionary.")
  else
    let! plans_data := lift_result (dict_get_default data "plans" (PDict [])) in
    match plans_data with
    | PDict items =>
        fold_each items WorkoutCatalog.empty
          (fun cat kv =>
             let! plan := workout_plan_from_dict (snd kv) in
             ret {| WorkoutCatalog.plans :=
                      <[WorkoutPlan.id plan := plan]> (WorkoutCatalog.plans cat);
                    WorkoutCatalog.plans_by_member :=
                      <[WorkoutPlan.member_id plan :=
                          default [] (WorkoutCatalog.plans_by_member cat
                                        !! WorkoutPlan.member_id plan)
                            ++ [WorkoutPlan.id plan]]>
                        (WorkoutCatalog.plans_by_member cat) |})
    | _ => raise (ValidationError "WorkoutCatalog.plans must be a dictionary.")
    end.

Definition payment_record_to_dict (record : PaymentRecord.t) : pyval :=
  PDict [("id", PStr (PaymentRecord.id record));
         ("member_id", PStr (PaymentRecord.member_id record));
         ("member_name", PStr (PaymentRecord.member_name record));
         ("amount", PFloat (PaymentRecord.amount record));
         ("status", PStr (PaymentStatus_value (PaymentRecord.status record)));
         ("message", PStr (PaymentRecord.message record));
         ("created_at", PStr (datetime_isoformat (PaymentRecord.created_at record)))].

(** [float(amount_raw)] under [except (TypeError, ValueError)]. *)
Definition amount_of (amount_raw : pyval) : result float :=
  match float_ amount_raw with
  | Ok x => Ok x
  | Raise (TypeError _) | Raise (ValueError _) =>
      Raise (ValidationError "PaymentRecord amount must be a positive number.")
  | Raise e => Raise e
  end.

Definition payment_record_from_dict (data : pyval) : M world PaymentRecord.t :=
  if negb (is_dict data) then raise (ValidationError "PaymentRecord must be a Dictionary.")
  else
    let! member_id := lift_result (dict_get data "member_id") in
    if negb (truthy member_id) || negb (str_truthy (strip (str member_id)))
    then raise (ValidationError "PaymentRecord missing member id.")
    else
      let! member_name := lift_result (dict_get data "member_name") in
      if negb (truthy member_name) || negb (str_truthy (strip (str member_name)))
      then raise (ValidationError "PaymentRecord missing member_name.")
      else
        let! amount_raw := lift_result (dict_get data "amount") in
        let! amount := lift_result (amount_of amount_raw) in
        if PrimFloat.ltb amount 0%float
        then raise (ValidationError "PaymentRecord amount must be greater than 0.")
        else
          let! status_str := lift_result (dict_get data "status") in
          if negb (truthy status_str) || negb (str_truthy (strip (str status_str)))
          then raise (ValidationError "PaymentRecord missing payment status")
          else
            let! status := lift_result (PaymentStatus_of (str status_str)) in
            let! message := lift_result (dict_get data "message") in
            if negb (truthy message) || negb (str_truthy (strip (str message)))
            then raise (ValidationError "PaymentRecord missing message.")
            else
              let! record :=
                PaymentRecord.create (strip (str member_id)) (strip (str member_name))
                  amount status (strip (str message)) in
              let! stored_id := lift_result (dict_get data "id") in
              let record :=
                if truthy stored_id
                then PaymentRecord.set_id (str stored_id) record else record in
              let! created_at := lift_result (dict_get data "created_at") in
              if truthy created_at
              then let! c := lift_result (fromisoformat (str created_at)) in
                   ret (PaymentRecord.set_created_at c record)
              else ret record.

Definition ledger_to_dict (ledger : InMemoryPaymentLedger.t) : pyval :=
  PDict [("records",
          PList (map payment_record_to_dict (InMemoryPaymentLedger.records ledger)))].

Definition ledger_from_dict (data : pyval) : M world InMemoryPaymentLedger.t :=
  if negb (is_dict data)
  then raise (ValidationError "InMemoryPaymentLedger data must be a Dictionary.")
  else
    let! records_data := lift_result (dict_get_default data "records" (PList [])) in
    match records_data with
    | PList items =>
        fold_each items {| InMemoryPaymentLedger.records := [] |}
          (fun ledger rdata =>
             let! record := payment_record_from_dict rdata in
             ret (snd (InMemoryPaymentLedger.add record ledger)))
    | _ => raise (ValidationError "Ledger.records must be a list.")
    end.

(** A dict comprehension over the items of an index; it stops at the first
    entry whose encoder raises. *)
Fixpoint encode_items {A} (encode : A -> result pyval) (items : list (string * A))
    : result (list (string * pyval)) :=
  match items with
  | [] => Ok []
  | (k, a) :: items' =>
      let? v := encode a in
      let? rest := encode_items encode items' in
      Ok ((k, v) :: rest)
  end.

Definition gym_to_dict (gym : Gym.t) : result pyval :=
  let? members := encode_items member_to_dict (dict_items (Gym.members gym)) in
  let? trainers :=
    encode_items (fun tr => Ok (trainer_to_dict tr)) (dict_items (Gym.trainers gym)) in
  Ok (PDict [("name", PStr (Gym.name gym));
             ("members", PDict members);
             ("trainers", PDict trainers);
             ("payment_processor",
              PDict [("type", PStr "fake");
                     ("fail_threshold",
                      optional PFloat
                        (FakePaymentProcessor.fail_threshold (Gym.payment_processor gym)))]);
             ("workouts", workout_catalog_to_dict (Gym.workouts gym));
             ("payment_ledger", ledger_to_dict (Gym.payment_ledger gym))]).

Definition gym_from_dict (data : pyval) : M world Gym.t :=
  if negb (is_dict data) then raise (ValidationError "Gym data must be a dictionary.")
  else
    let! name := lift_result (dict_get data "name") in
    if negb (truthy name) || negb (str_truthy (strip (str name)))
    then raise (ValidationError "Gym missing name.")
    else
      let! gym := lift_result (Gym.new name) in
      let! members_data := lift_result (dict_get data "members") in
      let! gym :=
        match members_data with
        | PDict items =>
            fold_each items gym
              (fun gym kv =>
                 let! member := member_from_dict (snd kv) in
                 ret (Gym.set_members_by_email
                        (<[Gym.email_key (Member.email member) := Member.id member]>
                           (Gym.members_by_email gym))
                        (Gym.set_members
                           (<[Member.id member := member]> (Gym.members gym)) gym)))
        | _ => raise (ValidationError "Members data must be a dictionary.")
        end in
      let! trainers_data := lift_result (dict_get data "trainers") in
      let! gym :=
        match trainers_data with
        | PDict items =>
            fold_each items gym
              (fun gym kv =>
                 let! trainer := trainer_from_dict (snd kv) in
                 ret (Gym.set_trainers_by_email
                        (<[Gym.email_key (Trainer.email trainer) := Trainer.id trainer]>
                           (Gym.trainers_by_email gym))
                        (Gym.set_trainers
                           (<[Trainer.id trainer := trainer]> (Gym.trainers gym)) gym)))
        | _ => raise (ValidationError "Trainers data must be a dictionary.")
        end in
      let! workouts_data := lift_result (dict_get_default data "workouts" (PDict [])) in
      let! workouts := workout_catalog_from_dict workouts_data in
      let gym := Gym.set_workouts workouts gym in
      let! ledger_data := lift_result (dict_get_default data "payment_ledger" (PDict [])) in
      let! ledger := ledger_from_dict ledger_data in
      let gym := Gym.set_payment_ledger ledger gym in
      let! pp_data := lift_result (dict_get_default data "payment_processor" (PDict [])) in
      let! pp_type := lift_result (dict_get_default pp_data "type" (PStr "fake")) in
      if eq_str pp_type "fake" then
        let! fail_threshold := lift_result (dict_get pp_data "fail_threshold") in
        let! processor := lift_result
            (FakePaymentProcessor.new [("fail_threshold", fail_threshold)]) in
        ret (Gym.set_payment_processor processor gym)
      else raise (ValidationError ("Unknown payment processor " ++ str pp_type)).

(** ** storage.py: the snapshot store *)

Definition CURRENT_SCHEMA_VERSION : Z := 1.

Definition payload_of (gym_doc : pyval) : pyval :=
  PDict [("schema_version", PInt CURRENT_SCHEMA_VERSION); ("gym", gym_doc)].

(** The file operations of [save_gym], in program order, and the exception
    that ends it early, if any. The parent directory is made before the
    snapshot is encoded and before the temporary path is computed. *)
Definition save_gym_ops (gym : Gym.t) (path : Fs.Path) : list Fs.op * option exn :=
  match gym_to_dict gym with
  | Raise e => ([Fs.Mkdir (Fs.parent path)], Some e)
  | Ok gym_doc =>
      match Fs.with_suffix path (Fs.suffix path ++ ".tmp") with
      | Raise e => ([Fs.Mkdir (Fs.parent path)], Some e)
      | Ok tmp_path =>
          ([Fs.Mkdir (Fs.parent path);
            Fs.OpenTruncate tmp_path;
            Fs.Dump (payload_of gym_doc) tmp_path;
            Fs.Replace tmp_path path], None)
      end
  end.

Definition save_gym (gym : Gym.t) (filepath : Fs.Path) : M (gmap Fs.Path Fs.content) unit :=
  let '(ops, failure) := save_gym_ops gym filepath in
  exec Fs.run ops in
  match failure with
  | Some e => raise e
  | None => ret tt
  end.

Definition load_gym (fs : gmap Fs.Path Fs.content) (filepath : Fs.Path) : M world Gym.t :=
  if negb (Fs.exists_ fs filepath)
  then raise (ValidationError ("No save file found at " ++ Fs.to_string filepath))
  else
    let! payload := lift_result (Fs.json_load fs filepath) in
    if negb (is_dict payload)
    then raise (ValidationError
                  "Unexpected save file format: expected json instance at root.")
    else
      let! version := lift_result (dict_get payload "schema_version") in
      if negb (eq_int version CURRENT_SCHEMA_VERSION)
      then raise (ValidationError "Unsupported schema version: expected 1.")
      else
        let! gym_data := lift_result (dict_get payload "gym") in
        if negb (is_dict gym_data)
        then raise (ValidationError "Invalid save file format: missing 'gym' object.")
        else gym_from_dict gym_data.

End Codec.

End storage.


(** ** The dual-index invariant and the aggregate's mutation operations *)

Module Index.

(** Members by email, as stated: every id in the secondary index resolves in
    the primary map to a member whose normalized email is the secondary key,
    and the email key of every member is present in the secondary index. *)
Definition members_consistent (g : Gym.t) : Prop :=
  (forall key id, Gym.members_by_email g !! key = Some id ->
     exists m, Gym.members g !! id = Some m
               /\ Gym.email_key (Member.email m) = key)
  /\ (forall id m, Gym.members g !! id = Some m ->
        is_Some (Gym.members_by_email g !! Gym.email_key (Member.email m))).

Definition trainers_consistent (g : Gym.t) : Prop :=
  (forall key id, Gym.trainers_by_email g !! key = Some id ->
     exists tr, Gym.trainers g !! id = Some tr
                /\ Gym.email_key (Trainer.email tr) = key)
  /\ (forall id tr, Gym.trainers g !! id = Some tr ->
        is_Some (Gym.trainers_by_email g !! Gym.email_key (Trainer.email tr))).

(** Plans by member: every id in a member's list resolves to a plan owned by
    that member, and the owner of every plan has an entry. *)
Definition plans_consistent (cat : WorkoutCatalog.t) : Prop :=
  (forall key ids id, WorkoutCatalog.plans_by_member cat !! key = Some ids ->
     id ∈ ids ->
     exists p, WorkoutCatalog.plans cat !! id = Some p
               /\ WorkoutPlan.member_id p = key)
  /\ (forall id p, WorkoutCatalog.plans cat !! id = Some p ->
        is_Some (WorkoutCatalog.plans_by_member cat !! WorkoutPlan.member_id p)).

Definition consistent (g : Gym.t) : Prop :=
  members_consistent g /\ trainers_consistent g /\ plans_consistent (Gym.workouts g).

(** The form the operations maintain: the secondary entry of an entity's key
    names that very entity. *)
Definition synchronized {A : Type} (key_of : A -> string)
    (primary : gmap string A) (secondary : gmap string string) : Prop :=
  (forall key id, secondary !! key = Some id ->
     exists a, primary !! id = Some a /\ key_of a = key)
  /\ (forall id a, primary !! id = Some a -> secondary !! key_of a = Some id).

Definition member_key (m : Member.t) : string := Gym.email_key (Member.email m).

Definition trainer_key (tr : Trainer.t) : string := Gym.email_key (Trainer.email tr).

Definition members_synchronized (g : Gym.t) : Prop :=
  synchronized member_key (Gym.members g) (Gym.members_by_email g).

Definition trainers_synchronized (g : Gym.t) : Prop :=
  synchronized trainer_key (Gym.trainers g) (Gym.trainers_by_email g).

Definition plans_synchronized (cat : WorkoutCatalog.t) : Prop :=
  (forall key ids id, WorkoutCatalog.plans_by_member cat !! key = Some ids ->
     id ∈ ids ->
     exists p, WorkoutCatalog.plans cat !! id = Some p
               /\ WorkoutPlan.member_id p = key)
  /\ (forall id p, WorkoutCatalog.plans cat !! id = Some p ->
        exists ids, WorkoutCatalog.plans_by_member cat !! WorkoutPlan.member_id p = Some ids
                    /\ id ∈ ids).

(** Two aggregates with the same email indexes. *)
Definition same_people (g g' : Gym.t) : Prop :=
  Gym.members g' = Gym.members g
  /\ Gym.members_by_email g' = Gym.members_by_email g
  /\ Gym.trainers g' = Gym.trainers g
  /\ Gym.trainers_by_email g' = Gym.trainers_by_email g.

(** A call of one of the aggregate's mutation operations. *)
Inductive op : Type :=
| AddMember (member : Member.t)
| RemoveMember (member_id : string)
| AddTrainer (trainer : Trainer.t)
| RemoveTrainer (trainer_id : string)
| CreateWorkoutPlan (member_id title : string)
| RemoveWorkoutPlan (plan_id : string).

Definition call (o : op) : M (Gym.t * world) unit :=
  match o with
  | AddMember member => Gym.on_gym (Gym.add_member member)
  | RemoveMember member_id => Gym.on_gym (Gym.remove_member member_id)
  | AddTrainer trainer => Gym.on_gym (Gym.add_trainer trainer)
  | RemoveTrainer trainer_id => Gym.on_gym (Gym.remove_trainer trainer_id)
  | CreateWorkoutPlan member_id title =>
      exec Gym.create_workout_plan member_id title in ret tt
  | RemoveWorkoutPlan plan_id => Gym.on_gym (Gym.remove_workout_plan plan_id)
  end.

(** The state after a sequence of calls; a call that raises leaves the state
    it had reached and the sequence goes on, as a caller that catches the
    exception does. *)
Fixpoint run (ops : list op) (s : Gym.t * world) : Gym.t * world :=
  match ops with
  | [] => s
  | o :: ops' => run ops' (snd (call o s))
  end.

Definition is_remove_plan (o : op) : bool :=
  match o with RemoveWorkoutPlan _ => true | _ => false end.

End Index.

(** ** Notions used to state the charging rules *)

Module Charge.

(** The local [charge_amount] of [charge_member]: the amount given, or the
    member's monthly price. *)
Definition charge_amount {builtins : Builtins} (member : Member.t) (amount : option float) : float :=
  match amount with
  | None => Member.monthly_price member
  | Some a => a
  end.

(** The world once an identifier has been minted and the clock read. *)
Definition after_minting (w : world) : world :=
  snd (datetime_now (snd (uuid4_hex w))).

(** What the construction of a [PaymentRecord] raises. *)
Definition no_constructor : exn := TypeError "PaymentRecord() takes no arguments".

(** The aggregate with one more record in its ledger. *)
Definition with_record (r : PaymentRecord.t) (g : Gym.t) : Gym.t :=
  Gym.set_payment_ledger
    {| InMemoryPaymentLedger.records :=
         InMemoryPaymentLedger.records (Gym.payment_ledger g) ++ [r] |} g.

End Charge.

(** ** Notions used to state the snapshot-store properties *)

Module Snapshot.



Definition policy_valid (p : PricePolicy.t) : bool :=
  match p with
  | PricePolicy.NoDiscount => true
  | PricePolicy.PercentOff d => PrimFloat.ltb 0%float d && PrimFloat.ltb d 1%float
  | PricePolicy.FixedPrice x => PrimFloat.ltb 0%float x
  end.

(** Entities in the form their constructors give them: text fields stripped
    (and lower-cased or title-cased where the constructor does so) and
    numeric fields in range. *)
Definition stripped (s : string) : Prop := strip s = s /\ str_truthy s = true.

Definition exercise_normal (e : Exercise.t) : Prop :=
  lower (strip (Exercise.name e)) = Exercise.name e
  /\ str_truthy (Exercise.name e) = true
  /\ (0 < Exercise.sets e)%Z
  /\ (0 < Exercise.reps e)%Z
  /\ match Exercise.load e with
     | Some x => PrimFloat.ltb x 0%float = false
     | None => True
     end
  /\ match Exercise.notes e with
     | Some s => stripped s
     | None => True
     end.

Definition trainer_normal (tr : Trainer.t) : Prop :=
  stripped (Trainer.full_name tr)
  /\ stripped (Trainer.email tr)
  /\ contains_char "@" (Trainer.email tr) = true
  /\ contains_char "." (Trainer.email tr) = true
  /\ str_truthy (Trainer.id tr) = true
  /\ match Trainer.specialty tr with
     | Some s => title s = s /\ str_truthy (strip s) = true
     | None => True
     end.

Definition workout_plan_normal (p : WorkoutPlan.t) : Prop :=
  stripped (WorkoutPlan.member_id p)
  /\ stripped (WorkoutPlan.title p)
  /\ str_truthy (WorkoutPlan.id p) = true
  /\ Forall exercise_normal (WorkoutPlan._exercises p).

End Snapshot.

(** ** Notions used to state that entities are well formed *)

Module Text.

(** Whether some character is not white space. *)
Definition has_text (l : list ascii) : bool :=
  existsb (fun c => negb (is_space c)) l.

(** What the constructors guarantee and [PaymentRecord.create] checks again:
    an identifier and a name that are not blank. *)
Definition member_named (m : Member.t) : Prop :=
  blank (Member.id m) = false /\ blank (Member.full_name m) = false.

End Text.

(** ** Sample values *)

Module Sample.

(** Stand-ins for the built-ins, used to evaluate the examples: no text is
    converted to a number, and [round] is applied only to prices that have
    two decimals already. *)
Definition builtins : Builtins :=
  {| float_of_str := fun _ => None;
     float_of_int := fun _ => None;
     int_of_str := fun _ => None;
     int_of_float := fun _ => None;
     repr := fun _ => "None";
     round_ndigits := fun x _ => x;
     datetime_fromisoformat := fun _ => None |}.

(** An iteration order for the examples: the order of the keys. The sample
    maps hold one entry at most. *)
Definition order : DictOrder :=
  {| dict_items := fun A m => map_to_list m;
     dict_items_permutation := fun A m => reflexivity (map_to_list m) |}.

Definition new_year : datetime :=
  {| on_date := {| year := 2024; month := 1; day := 1 |};
     hour := 9; minute := 30; second := 0; microsecond := 0 |}.

Definition w0 : world :=
  {| uuid_hex := fun n => string_of_list_ascii (zero_padded 4 (Z.of_nat n));
     uuid_calls := 0;
     clock := fun _ => new_year;
     clock_reads := 0 |}.

Definition cancelled_basic : BaseMembership.t :=
  {| BaseMembership.class_of := BaseMembership.BasicMembership;
     BaseMembership.id := "ms_0001";
     BaseMembership.status := CANCELLED;
     BaseMembership.price_policy := PricePolicy.NoDiscount |}.

Definition premium : BaseMembership.t :=
  {| BaseMembership.class_of := BaseMembership.PremiumMembership;
     BaseMembership.id := "ms_0002";
     BaseMembership.status := ACTIVE;
     BaseMembership.price_policy := PricePolicy.NoDiscount |}.

Definition ann : Member.t :=
  {| Member.id := "mem_ann";
     Member.full_name := "Ann Lee";
     Member.email := "ann@x.com";
     Member.membership := premium;
     Member.join_date := {| year := 2020; month := 2; day := 3 |} |}.

Definition empty_gym : Gym.t :=
  {| Gym.name := "X"; Gym.members := ∅; Gym.trainers := ∅;
     Gym.members_by_email := ∅; Gym.trainers_by_email := ∅;
     Gym.payment_processor := {| FakePaymentProcessor.fail_threshold := None |};
     Gym.payment_ledger := {| InMemoryPaymentLedger.records := [] |};
     Gym.workouts := WorkoutCatalog.empty |}.

Definition leg_day : WorkoutPlan.t :=
  {| WorkoutPlan.member_id := "mem_ann";
     WorkoutPlan.title := "Leg day";
     WorkoutPlan.id := "wkp_0000";
     WorkoutPlan.created_at := new_year;
     WorkoutPlan._exercises := [] |}.

(** The catalog [add_plan] builds from the empty one. *)
Definition one_plan : WorkoutCatalog.t :=
  {| WorkoutCatalog.plans := {[ "wkp_0000" := leg_day ]};
     WorkoutCatalog.plans_by_member := {[ "mem_ann" := ["wkp_0000"] ]} |}.

(** A member joins, gets a plan, and the plan is removed. *)
Definition add_create_remove : list Index.op :=
  [Index.AddMember ann;
   Index.CreateWorkoutPlan "mem_ann" "Leg day";
   Index.RemoveWorkoutPlan "wkp_0000"].

(** Ann's gym, with a processor that declines charges above 20. *)
Definition anns_gym : Gym.t :=
  Gym.set_payment_processor {| FakePaymentProcessor.fail_threshold := Some 20%float |}
    (snd (Gym.add_member ann empty_gym)).

Definition paused_ann : Member.t :=
  Member.set_membership (BaseMembership.set_status PAUSED premium) ann.

Definition paused_anns_gym : Gym.t := snd (Gym.add_member paused_ann empty_gym).

Definition save_path : Fs.Path := ["data"; "gym.json"].

(** A disk that already holds a snapshot at [save_path]. *)
Definition disk : gmap Fs.Path Fs.content :=
  <[ ["data"] := Fs.Directory ]>
    {[ save_path := Fs.Json (PStr "previous snapshot") ]}.

(** A disk whose save file is not a JSON document. *)
Definition garbled_disk : gmap Fs.Path Fs.content :=
  <[ ["data"] := Fs.Directory ]>
    {[ save_path := Fs.NotJson "{ schema_version: 1, " ]}.

End Sample.


(** ** Further sample values *)

Module Cases.

Definition bob : Member.t :=
  {| Member.id := "mem_bob";
     Member.full_name := "Bob Ray";
     Member.email := "A@X.COM ";
     Member.membership :=
       {| BaseMembership.class_of := BaseMembership.BasicMembership;
          BaseMembership.id := "ms_0003";
          BaseMembership.status := ACTIVE;
          BaseMembership.price_policy := PricePolicy.NoDiscount |};
     Member.join_date := {| year := 2021; month := 5; day := 6 |} |}.

Definition al : Member.t :=
  {| Member.id := "mem_al";
     Member.full_name := "Al Ray";
     Member.email := "a@x.com";
     Member.membership := Member.membership bob;
     Member.join_date := Member.join_date bob |}.

(** The gym after Al has joined. *)
Definition als_gym : Gym.t := snd (Gym.add_member al Sample.empty_gym).

(** The gym after Ann has joined. *)
Definition anns_gym : Gym.t := snd (Gym.add_member Sample.ann Sample.empty_gym).

Definition cy : Trainer.t :=
  {| Trainer.id := "trn_cy";
     Trainer.full_name := "Cy Dee";
     Trainer.email := "cy@x.com";
     Trainer.specialty := Some "Power Lifting" |}.

Definition cys_gym : Gym.t := snd (Gym.add_trainer cy Sample.empty_gym).


End Cases.


(** ** Notions used to state the constructors' checks *)

Module Checks.

(** What [Exercise.__post_init__] accepts. *)
Definition exercise_arguments_valid (name : string) (sets reps : Z)
    (load : option float) : Prop :=
  blank name = false
  /\ (1 <= sets)%Z
  /\ (1 <= reps)%Z
  /\ match load with
     | Some x => PrimFloat.ltb x 0%float = false
     | None => True
     end.

(** What [Person.__post_init__] accepts, for arguments that are strings. *)
Definition person_arguments_valid (full_name email : string) : Prop :=
  blank full_name = false
  /\ blank email = false
  /\ contains_char "@" (strip email) = true
  /\ contains_char "." (strip email) = true.

(** The notes an exercise keeps. *)
Definition kept_notes (notes : option string) : option string :=
  match notes with
  | Some s => if str_truthy (strip s) then Some (strip s) else None
  | None => None
  end.

End Checks.


(** ** Notions used to state the workout properties *)

Module PlanNotions.

(** The test of [remove_exercise_by_name]: the exercise's name, lower-cased
    and stripped, is the key. *)
Definition name_matches (name_key : string) (ex : Exercise.t) : bool :=
  String.eqb (strip (lower (Exercise.name ex))) name_key.

(** The number is one of 1, ..., the number of exercises. *)
Definition in_range (plan : WorkoutPlan.t) (num : Z) : Prop :=
  (1 <= num <= Z.of_nat (length (WorkoutPlan._exercises plan)))%Z.

Definition squat : Exercise.t :=
  {| Exercise.name := "squat"; Exercise.sets := 3; Exercise.reps := 10;
     Exercise.load := None; Exercise.notes := None |}.

Definition plank : Exercise.t :=
  {| Exercise.name := "plank"; Exercise.sets := 2; Exercise.reps := 1;
     Exercise.load := None; Exercise.notes := Some "hold 60s" |}.

Definition core_plan : WorkoutPlan.t :=
  {| WorkoutPlan.member_id := "mem_al";
     WorkoutPlan.title := "Core";
     WorkoutPlan.id := "wkp_7";
     WorkoutPlan.created_at := Sample.new_year;
     WorkoutPlan._exercises := [squat; plank] |}.

End PlanNotions.


(** ** Computations that raise *)

Module Outcome.

(** A computation that raises from every state. *)
Definition always_raises {S A} (m : M S A) : Prop :=
  forall s, exists e s', m s = (Raise e, s').

End Outcome.


(** ** Timestamps that can be read back *)

Module Clocks.

(** [datetime.fromisoformat] reads back what [isoformat] wrote for [t]. *)
Definition parses {builtins : Builtins} (t : datetime) : Prop :=
  datetime_fromisoformat (datetime_isoformat t) = Some t.

(** Built-ins that read the timestamp of [Sample.new_year] and nothing else. *)
Definition builtins : Builtins :=
  {| float_of_str := fun _ => None;
     float_of_int := fun _ => None;
     int_of_str := fun _ => None;
     int_of_float := fun _ => None;
     repr := fun _ => "None";
     round_ndigits := fun x _ => x;
     datetime_fromisoformat :=
       fun s => if String.eqb s "2024-01-01T09:30:00"
                then Some Sample.new_year else None |}.

End Clocks.


(** ** main.py, lines 13-16 and 66-73: the snapshot the program starts from *)

Module main.

Section WithBuiltins.
Context {builtins : Builtins} {order : DictOrder}.

Definition SAVE_PATH : Fs.Path := ["data"; "gym.json"].

(** [prompt]: the line typed, stripped. *)
Definition prompt (typed : string) : string := strip typed.

Definition on_files {A} (m : M (gmap Fs.Path Fs.content) A)
    : M (gmap Fs.Path Fs.content * world) A :=
  zoom fst (fun fs s => (fs, snd s)) m.

(** [typed] is the line read when the gym's name is asked for; nothing is
    read when a save file exists. *)
Definition load_or_create_gym (typed : string)
    : M (gmap Fs.Path Fs.content * world) Gym.t :=
  let! s := get in
  if Fs.exists_ (fst s) SAVE_PATH
  then zoom snd (fun w s => (fst s, w)) (storage.load_gym (fst s) SAVE_PATH)
  else
    let name := prompt typed in
    let! gym := lift_result (Gym.new (PStr name)) in
    exec on_files (Fs.step (Fs.Mkdir (Fs.parent SAVE_PATH))) in
    exec on_files (storage.save_gym gym SAVE_PATH) in
    ret gym.

End WithBuiltins.

End main.

(* ===================================================================== *)
(** * Part II. Properties *)
(* ===================================================================== *)

(** ** Membership state machine (memberships.py) *)

Lemma MembershipStatus_eqb_eq (a b : MembershipStatus) :
  MembershipStatus_eqb a b = true <-> a = b.
Proof. destruct a, b; simpl; split; intros E; congruence. Qed.

Lemma cancel_always_succeeds (m : BaseMembership.t) :
  BaseMembership.cancel m = (Ok tt, BaseMembership.set_status CANCELLED m).
Proof. reflexivity. Qed.

Lemma pause_from_live_status (m : BaseMembership.t) :
  BaseMembership.status m <> CANCELLED ->
  BaseMembership.pause m = (Ok tt, BaseMembership.set_status PAUSED m).
Proof.
  intros Hlive. unfold BaseMembership.pause, bind, get, put.
  destruct (BaseMembership.status m) eqn:E; simpl; rewrite ?E; try reflexivity.
  contradiction.
Qed.

Lemma resume_from_live_status (m : BaseMembership.t) :
  BaseMembership.status m <> CANCELLED ->
  BaseMembership.resume m = (Ok tt, BaseMembership.set_status ACTIVE m).
Proof.
  intros Hlive. unfold BaseMembership.resume, bind, get, put.
  destruct (BaseMembership.status m) eqn:E; simpl; rewrite ?E; try reflexivity.
  contradiction.
Qed.

(** C8. CANCELLED is terminal. On a cancelled membership [pause] and
    [resume] raise [ValidationError] and leave the object, hence its status,
    as it was. [cancel] has no precondition: from any status it returns
    normally with status CANCELLED, and so does a second [cancel]. *)
Theorem cancelled_is_terminal (m : BaseMembership.t) :
  (BaseMembership.status m = CANCELLED ->
     BaseMembership.pause m
       = (Raise (ValidationError "Cannot pause a cancelled membership."), m)
     /\ BaseMembership.resume m
       = (Raise (ValidationError "Cannot resume a cancelled membership."), m)
     /\ BaseMembership.status (snd (BaseMembership.pause m)) = CANCELLED
     /\ BaseMembership.status (snd (BaseMembership.resume m)) = CANCELLED)
  /\ (exists m1 m2,
        BaseMembership.cancel m = (Ok tt, m1)
        /\ BaseMembership.status m1 = CANCELLED
        /\ BaseMembership.cancel m1 = (Ok tt, m2)
        /\ BaseMembership.status m2 = CANCELLED
        /\ m2 = m1).
Proof.
  split.
  - intros Hc.
    unfold BaseMembership.pause, BaseMembership.resume, bind, get, raise.
    rewrite Hc. simpl. rewrite Hc. auto.
  - exists (BaseMembership.set_status CANCELLED m),
      (BaseMembership.set_status CANCELLED m).
    repeat split.
Qed.

Lemma cancelled_is_terminal_witness :
  BaseMembership.pause Sample.cancelled_basic
    = (Raise (ValidationError "Cannot pause a cancelled membership."),
       Sample.cancelled_basic).
Proof.
  exact (proj1 (proj1 (cancelled_is_terminal Sample.cancelled_basic) eq_refl)).
Defined.

(** ** Dual-index collections (gym.py, workouts.py) *)

Section IndexFacts.
Import Index.

Lemma synchronized_members_consistent (g : Gym.t) :
  members_synchronized g -> members_consistent g.
Proof.
  intros [H1 H2]. split; [exact H1|].
  intros id m Hm. exists id. exact (H2 id m Hm).
Qed.

Lemma synchronized_trainers_consistent (g : Gym.t) :
  trainers_synchronized g -> trainers_consistent g.
Proof.
  intros [H1 H2]. split; [exact H1|].
  intros id tr Htr. exists id. exact (H2 id tr Htr).
Qed.

Lemma synchronized_plans_consistent (cat : WorkoutCatalog.t) :
  plans_synchronized cat -> plans_consistent cat.
Proof.
  intros [H1 H2]. split; [exact H1|].
  intros id p Hp. destruct (H2 id p Hp) as (ids & Hids & _). rewrite Hids. eauto.
Qed.

(** Insertion of a fresh entity under a fresh key, and removal of an entity
    together with its key, on any pair of maps: the two email indexes are
    instances. *)
Section OneToOne.
Context {A : Type} (key_of : A -> string).

Lemma synchronized_insert primary secondary id a :
  synchronized key_of primary secondary ->
  primary !! id = None ->
  secondary !! key_of a = None ->
  synchronized key_of (<[id := a]> primary) (<[key_of a := id]> secondary).
Proof.
  intros [H1 H2] Hid Hkey. split.
  - intros key id' Hl. apply lookup_insert_Some in Hl as [[<- <-] | [Hne Hl]].
    + exists a. by rewrite lookup_insert_eq.
    + destruct (H1 _ _ Hl) as (a' & Ha' & Hk).
      exists a'. split; [|done].
      rewrite lookup_insert_ne; [done|]. intros ->. congruence.
  - intros id' a' Hl. apply lookup_insert_Some in Hl as [[<- <-] | [Hne Hl]].
    + by rewrite lookup_insert_eq.
    + rewrite lookup_insert_ne; [by apply H2|].
      intros E. rewrite E, (H2 _ _ Hl) in Hkey. discriminate.
Qed.

Lemma synchronized_delete primary secondary id a :
  synchronized key_of primary secondary ->
  primary !! id = Some a ->
  synchronized key_of (delete id primary) (delete (key_of a) secondary).
Proof.
  intros [H1 H2] Hid. split.
  - intros key id' Hl. apply lookup_delete_Some in Hl as [Hne Hl].
    destruct (H1 _ _ Hl) as (a' & Ha' & Hk).
    exists a'. split; [|done].
    rewrite lookup_delete_ne; [done|]. intros ->. congruence.
  - intros id' a' Hl. apply lookup_delete_Some in Hl as [Hne Hl].
    rewrite lookup_delete_ne; [by apply H2|].
    intros E. pose proof (H2 _ _ Hl) as Hs. rewrite <- E, (H2 _ _ Hid) in Hs.
    congruence.
Qed.

End OneToOne.

Lemma add_member_synchronized (g : Gym.t) (member : Member.t) :
  members_synchronized g ->
  members_synchronized (snd (Gym.add_member member g)).
Proof.
  intros H. unfold Gym.add_member, bind, get, raise, modify. simpl.
  destruct (MembershipStatus_eqb _ _); [exact H|].
  destruct (Gym.members g !! Member.id member) eqn:E1; [exact H|].
  destruct (Gym.members_by_email g !! Gym.email_key (Member.email member)) eqn:E2;
    [exact H|].
  simpl. by apply (synchronized_insert member_key).
Qed.

Lemma remove_member_synchronized (g : Gym.t) (member_id : string) :
  members_synchronized g ->
  members_synchronized (snd (Gym.remove_member member_id g)).
Proof.
  intros H. unfold Gym.remove_member, bind, get, raise, modify. simpl.
  destruct (Gym.members g !! member_id) as [member|] eqn:E1; [|exact H].
  simpl. destruct (decide _) as [_|Hne]; simpl.
  - by apply (synchronized_delete member_key).
  - destruct Hne. by apply H.
Qed.

Lemma add_trainer_synchronized (g : Gym.t) (trainer : Trainer.t) :
  trainers_synchronized g ->
  trainers_synchronized (snd (Gym.add_trainer trainer g)).
Proof.
  intros H. unfold Gym.add_trainer, bind, get, raise, modify. simpl.
  destruct (Gym.trainers g !! Trainer.id trainer) eqn:E1; [exact H|].
  destruct (Gym.trainers_by_email g !! Gym.email_key (Trainer.email trainer)) eqn:E2;
    [exact H|].
  simpl. by apply (synchronized_insert trainer_key).
Qed.

Lemma remove_trainer_synchronized (g : Gym.t) (trainer_id : string) :
  trainers_synchronized g ->
  trainers_synchronized (snd (Gym.remove_trainer trainer_id g)).
Proof.
  intros H. unfold Gym.remove_trainer, bind, get, raise, modify. simpl.
  destruct (Gym.trainers g !! trainer_id) as [trainer|] eqn:E1; [|exact H].
  simpl. destruct (decide _) as [_|Hne]; simpl.
  - by apply (synchronized_delete trainer_key).
  - destruct Hne. by apply H.
Qed.

End IndexFacts.

Section PlanIndexFacts.
Import Index.

Lemma add_plan_synchronized (cat : WorkoutCatalog.t) (plan : WorkoutPlan.t) :
  plans_synchronized cat ->
  plans_synchronized (snd (WorkoutCatalog.add_plan plan cat)).
Proof.
  intros [H1 H2]. unfold WorkoutCatalog.add_plan, bind, get, raise, put. simpl.
  destruct (WorkoutCatalog.plans cat !! WorkoutPlan.id plan) eqn:Efresh;
    [by split|].
  simpl. split; simpl.
  - intros key ids id Hl Hin.
    apply lookup_insert_Some in Hl as [[<- <-] | [Hne Hl]].
    + apply elem_of_app in Hin as [Hin | Hin].
      * destruct (WorkoutCatalog.plans_by_member cat !! WorkoutPlan.member_id plan)
          as [old|] eqn:Eold; simpl in Hin; [|by apply elem_of_nil in Hin].
        destruct (H1 _ _ _ Eold Hin) as (p & Hp & Hk).
        exists p. split; [|done].
        rewrite lookup_insert_ne; [done|]. intros E. congruence.
      * apply list_elem_of_singleton in Hin as ->.
        exists plan. by rewrite lookup_insert_eq.
    + destruct (H1 _ _ _ Hl Hin) as (p & Hp & Hk).
      exists p. split; [|done].
      rewrite lookup_insert_ne; [done|]. intros E. congruence.
  - intros id p Hl.
    apply lookup_insert_Some in Hl as [[<- <-] | [Hne Hl]].
    + rewrite lookup_insert_eq. eexists. split; [done|].
      apply elem_of_app. right. by apply list_elem_of_singleton.
    + destruct (H2 _ _ Hl) as (ids & Hids & Hin).
      destruct (decide (WorkoutPlan.member_id plan = WorkoutPlan.member_id p)) as [E|E].
      * rewrite E, lookup_insert_eq, Hids. eexists. split; [done|].
        apply elem_of_app. by left.
      * rewrite lookup_insert_ne; [|done]. eauto.
Qed.

(** What [remove_plan] does to a catalog that holds the plan: the plan leaves
    the primary map, [plans_by_member] is left as it was, and the call ends
    in an exception. *)
Lemma remove_plan_outcome (cat : WorkoutCatalog.t) (plan_id : string)
    (plan : WorkoutPlan.t) :
  WorkoutCatalog.plans cat !! plan_id = Some plan ->
  WorkoutCatalog.remove_plan plan_id cat
  = (Raise (match delete plan_id (WorkoutCatalog.plans cat)
                    !! WorkoutPlan.member_id plan with
            | None => ValidationError "Workout index in consistent: member key missing."
            | Some _ => TypeError "argument of type 'WorkoutPlan' is not iterable"
            end),
     {| WorkoutCatalog.plans := delete plan_id (WorkoutCatalog.plans cat);
        WorkoutCatalog.plans_by_member := WorkoutCatalog.plans_by_member cat |}).
Proof.
  intros Hp. unfold WorkoutCatalog.remove_plan, bind, get, put, raise.
  rewrite Hp. simpl.
  by destruct (delete plan_id (WorkoutCatalog.plans cat) !! WorkoutPlan.member_id plan).
Qed.

Lemma remove_plan_absent (cat : WorkoutCatalog.t) (plan_id : string) :
  WorkoutCatalog.plans cat !! plan_id = None ->
  WorkoutCatalog.remove_plan plan_id cat
  = (Raise (ValidationError "This plan does not exist in the system."), cat).
Proof.
  intros Hp. unfold WorkoutCatalog.remove_plan, bind, get, raise. by rewrite Hp.
Qed.

End PlanIndexFacts.

Section CallFacts.
Import Index.

Lemma add_member_frame (g : Gym.t) (member : Member.t) :
  let g' := snd (Gym.add_member member g) in
  Gym.trainers g' = Gym.trainers g
  /\ Gym.trainers_by_email g' = Gym.trainers_by_email g
  /\ Gym.workouts g' = Gym.workouts g.
Proof.
  unfold Gym.add_member, bind, get, raise, modify. simpl.
  destruct (MembershipStatus_eqb _ _); [done|].
  destruct (Gym.members g !! _); [done|].
  by destruct (Gym.members_by_email g !! _).
Qed.

Lemma remove_member_frame (g : Gym.t) (member_id : string) :
  let g' := snd (Gym.remove_member member_id g) in
  Gym.trainers g' = Gym.trainers g
  /\ Gym.trainers_by_email g' = Gym.trainers_by_email g
  /\ Gym.workouts g' = Gym.workouts g.
Proof.
  unfold Gym.remove_member, bind, get, raise, modify. simpl.
  destruct (Gym.members g !! _); [|done]. simpl.
  by destruct (decide _).
Qed.

Lemma add_trainer_frame (g : Gym.t) (trainer : Trainer.t) :
  let g' := snd (Gym.add_trainer trainer g) in
  Gym.members g' = Gym.members g
  /\ Gym.members_by_email g' = Gym.members_by_email g
  /\ Gym.workouts g' = Gym.workouts g.
Proof.
  unfold Gym.add_trainer, bind, get, raise, modify. simpl.
  destruct (Gym.trainers g !! _); [done|].
  by destruct (Gym.trainers_by_email g !! _).
Qed.

Lemma remove_trainer_frame (g : Gym.t) (trainer_id : string) :
  let g' := snd (Gym.remove_trainer trainer_id g) in
  Gym.members g' = Gym.members g
  /\ Gym.members_by_email g' = Gym.members_by_email g
  /\ Gym.workouts g' = Gym.workouts g.
Proof.
  unfold Gym.remove_trainer, bind, get, raise, modify. simpl.
  destruct (Gym.trainers g !! _); [|done]. simpl.
  by destruct (decide _).
Qed.

Lemma remove_workout_plan_frame (g : Gym.t) (plan_id : string) :
  let g' := snd (Gym.remove_workout_plan plan_id g) in
  same_people g g'
  /\ Gym.workouts g' = snd (WorkoutCatalog.remove_plan plan_id (Gym.workouts g)).
Proof.
  unfold Gym.remove_workout_plan, Gym.on_workouts, zoom. simpl.
  by destruct (WorkoutCatalog.remove_plan plan_id (Gym.workouts g)).
Qed.

Lemma create_workout_plan_frame (g : Gym.t) (w : world) (member_id title : string) :
  let g' := fst (snd (Gym.create_workout_plan member_id title (g, w))) in
  same_people g g'
  /\ (Gym.workouts g' = Gym.workouts g
      \/ exists plan,
           Gym.workouts g' = snd (WorkoutCatalog.add_plan plan (Gym.workouts g))).
Proof.
  unfold Gym.create_workout_plan, Gym.on_gym, Gym.on_world, zoom,
    Gym.get_member, bind, get, ret, raise. simpl.
  destruct (Gym.members g !! strip member_id); simpl;
    [|by split; [repeat split | left]].
  destruct (WorkoutPlan.new _ _ w) as [[plan|e] w']; simpl;
    [|by split; [repeat split | left]].
  unfold Gym.on_workouts, zoom. simpl.
  destruct (WorkoutCatalog.add_plan plan (Gym.workouts g)) as [[u|e] cat'] eqn:E;
    simpl; (split; [done|]); right; exists plan; by rewrite E.
Qed.

Lemma call_members_synchronized (o : op) (s : Gym.t * world) :
  members_synchronized (fst s) ->
  members_synchronized (fst (snd (call o s))).
Proof.
  destruct s as [g w]. unfold members_synchronized. simpl. intros H.
  destruct o as [member|member_id|trainer|trainer_id|member_id title|plan_id];
    simpl; unfold Gym.on_gym, zoom; simpl.
  - pose proof (add_member_synchronized g member H) as H'.
    by destruct (Gym.add_member member g).
  - pose proof (remove_member_synchronized g member_id H) as H'.
    by destruct (Gym.remove_member member_id g).
  - destruct (add_trainer_frame g trainer) as (E1 & E2 & _).
    destruct (Gym.add_trainer trainer g). simpl in *. by rewrite E1, E2.
  - destruct (remove_trainer_frame g trainer_id) as (E1 & E2 & _).
    destruct (Gym.remove_trainer trainer_id g). simpl in *. by rewrite E1, E2.
  - destruct (create_workout_plan_frame g w member_id title) as [(E1 & E2 & _) _].
    unfold bind.
    destruct (Gym.create_workout_plan member_id title (g, w)) as [[plan|e] [g' w']];
      simpl in *; by rewrite E1, E2.
  - destruct (remove_workout_plan_frame g plan_id) as [(E1 & E2 & _) _].
    destruct (Gym.remove_workout_plan plan_id g). simpl in *. by rewrite E1, E2.
Qed.

Lemma call_trainers_synchronized (o : op) (s : Gym.t * world) :
  trainers_synchronized (fst s) ->
  trainers_synchronized (fst (snd (call o s))).
Proof.
  destruct s as [g w]. unfold trainers_synchronized. simpl. intros H.
  destruct o as [member|member_id|trainer|trainer_id|member_id title|plan_id];
    simpl; unfold Gym.on_gym, zoom; simpl.
  - destruct (add_member_frame g member) as (E1 & E2 & _).
    destruct (Gym.add_member member g). simpl in *. by rewrite E1, E2.
  - destruct (remove_member_frame g member_id) as (E1 & E2 & _).
    destruct (Gym.remove_member member_id g). simpl in *. by rewrite E1, E2.
  - pose proof (add_trainer_synchronized g trainer H) as H'.
    by destruct (Gym.add_trainer trainer g).
  - pose proof (remove_trainer_synchronized g trainer_id H) as H'.
    by destruct (Gym.remove_trainer trainer_id g).
  - destruct (create_workout_plan_frame g w member_id title)
      as [(_ & _ & E1 & E2) _].
    unfold bind.
    destruct (Gym.create_workout_plan member_id title (g, w)) as [[plan|e] [g' w']];
      simpl in *; by rewrite E1, E2.
  - destruct (remove_workout_plan_frame g plan_id) as [(_ & _ & E1 & E2) _].
    destruct (Gym.remove_workout_plan plan_id g). simpl in *. by rewrite E1, E2.
Qed.

Lemma call_plans_synchronized (o : op) (s : Gym.t * world) :
  is_remove_plan o = false ->
  plans_synchronized (Gym.workouts (fst s)) ->
  plans_synchronized (Gym.workouts (fst (snd (call o s)))).
Proof.
  destruct s as [g w]. simpl. intros Ho H.
  destruct o as [member|member_id|trainer|trainer_id|member_id title|plan_id];
    [| | | | |discriminate]; simpl; unfold Gym.on_gym, zoom; simpl.
  - destruct (add_member_frame g member) as (_ & _ & E).
    destruct (Gym.add_member member g). simpl in *. by rewrite E.
  - destruct (remove_member_frame g member_id) as (_ & _ & E).
    destruct (Gym.remove_member member_id g). simpl in *. by rewrite E.
  - destruct (add_trainer_frame g trainer) as (_ & _ & E).
    destruct (Gym.add_trainer trainer g). simpl in *. by rewrite E.
  - destruct (remove_trainer_frame g trainer_id) as (_ & _ & E).
    destruct (Gym.remove_trainer trainer_id g). simpl in *. by rewrite E.
  - destruct (create_workout_plan_frame g w member_id title) as [_ E].
    unfold bind.
    destruct (Gym.create_workout_plan member_id title (g, w)) as [[plan|e] [g' w']];
      simpl in *; (destruct E as [-> | [p ->]]; [done | by apply add_plan_synchronized]).
Qed.

(** The email indexes of members and of trainers stay synchronized along
    every sequence of calls; the plan index does as long as no call is
    [remove_workout_plan]. *)
Lemma run_synchronized (ops : list op) (s : Gym.t * world) :
  members_synchronized (fst s) ->
  trainers_synchronized (fst s) ->
  members_synchronized (fst (run ops s))
  /\ trainers_synchronized (fst (run ops s)).
Proof.
  revert s. induction ops as [|o ops IH]; intros s Hm Ht; simpl; [done|].
  apply IH.
  - by apply call_members_synchronized.
  - by apply call_trainers_synchronized.
Qed.

Lemma run_plans_synchronized (ops : list op) (s : Gym.t * world) :
  forallb (fun o => negb (is_remove_plan o)) ops = true ->
  plans_synchronized (Gym.workouts (fst s)) ->
  plans_synchronized (Gym.workouts (fst (run ops s))).
Proof.
  revert s. induction ops as [|o ops IH]; intros s Hops Hp; simpl; [done|].
  simpl in Hops. apply andb_true_iff in Hops as [Ho Hops].
  apply IH; [done|]. apply call_plans_synchronized; [|done].
  by destruct (is_remove_plan o).
Qed.

Lemma new_gym_synchronized (name : pyval) (g : Gym.t) :
  Gym.new name = Ok g ->
  members_synchronized g /\ trainers_synchronized g
  /\ plans_synchronized (Gym.workouts g).
Proof.
  unfold Gym.new. destruct (negb (truthy name)); [discriminate|].
  destruct name; try discriminate.
  destruct (negb (str_truthy (strip s))); [discriminate|]. simpl.
  intros [= <-]. repeat split; simpl; intros *; rewrite ?lookup_empty; done.
Qed.

(** On a new gym, the email indexes are consistent after every sequence of
    calls, raising or not, and so is the plan index when the sequence holds
    no [remove_workout_plan]. *)
Lemma consistent_after_calls (name : pyval) (g : Gym.t) (w : world) (ops : list op) :
  Gym.new name = Ok g ->
  members_consistent (fst (run ops (g, w)))
  /\ trainers_consistent (fst (run ops (g, w)))
  /\ (forallb (fun o => negb (is_remove_plan o)) ops = true ->
      plans_consistent (Gym.workouts (fst (run ops (g, w))))).
Proof.
  intros Hnew. destruct (new_gym_synchronized name g Hnew) as (Hm & Ht & Hp).
  destruct (run_synchronized ops (g, w) Hm Ht) as [Hm' Ht'].
  split; [by apply synchronized_members_consistent|].
  split; [by apply synchronized_trainers_consistent|].
  intros Hops. apply synchronized_plans_consistent.
  by apply run_plans_synchronized.
Qed.

End CallFacts.

Section IndexClaims.
Import Index.

Lemma sample_gym_is_new : Gym.new (PStr "X") = Ok Sample.empty_gym.
Proof. reflexivity. Qed.

Lemma sample_plan_is_created :
  fst (run (firstn 2 Sample.add_create_remove) (Sample.empty_gym, Sample.w0))
  = Gym.set_workouts Sample.one_plan
      (snd (Gym.add_member Sample.ann Sample.empty_gym)).
Proof. vm_compute. reflexivity. Qed.

Lemma sample_catalog_synchronized : plans_synchronized Sample.one_plan.
Proof.
  change Sample.one_plan
    with (snd (WorkoutCatalog.add_plan Sample.leg_day WorkoutCatalog.empty)).
  apply add_plan_synchronized.
  split; simpl; intros *; rewrite lookup_empty; done.
Qed.

(** C4. [remove_plan] on a synchronized catalog that holds plan [p]: the call
    does not return normally. The plan leaves the primary map, but
    [plans_by_member] is left untouched and still lists [p] under its owner;
    and the exception is the "member key missing" one although the owner's key
    and the id in its list were both present (whenever the owner's key is not
    itself the id of another plan). *)
Theorem remove_plan_raises_and_keeps_the_list
    (cat : WorkoutCatalog.t) (p : string) (plan : WorkoutPlan.t) :
  plans_synchronized cat ->
  WorkoutCatalog.plans cat !! p = Some plan ->
  let after := snd (WorkoutCatalog.remove_plan p cat) in
  (exists e, fst (WorkoutCatalog.remove_plan p cat) = Raise e)
  /\ WorkoutCatalog.plans after !! p = None
  /\ WorkoutCatalog.plans_by_member after = WorkoutCatalog.plans_by_member cat
  /\ (exists ids,
        WorkoutCatalog.plans_by_member after !! WorkoutPlan.member_id plan = Some ids
        /\ p ∈ ids)
  /\ (WorkoutCatalog.plans cat !! WorkoutPlan.member_id plan = None ->
      fst (WorkoutCatalog.remove_plan p cat)
      = Raise (ValidationError "Workout index in consistent: member key missing.")).
Proof.
  intros [_ H2] Hp after. subst after.
  rewrite (remove_plan_outcome cat p plan Hp). simpl.
  split; [eauto|].
  split; [apply lookup_delete_eq|].
  split; [done|].
  split; [exact (H2 p plan Hp)|].
  intros Hfree.
  destruct (decide (p = WorkoutPlan.member_id plan)) as [<-|Hne].
  - by rewrite lookup_delete_eq.
  - by rewrite lookup_delete_ne, Hfree.
Qed.

Lemma remove_plan_raises_and_keeps_the_list_witness :
  fst (WorkoutCatalog.remove_plan "wkp_0000" Sample.one_plan)
  = Raise (ValidationError "Workout index in consistent: member key missing.").
Proof.
  refine (proj2 (proj2 (proj2 (proj2
    (remove_plan_raises_and_keeps_the_list Sample.one_plan "wkp_0000" Sample.leg_day
       sample_catalog_synchronized _)))) _);
    vm_compute; reflexivity.
Defined.

(** C3. The plan index does not survive [remove_workout_plan]: on an
    aggregate whose plan index is synchronized and holds plan [p], the state
    left by the call lists [p] under its owner although [p] no longer
    resolves in the primary map. *)
Theorem remove_workout_plan_breaks_the_plan_index
    (g : Gym.t) (w : world) (p : string) (plan : WorkoutPlan.t) :
  plans_synchronized (Gym.workouts g) ->
  WorkoutCatalog.plans (Gym.workouts g) !! p = Some plan ->
  ~ consistent (fst (snd (call (RemoveWorkoutPlan p) (g, w)))).
Proof.
  intros [_ Hlisted] Hp (_ & _ & Hplans & _).
  destruct (Hlisted p plan Hp) as (ids & Hids & Hin).
  simpl in Hplans. unfold Gym.on_gym, zoom in Hplans. simpl in Hplans.
  destruct (remove_workout_plan_frame g p) as [_ Hw].
  destruct (Gym.remove_workout_plan p g) as [r g']. simpl in *.
  rewrite Hw, (remove_plan_outcome _ p plan Hp) in Hplans. simpl in Hplans.
  destruct (Hplans _ _ _ Hids Hin) as (p' & Hp' & _).
  by rewrite lookup_delete_eq in Hp'.
Qed.

Lemma remove_workout_plan_breaks_the_plan_index_witness :
  ~ consistent (fst (run Sample.add_create_remove (Sample.empty_gym, Sample.w0))).
Proof.
  change (run Sample.add_create_remove (Sample.empty_gym, Sample.w0))
    with (snd (call (RemoveWorkoutPlan "wkp_0000")
                 (run (firstn 2 Sample.add_create_remove)
                    (Sample.empty_gym, Sample.w0)))).
  destruct (run (firstn 2 Sample.add_create_remove) (Sample.empty_gym, Sample.w0))
    as [g w] eqn:E.
  apply (f_equal fst) in E. rewrite sample_plan_is_created in E. simpl in E. subst g.
  apply (remove_workout_plan_breaks_the_plan_index _ w "wkp_0000" Sample.leg_day).
  - exact sample_catalog_synchronized.
  - vm_compute. reflexivity.
Defined.

(** C5. Looking up an id that is absent: [get_member] and [get_trainer]
    raise [NotFoundError]; [get_plan], and [get_workout_plan] which delegates
    to it, raise [ValidationError]. *)
Theorem lookup_of_an_absent_id (g : Gym.t) (id : string) :
  (Gym.members g !! strip id = None ->
   exists msg, Gym.get_member id g = (Raise (NotFoundError msg), g))
  /\ (Gym.trainers g !! id = None ->
      exists msg, Gym.get_trainer id g = (Raise (NotFoundError msg), g))
  /\ (WorkoutCatalog.plans (Gym.workouts g) !! id = None ->
      exists msg,
        WorkoutCatalog.get_plan id (Gym.workouts g)
        = (Raise (ValidationError msg), Gym.workouts g)
        /\ Gym.get_workout_plan id g = (Raise (ValidationError msg), g)).
Proof.
  split; [|split].
  - intros H. unfold Gym.get_member, bind, get, raise. rewrite H. eauto.
  - intros H. unfold Gym.get_trainer, bind, get, raise. rewrite H. eauto.
  - intros H. eexists.
    unfold Gym.get_workout_plan, Gym.on_workouts, zoom, WorkoutCatalog.get_plan,
      bind, get, raise.
    rewrite H. split; [reflexivity|]. by destruct g.
Qed.

Lemma lookup_of_an_absent_id_witness :
  exists msg,
    WorkoutCatalog.get_plan "wkp_0000" (Gym.workouts Sample.empty_gym)
    = (Raise (ValidationError msg), Gym.workouts Sample.empty_gym)
    /\ Gym.get_workout_plan "wkp_0000" Sample.empty_gym
       = (Raise (ValidationError msg), Sample.empty_gym).
Proof.
  exact (proj2 (proj2 (lookup_of_an_absent_id Sample.empty_gym "wkp_0000")) eq_refl).
Defined.

(** [get_member] strips the id it is given before the lookup: an id that is
    not a key of the primary map is found when its stripped form is. *)
Lemma get_member_strips_the_id (g : Gym.t) (id : string) (m : Member.t) :
  Gym.members g !! strip id = Some m ->
  Gym.get_member id g = (Ok m, g).
Proof. intros H. unfold Gym.get_member, bind, get, ret. by rewrite H. Qed.

End IndexClaims.

(** ** Charging a member (gym.py, payments.py) *)

Section Charging.
Context {builtins : Builtins}.
Import Charge.

Lemma blank_pay : blank "pay" = false.
Proof. reflexivity. Qed.

(** [PaymentRecord.create] on arguments that pass its checks: the id is
    minted, the clock is read, and the constructor call raises. *)
Lemma create_valid (member_id member_name : string) (amount : float)
    (status : PaymentStatus) (message : string) (w : world) :
  blank member_id = false ->
  blank member_name = false ->
  PrimFloat.ltb amount 0%float = false ->
  blank message = false ->
  PaymentRecord.create member_id member_name amount status message w
  = (Raise no_constructor, after_minting w).
Proof.
  intros Hid Hname Hamount Hmsg.
  unfold PaymentRecord.create. rewrite Hid, Hname, Hamount, Hmsg.
  unfold new_id. rewrite blank_pay. reflexivity.
Qed.

(** [PaymentRecord.create] returns no record. *)
Lemma create_raises (member_id member_name : string) (amount : float)
    (status : PaymentStatus) (message : string) (w : world) :
  exists e w',
    PaymentRecord.create member_id member_name amount status message w = (Raise e, w')
    /\ (w' = w \/ (w' = after_minting w /\ e = no_constructor)).
Proof.
  unfold PaymentRecord.create.
  destruct (blank member_id); [by eexists _, _; split; [|left]|].
  destruct (blank member_name); [by eexists _, _; split; [|left]|].
  destruct (PrimFloat.ltb amount 0); [by eexists _, _; split; [|left]|].
  destruct (blank message); [by eexists _, _; split; [|left]|].
  unfold new_id. rewrite blank_pay.
  eexists _, _. split; [reflexivity|]. by right.
Qed.

Lemma processor_charge_valid (p : FakePaymentProcessor.t)
    (member_id member_name : string) (amount : float) (w : world) :
  blank member_id = false ->
  blank member_name = false ->
  PrimFloat.ltb amount 0%float = false ->
  FakePaymentProcessor.charge p member_id member_name amount w
  = (Raise no_constructor, after_minting w).
Proof.
  intros Hid Hname Hamount.
  unfold FakePaymentProcessor.charge.
  destruct (FakePaymentProcessor.fail_threshold p) as [threshold|];
    [destruct (PrimFloat.ltb threshold amount)|];
    by apply create_valid.
Qed.

Lemma processor_charge_raises (p : FakePaymentProcessor.t)
    (member_id member_name : string) (amount : float) (w : world) :
  exists e w',
    FakePaymentProcessor.charge p member_id member_name amount w = (Raise e, w')
    /\ (w' = w \/ (w' = after_minting w /\ e = no_constructor)).
Proof.
  unfold FakePaymentProcessor.charge.
  destruct (FakePaymentProcessor.fail_threshold p) as [threshold|];
    [destruct (PrimFloat.ltb threshold amount)|];
    apply create_raises.
Qed.

(** [charge_member], step by step. *)
Lemma charge_member_unfold (g : Gym.t) (w : world) (member_id : string)
    (amount : option float) :
  Gym.charge_member member_id amount (g, w)
  = match Gym.members g !! strip member_id with
    | None =>
        (Raise (NotFoundError
                  ("Member with '" ++ member_id
                     ++ "' member id not found in the system.")), (g, w))
    | Some member =>
        if negb (Member.is_active member)
        then (Raise (ValidationError "Cannot charge an inactive member."), (g, w))
        else if PrimFloat.ltb (charge_amount member amount) 0%float
        then (Raise (ValidationError "Charge amount cannot be negative."), (g, w))
        else
          match FakePaymentProcessor.charge (Gym.payment_processor g)
                  (Member.id member) (Member.full_name member)
                  (charge_amount member amount) w with
          | (Ok r, w') => (Ok r, (with_record r g, w'))
          | (Raise e, w') => (Raise e, (g, w'))
          end
    end.
Proof.
  unfold Gym.charge_member, Gym.on_gym, Gym.on_world, zoom, Gym.get_member,
    InMemoryPaymentLedger.add, with_record, bind, get, ret, raise, modify.
  cbn [fst snd].
  destruct (Gym.members g !! strip member_id) as [member|]; [|reflexivity].
  cbn [fst snd]. destruct (negb (Member.is_active member)); [reflexivity|].
  fold (charge_amount member amount).
  destruct (PrimFloat.ltb (charge_amount member amount) 0); [reflexivity|].
  cbn [fst snd].
  destruct (FakePaymentProcessor.charge _ _ _ _ w) as [[r|e] w']; reflexivity.
Qed.

Lemma charge_member_inactive (g : Gym.t) (w : world) (member_id : string)
    (member : Member.t) (amount : option float) :
  Gym.members g !! strip member_id = Some member ->
  Member.is_active member = false ->
  Gym.charge_member member_id amount (g, w)
  = (Raise (ValidationError "Cannot charge an inactive member."), (g, w)).
Proof.
  intros Hm Hactive. by rewrite charge_member_unfold, Hm, Hactive.
Qed.

Lemma charge_member_negative (g : Gym.t) (w : world) (member_id : string)
    (member : Member.t) (amount : option float) :
  Gym.members g !! strip member_id = Some member ->
  Member.is_active member = true ->
  PrimFloat.ltb (charge_amount member amount) 0%float = true ->
  Gym.charge_member member_id amount (g, w)
  = (Raise (ValidationError "Charge amount cannot be negative."), (g, w)).
Proof.
  intros Hm Hactive Hneg. by rewrite charge_member_unfold, Hm, Hactive, Hneg.
Qed.

(** Past the checks of [charge_member]: the processor is asked, an
    identifier is minted, the clock is read, and the construction of the
    record raises; the aggregate is as it was. *)
Lemma charge_member_charges (g : Gym.t) (w : world) (member_id : string)
    (member : Member.t) (amount : option float) :
  Gym.members g !! strip member_id = Some member ->
  Member.is_active member = true ->
  PrimFloat.ltb (charge_amount member amount) 0%float = false ->
  blank (Member.id member) = false ->
  blank (Member.full_name member) = false ->
  Gym.charge_member member_id amount (g, w)
  = (Raise no_constructor, (g, after_minting w)).
Proof.
  intros Hm Hactive Hneg Hid Hname.
  rewrite charge_member_unfold, Hm, Hactive, Hneg.
  by rewrite (processor_charge_valid (Gym.payment_processor g) (Member.id member)
                (Member.full_name member) (charge_amount member amount) w
                Hid Hname Hneg).
Qed.

(** C9. For a member present in the gym, found under an ASCII id, a charge
    fails with [ValidationError] when the membership is not active and when
    an explicit negative amount is given, and a charge with no amount is the
    charge of the member's monthly price. No charge goes through, though:
    for an active member with an ASCII name and id that are not blank and a
    monthly price that is not negative, the charge with no amount passes the
    checks, mints an identifier, reads the clock and raises [TypeError]
    where the record is constructed, [PaymentRecord] having no [__init__];
    nothing is charged and the aggregate is as it was. *)
Theorem charge_member_rules (g : Gym.t) (w : world) (member_id : string)
    (member : Member.t) :
  is_ascii member_id = true ->
  Gym.members g !! strip member_id = Some member ->
  (Member.is_active member = false ->
   forall amount, exists msg,
     Gym.charge_member member_id amount (g, w)
     = (Raise (ValidationError msg), (g, w)))
  /\ (forall a, PrimFloat.ltb a 0%float = true ->
      exists msg,
        Gym.charge_member member_id (Some a) (g, w)
        = (Raise (ValidationError msg), (g, w)))
  /\ Gym.charge_member member_id None (g, w)
     = Gym.charge_member member_id (Some (Member.monthly_price member)) (g, w)
  /\ (Member.is_active member = true ->
      PrimFloat.ltb (Member.monthly_price member) 0%float = false ->
      is_ascii (Member.id member) = true ->
      is_ascii (Member.full_name member) = true ->
      blank (Member.id member) = false ->
      blank (Member.full_name member) = false ->
      Gym.charge_member member_id None (g, w)
      = (Raise (TypeError "PaymentRecord() takes no arguments"),
         (g, after_minting w))).
Proof.
  intros _ Hm. split; [|split; [|split]].
  - intros Hinactive amount. eexists.
    by apply (charge_member_inactive g w member_id member).
  - intros a Hneg. destruct (Member.is_active member) eqn:Hactive.
    + eexists. by apply (charge_member_negative g w member_id member (Some a)).
    + eexists. by apply (charge_member_inactive g w member_id member).
  - rewrite 2!charge_member_unfold, Hm. reflexivity.
  - intros Hactive Hprice _ _ Hid Hname.
    by apply (charge_member_charges g w member_id member None).
Qed.

(** C10. An active member with an ASCII name and id that are not blank,
    found under an ASCII id, a processor whose [fail_threshold] is set, and
    an amount that is not negative and is above the threshold:
    [charge_member] does raise. The processor takes the
    declined branch, and [PaymentRecord.create] raises [TypeError] where it
    constructs the FAILED record; no record is returned, the ledger is as it
    was, and so are the revenue and every member's total. *)
Theorem declined_charge_is_not_recorded
    (g : Gym.t) (w : world) (member_id : string) (member : Member.t)
    (amount : option float) (threshold : float) :
  is_ascii member_id = true ->
  is_ascii (Member.id member) = true ->
  is_ascii (Member.full_name member) = true ->
  Gym.members g !! strip member_id = Some member ->
  Member.is_active member = true ->
  FakePaymentProcessor.fail_threshold (Gym.payment_processor g) = Some threshold ->
  PrimFloat.ltb (charge_amount member amount) 0%float = false ->
  PrimFloat.ltb threshold (charge_amount member amount) = true ->
  blank (Member.id member) = false ->
  blank (Member.full_name member) = false ->
  exists g' w',
    Gym.charge_member member_id amount (g, w)
    = (Raise (TypeError "PaymentRecord() takes no arguments"), (g', w'))
    /\ FakePaymentProcessor.charge (Gym.payment_processor g) (Member.id member)
         (Member.full_name member) (charge_amount member amount) w
       = PaymentRecord.create (Member.id member) (Member.full_name member)
           (charge_amount member amount) FAILED
           "Simulated Failure, amount exceeds threshold" w
    /\ InMemoryPaymentLedger.records (Gym.payment_ledger g')
       = InMemoryPaymentLedger.records (Gym.payment_ledger g)
    /\ Gym.total_revenue g' = Gym.total_revenue g
    /\ (forall id, fst (Gym.total_paid_by_member id g')
                   = fst (Gym.total_paid_by_member id g)).
Proof.
  intros _ _ _ Hm Hactive Hthreshold Hneg Habove Hid Hname.
  exists g, (after_minting w).
  split; [by apply (charge_member_charges g w member_id member amount)|].
  split; [|done].
  unfold FakePaymentProcessor.charge. by rewrite Hthreshold, Habove.
Qed.

End Charging.

Lemma charge_member_rules_witness :
  Gym.charge_member (builtins := Sample.builtins) "mem_ann" None
    (Sample.anns_gym, Sample.w0)
  = (Raise (TypeError "PaymentRecord() takes no arguments"),
     (Sample.anns_gym, Charge.after_minting Sample.w0)).
Proof.
  refine (proj2 (proj2 (proj2
    (charge_member_rules (builtins := Sample.builtins) Sample.anns_gym Sample.w0
       "mem_ann" Sample.ann _ _))) _ _ _ _ _ _);
    vm_compute; reflexivity.
Defined.

Lemma declined_charge_is_not_recorded_witness :
  exists g' w',
    Gym.charge_member (builtins := Sample.builtins) "mem_ann" None
      (Sample.anns_gym, Sample.w0)
    = (Raise (TypeError "PaymentRecord() takes no arguments"), (g', w'))
    /\ FakePaymentProcessor.charge (Gym.payment_processor Sample.anns_gym)
         (Member.id Sample.ann) (Member.full_name Sample.ann)
         (Charge.charge_amount (builtins := Sample.builtins) Sample.ann None)
         Sample.w0
       = PaymentRecord.create (Member.id Sample.ann) (Member.full_name Sample.ann)
           (Charge.charge_amount (builtins := Sample.builtins) Sample.ann None) FAILED
           "Simulated Failure, amount exceeds threshold" Sample.w0
    /\ InMemoryPaymentLedger.records (Gym.payment_ledger g')
       = InMemoryPaymentLedger.records (Gym.payment_ledger Sample.anns_gym)
    /\ Gym.total_revenue g' = Gym.total_revenue Sample.anns_gym
    /\ (forall id, fst (Gym.total_paid_by_member id g')
                   = fst (Gym.total_paid_by_member id Sample.anns_gym)).
Proof.
  apply (declined_charge_is_not_recorded (builtins := Sample.builtins)
           Sample.anns_gym Sample.w0 "mem_ann" Sample.ann None 20%float);
    vm_compute; reflexivity.
Defined.

(** ** The snapshot store (storage.py) *)

Section Paths.

Lemma list_ascii_of_string_app (s1 s2 : string) :
  list_ascii_of_string (s1 ++ s2)
  = list_ascii_of_string s1 ++ list_ascii_of_string s2.
Proof. induction s1 as [|c s1 IH]; simpl; [done|]. by rewrite IH. Qed.

Lemma string_of_list_ascii_app (l1 l2 : list ascii) :
  string_of_list_ascii (l1 ++ l2)
  = (string_of_list_ascii l1 ++ string_of_list_ascii l2)%string.
Proof. induction l1 as [|c l1 IH]; simpl; [done|]. by rewrite IH. Qed.

Lemma string_app_length (s1 s2 : string) :
  String.length (s1 ++ s2) = (String.length s1 + String.length s2)%nat.
Proof. induction s1 as [|c s1 IH]; simpl; [done|]. by rewrite IH. Qed.

(** The suffix is a tail of the name: cutting it off and putting it back
    gives the name. *)
Lemma suffix_chars_tail (n : list ascii) :
  take (length n - length (Fs.suffix_chars n)) n ++ Fs.suffix_chars n = n.
Proof.
  unfold Fs.suffix_chars.
  destruct (Fs.rfind_dot n 0 None) as [i|]; simpl.
  - destruct ((0 <? i)%nat && (i <? length n - 1)%nat) eqn:E; simpl.
    + apply andb_true_iff in E as [_ E]. apply Nat.ltb_lt in E.
      rewrite length_drop.
      replace (length n - (length n - i))%nat with i by lia.
      apply take_drop.
    + rewrite Nat.sub_0_r, firstn_all. apply app_nil_r.
  - rewrite Nat.sub_0_r, firstn_all. apply app_nil_r.
Qed.

(** The temporary path of [save_gym]: the target's name followed by [.tmp],
    in the target's directory. *)
Lemma with_suffix_tmp (p tmp : Fs.Path) :
  Fs.with_suffix p (Fs.suffix p ++ ".tmp") = Ok tmp ->
  p <> [] /\ tmp = Fs.parent p ++ [(Fs.name p ++ ".tmp")%string].
Proof.
  unfold Fs.with_suffix, Fs.suffix.
  destruct (_ || _); [discriminate|].
  destruct (list_ascii_of_string (Fs.name p)) as [|c n] eqn:En; [discriminate|].
  intros [= <-]. split.
  - intros ->. discriminate.
  - f_equal. f_equal.
    rewrite list_ascii_of_string_app, list_ascii_of_string_of_list_ascii.
    set (name := c :: n) in *.
    transitivity (string_of_list_ascii (name ++ list_ascii_of_string ".tmp")).
    { f_equal. pose proof (suffix_chars_tail name) as Htail.
      destruct (Fs.suffix_chars name) as [|d old] eqn:Eold; [done|].
      rewrite app_assoc. f_equal. exact Htail. }
    rewrite string_of_list_ascii_app. subst name. rewrite <- En.
    by rewrite string_of_list_ascii_of_string.
Qed.

Lemma tmp_path_differs (p tmp : Fs.Path) :
  Fs.with_suffix p (Fs.suffix p ++ ".tmp") = Ok tmp -> tmp <> p.
Proof.
  intros H. apply with_suffix_tmp in H as [Hne ->]. intros E.
  rewrite (app_removelast_last "" Hne) in E at 3.
  apply app_inv_head in E. injection E as E.
  apply (f_equal String.length) in E. unfold Fs.name in E.
  rewrite string_app_length in E. simpl in E. lia.
Qed.

End Paths.

Section Store.
Context {order : DictOrder}.
Import Snapshot.

Lemma make_directories_elsewhere (dirs : list Fs.Path) (fs : gmap Fs.Path Fs.content)
    (p : Fs.Path) :
  p ∉ dirs -> Fs.make_directories dirs fs !! p = fs !! p.
Proof.
  induction dirs as [|d dirs IH]; simpl; intros Hp; [done|].
  apply not_elem_of_cons in Hp as [Hne Hp].
  rewrite lookup_insert_ne by done. by apply IH.
Qed.

Lemma make_directories_made (dirs : list Fs.Path) (fs : gmap Fs.Path Fs.content)
    (d : Fs.Path) :
  d ∈ dirs -> Fs.make_directories dirs fs !! d = Some Fs.Directory.
Proof.
  induction dirs as [|d' dirs IH]; simpl; intros Hd; [by apply elem_of_nil in Hd|].
  destruct (decide (d' = d)) as [->|Hne]; [by rewrite lookup_insert_eq|].
  rewrite lookup_insert_ne by done. apply IH.
  apply elem_of_cons in Hd as [->|Hd]; done.
Qed.

Lemma make_directories_again (dirs : list Fs.Path) (fs : gmap Fs.Path Fs.content) :
  Fs.make_directories dirs (Fs.make_directories dirs fs) = Fs.make_directories dirs fs.
Proof.
  apply map_eq. intros p. destruct (decide (p ∈ dirs)) as [Hin|Hout].
  - by rewrite !make_directories_made.
  - by rewrite !make_directories_elsewhere.
Qed.

Lemma ancestors_or_self_length (p d : Fs.Path) :
  d ∈ Fs.ancestors_or_self p -> (length d <= length p)%nat.
Proof.
  unfold Fs.ancestors_or_self. intros Hd.
  apply list_elem_of_fmap in Hd as (n & -> & _).
  rewrite length_take. lia.
Qed.

Lemma parent_length (p : Fs.Path) :
  p <> [] -> (length (Fs.parent p) < length p)%nat.
Proof.
  intros Hp. unfold Fs.parent.
  rewrite (app_removelast_last "" Hp) at 2. rewrite length_app. simpl. lia.
Qed.

(** Neither a path nor a sibling of it is one of the directories above it. *)
Lemma beside_the_ancestors (p q : Fs.Path) :
  (length p <= length q)%nat -> p <> [] ->
  q ∉ Fs.ancestors_or_self (Fs.parent p).
Proof.
  intros Hlen Hp Hin. apply ancestors_or_self_length in Hin.
  pose proof (parent_length p Hp). lia.
Qed.

Lemma not_above_itself (p : Fs.Path) : p ∉ Fs.ancestors_or_self (Fs.parent p).
Proof.
  destruct p as [|c p]; [by intros H%elem_of_nil|].
  by apply beside_the_ancestors.
Qed.

Lemma self_is_made (d : Fs.Path) (fs : gmap Fs.Path Fs.content) :
  Fs.is_dir (Fs.make_directories (Fs.ancestors_or_self d) fs) d = true.
Proof.
  destruct d as [|c d']; [done|].
  unfold Fs.is_dir. rewrite make_directories_made; [done|].
  unfold Fs.ancestors_or_self. apply list_elem_of_fmap.
  exists (length (c :: d')). split; [by rewrite firstn_all|].
  apply elem_of_seq. simpl. lia.
Qed.

Lemma made_is_no_file (dirs : list Fs.Path) (fs : gmap Fs.Path Fs.content) :
  existsb (Fs.is_file fs) dirs = false ->
  existsb (Fs.is_file (Fs.make_directories dirs fs)) dirs = false.
Proof.
  intros _. apply not_true_is_false. intros H.
  apply existsb_exists in H as (d & Hd & Hfile).
  apply list_elem_of_In in Hd. unfold Fs.is_file in Hfile.
  by rewrite make_directories_made in Hfile.
Qed.

Lemma tmp_length (p tmp : Fs.Path) :
  Fs.with_suffix p (Fs.suffix p ++ ".tmp") = Ok tmp ->
  length tmp = length p /\ Fs.parent tmp = Fs.parent p /\ p <> [].
Proof.
  intros H. apply with_suffix_tmp in H as [Hne ->].
  split; [|split; [|done]].
  - rewrite length_app. simpl.
    pose proof (parent_length p Hne) as Hlt.
    unfold Fs.parent in *. rewrite (app_removelast_last "" Hne) at 2.
    rewrite length_app. simpl. lia.
  - unfold Fs.parent at 1. by rewrite removelast_last.
Qed.



Lemma encode_items_total {A} (encode : A -> result pyval) (items : list (string * A)) :
  (forall a, exists v, encode a = Ok v) ->
  exists kvs, storage.encode_items encode items = Ok kvs.
Proof.
  intros Hencode. induction items as [|[k a] items [kvs IH]]; simpl; [eauto|].
  destruct (Hencode a) as [v ->]. simpl. rewrite IH. simpl. eauto.
Qed.

(** [gym_to_dict] returns a document, whose name is the gym's. *)
Lemma gym_to_dict_total (gym : Gym.t) :
  exists doc,
    storage.gym_to_dict gym = Ok doc
    /\ dict_get doc "name" = Ok (PStr (Gym.name gym)).
Proof.
  unfold storage.gym_to_dict.
  destruct (encode_items_total storage.member_to_dict (dict_items (Gym.members gym)))
    as [ms ->]; [intros m; unfold storage.member_to_dict, storage.membership_to_dict;
                 simpl; eauto|].
  destruct (encode_items_total (fun tr => Ok (storage.trainer_to_dict tr))
              (dict_items (Gym.trainers gym))) as [ts ->]; [eauto|].
  simpl. eauto.
Qed.

(** The steps of [save_gym] for a path that has a name: the directory, the
    temporary file opened and written, and last the rename onto the
    target. *)
Lemma save_gym_ops_shape (gym : Gym.t) (path tmp : Fs.Path) (doc : pyval) :
  storage.gym_to_dict gym = Ok doc ->
  Fs.with_suffix path (Fs.suffix path ++ ".tmp") = Ok tmp ->
  storage.save_gym_ops gym path
  = ([Fs.Mkdir (Fs.parent path); Fs.OpenTruncate tmp;
      Fs.Dump (storage.payload_of doc) tmp; Fs.Replace tmp path], None).
Proof.
  intros Hdoc Htmp. unfold storage.save_gym_ops. by rewrite Hdoc, Htmp.
Qed.

(** What [save_gym] does when the temporary path cannot be computed. *)
Lemma save_gym_no_name (gym : Gym.t) (path : Fs.Path) (e : exn) :
  Fs.with_suffix path (Fs.suffix path ++ ".tmp") = Raise e ->
  storage.save_gym_ops gym path = ([Fs.Mkdir (Fs.parent path)], Some e).
Proof.
  intros Htmp. unfold storage.save_gym_ops.
  destruct (gym_to_dict_total gym) as (doc & -> & _). by rewrite Htmp.
Qed.

(** [save_gym], outcome by outcome. *)
Lemma save_gym_result (gym : Gym.t) (path tmp : Fs.Path) (doc : pyval)
    (fs : gmap Fs.Path Fs.content) :
  storage.gym_to_dict gym = Ok doc ->
  Fs.with_suffix path (Fs.suffix path ++ ".tmp") = Ok tmp ->
  storage.save_gym gym path fs
  = let dirs := Fs.ancestors_or_self (Fs.parent path) in
    let fs1 := Fs.make_directories dirs fs in
    if existsb (Fs.is_file fs) dirs
    then (Raise (OSError (if Fs.is_file fs (Fs.parent path) then "FileExistsError"
                          else "NotADirectoryError")), fs)
    else
      match fs !! tmp with
      | Some Fs.Directory => (Raise (OSError "IsADirectoryError"), fs1)
      | _ =>
          match fs !! path with
          | Some Fs.Directory =>
              (Raise (OSError "IsADirectoryError"),
               <[tmp := Fs.Json (storage.payload_of doc)]> fs1)
          | _ =>
              (Ok tt, <[path := Fs.Json (storage.payload_of doc)]> (delete tmp fs1))
          end
      end.
Proof.
  intros Hdoc Htmp.
  destruct (tmp_length path tmp Htmp) as (Hlen & Hparent & Hne).
  pose proof (tmp_path_differs path tmp Htmp) as Hdiff.
  unfold storage.save_gym. rewrite (save_gym_ops_shape gym path tmp doc Hdoc Htmp).
  cbv zeta.
  unfold Fs.run, for_each, Fs.step, bind, get, put, raise, ret, modify.
  destruct (existsb _ _); [done|].
  rewrite Hparent, self_is_made. cbn [negb].
  rewrite make_directories_elsewhere
    by (apply beside_the_ancestors; [lia | done]).
  assert (forall c, (<[tmp := c]> (<[tmp := Fs.NotJson ""]>
                      (Fs.make_directories (Fs.ancestors_or_self (Fs.parent path)) fs)))
                    !! path = fs !! path) as Hpath.
  { intros c. rewrite !lookup_insert_ne by done.
    apply make_directories_elsewhere, not_above_itself. }
  destruct (fs !! tmp) as [[d|t|]|] eqn:Etmp; try done;
    rewrite lookup_insert_eq, Hpath, insert_insert_eq;
    destruct (fs !! path) as [[d'|t'|]|]; try done;
    by rewrite delete_insert_eq.
Qed.

(** A save that returns: the snapshot is at the target, the directories are
    there, and the temporary file is gone. *)
Lemma save_gym_returns (gym : Gym.t) (path : Fs.Path)
    (fs fs' : gmap Fs.Path Fs.content) :
  storage.save_gym gym path fs = (Ok tt, fs') ->
  exists doc tmp,
    storage.gym_to_dict gym = Ok doc
    /\ Fs.with_suffix path (Fs.suffix path ++ ".tmp") = Ok tmp
    /\ existsb (Fs.is_file fs) (Fs.ancestors_or_self (Fs.parent path)) = false
    /\ fs' = <[path := Fs.Json (storage.payload_of doc)]>
               (delete tmp
                  (Fs.make_directories (Fs.ancestors_or_self (Fs.parent path)) fs)).
Proof.
  intros Hsave. destruct (gym_to_dict_total gym) as (doc & Hdoc & _).
  destruct (Fs.with_suffix path (Fs.suffix path ++ ".tmp")) as [tmp|e] eqn:Htmp.
  - rewrite (save_gym_result gym path tmp doc fs Hdoc Htmp) in Hsave.
    cbv zeta in Hsave. exists doc, tmp.
    destruct (existsb _ _); [discriminate|].
    destruct (fs !! tmp) as [[d|t|]|]; try discriminate;
      destruct (fs !! path) as [[d'|t'|]|]; try discriminate;
      by injection Hsave as <-.
  - unfold storage.save_gym in Hsave. rewrite (save_gym_no_name gym path e Htmp) in Hsave.
    unfold bind in Hsave. destruct (Fs.run _ fs) as [[u|e'] fs1]; discriminate.
Qed.


End Store.


Section Load.
Context {builtins : Builtins}.

(** [load_gym] once the file is known to hold a document. *)
Lemma load_gym_of_document (fs : gmap Fs.Path Fs.content) (path : Fs.Path)
    (doc : pyval) (w : world) :
  fs !! path = Some (Fs.Json doc) ->
  storage.load_gym fs path w
  = match doc with
    | PDict kvs =>
        if negb (eq_int (default PNone (assoc "schema_version" kvs))
                   storage.CURRENT_SCHEMA_VERSION)
        then (Raise (ValidationError "Unsupported schema version: expected 1."), w)
        else
          if negb (is_dict (default PNone (assoc "gym" kvs)))
          then (Raise (ValidationError
                         "Invalid save file format: missing 'gym' object."), w)
          else storage.gym_from_dict (default PNone (assoc "gym" kvs)) w
    | _ =>
        (Raise (ValidationError
                  "Unexpected save file format: expected json instance at root."), w)
    end.
Proof.
  intros Hdoc. unfold storage.load_gym, Fs.exists_, Fs.json_load.
  rewrite Hdoc. rewrite bool_decide_eq_true_2 by eauto.
  unfold bind, lift_result, raise, dict_get, dict_get_default. cbn [negb].
  destruct doc; try reflexivity. cbn [is_dict negb].
  destruct (assoc "schema_version" items) as [v|]; cbn [default];
    destruct (negb (eq_int _ _)); try reflexivity;
    destruct (assoc "gym" items) as [gd|]; cbn [default];
    destruct (negb (is_dict _)); reflexivity.
Qed.

(** C6. The ways [load_gym] fails before decoding: a missing file, a root
    that is not an object and a schema version other than 1 raise
    [ValidationError]; a file that is not a JSON document raises
    [json.JSONDecodeError], which [load_gym] does not catch. In each case
    the result is an exception, not a gym. *)
Theorem load_gym_failures (fs : gmap Fs.Path Fs.content) (path : Fs.Path) (w : world) :
  (fs !! path = None ->
   exists msg, storage.load_gym fs path w = (Raise (ValidationError msg), w))
  /\ (forall text, fs !! path = Some (Fs.NotJson text) ->
      storage.load_gym fs path w = (Raise JSONDecodeError, w))
  /\ (forall doc, fs !! path = Some (Fs.Json doc) -> is_dict doc = false ->
      exists msg, storage.load_gym fs path w = (Raise (ValidationError msg), w))
  /\ (forall kvs, fs !! path = Some (Fs.Json (PDict kvs)) ->
      eq_int (default PNone (assoc "schema_version" kvs)) 1 = false ->
      exists msg, storage.load_gym fs path w = (Raise (ValidationError msg), w)).
Proof.
  split; [|split; [|split]].
  - intros Hnone. eexists. unfold storage.load_gym, Fs.exists_.
    rewrite Hnone. rewrite bool_decide_eq_false_2; [reflexivity|].
    by intros [? ?].
  - intros text Htext. unfold storage.load_gym, Fs.exists_, Fs.json_load.
    rewrite Htext. rewrite bool_decide_eq_true_2 by eauto. reflexivity.
  - intros doc Hdoc Hroot. rewrite (load_gym_of_document fs path doc w Hdoc).
    destruct doc; try discriminate; eauto.
  - intros kvs Hdoc Hversion.
    rewrite (load_gym_of_document fs path _ w Hdoc).
    unfold storage.CURRENT_SCHEMA_VERSION. rewrite Hversion. simpl. eauto.
Qed.

End Load.

Lemma load_gym_failures_witness :
  storage.load_gym (builtins := Sample.builtins) Sample.garbled_disk Sample.save_path
    Sample.w0
  = (Raise JSONDecodeError, Sample.w0).
Proof.
  refine (proj1 (proj2 (load_gym_failures (builtins := Sample.builtins)
                          Sample.garbled_disk Sample.save_path Sample.w0)) _ _).
  vm_compute. reflexivity.
Defined.

Section EmptyGym.
Context {builtins : Builtins} {order : DictOrder}.

Lemma dict_items_empty {A : Type} : dict_items (∅ : gmap string A) = [].
Proof.
  pose proof (dict_items_permutation A ∅) as H.
  rewrite map_to_list_empty in H. by apply Permutation_nil_r in H.
Qed.

(** The snapshot of a gym that holds nothing. *)
Lemma gym_to_dict_empty (gym : Gym.t) :
  Gym.members gym = ∅ ->
  Gym.trainers gym = ∅ ->
  WorkoutCatalog.plans (Gym.workouts gym) = ∅ ->
  InMemoryPaymentLedger.records (Gym.payment_ledger gym) = [] ->
  storage.gym_to_dict gym
  = Ok (PDict [("name", PStr (Gym.name gym));
               ("members", PDict []);
               ("trainers", PDict []);
               ("payment_processor",
                PDict [("type", PStr "fake");
                       ("fail_threshold",
                        storage.optional PFloat
                          (FakePaymentProcessor.fail_threshold
                             (Gym.payment_processor gym)))]);
               ("workouts", PDict [("plans", PDict [])]);
               ("payment_ledger", PDict [("records", PList [])])]).
Proof.
  intros Hm Ht Hp Hl.
  unfold storage.gym_to_dict, storage.workout_catalog_to_dict, storage.ledger_to_dict.
  rewrite Hm, Ht, Hp, Hl, !dict_items_empty. reflexivity.
Qed.

(** Decoding the snapshot of a gym that holds nothing: every part decodes,
    and the call [FakePaymentProcessor(fail_threshold=...)] that ends
    [gym_from_dict] raises [TypeError], the class having no such parameter. *)
Lemma gym_from_dict_empty (name : string) (threshold : pyval) (w : world) :
  blank name = false ->
  storage.gym_from_dict
    (PDict [("name", PStr name);
            ("members", PDict []);
            ("trainers", PDict []);
            ("payment_processor",
             PDict [("type", PStr "fake"); ("fail_threshold", threshold)]);
            ("workouts", PDict [("plans", PDict [])]);
            ("payment_ledger", PDict [("records", PList [])])]) w
  = (Raise (TypeError "FakePaymentProcessor() takes no arguments"), w).
Proof.
  intros Hname. unfold blank in Hname.
  apply orb_false_iff in Hname as [H1 H2].
  unfold storage.gym_from_dict, storage.workout_catalog_from_dict,
    storage.ledger_from_dict, Gym.new, FakePaymentProcessor.new,
    bind, lift_result, ret, raise.
  cbn. rewrite H1, H2. reflexivity.
Qed.

(** C1. A gym with a valid name and no member, trainer, plan or ledger
    record: when [save_gym] has written it to a path, [load_gym] on that path
    does not return a gym but raises [TypeError], from the construction of
    the payment processor at the end of [gym_from_dict]. *)
Theorem load_after_save_of_empty_gym
    (gym : Gym.t) (path : Fs.Path) (fs fs' : gmap Fs.Path Fs.content) (w : world) :
  blank (Gym.name gym) = false ->
  Gym.members gym = ∅ ->
  Gym.trainers gym = ∅ ->
  WorkoutCatalog.plans (Gym.workouts gym) = ∅ ->
  InMemoryPaymentLedger.records (Gym.payment_ledger gym) = [] ->
  storage.save_gym gym path fs = (Ok tt, fs') ->
  storage.load_gym fs' path w
  = (Raise (TypeError "FakePaymentProcessor() takes no arguments"), w).
Proof.
  intros Hname Hm Ht Hp Hl Hsave.
  pose proof (gym_to_dict_empty gym Hm Ht Hp Hl) as Hdoc.
  assert (fs' !! path
          = Some (Fs.Json (storage.payload_of
                             (PDict [("name", PStr (Gym.name gym));
                                     ("members", PDict []);
                                     ("trainers", PDict []);
                                     ("payment_processor",
                                      PDict [("type", PStr "fake");
                                             ("fail_threshold",
                                              storage.optional PFloat
                                                (FakePaymentProcessor.fail_threshold
                                                   (Gym.payment_processor gym)))]);
                                     ("workouts", PDict [("plans", PDict [])]);
                                     ("payment_ledger", PDict [("records", PList [])])]))))
    as Hfile.
  { destruct (save_gym_returns gym path fs fs' Hsave) as (doc & tmp & Hdoc' & _ & _ & ->).
    rewrite lookup_insert_eq. congruence. }
  rewrite (load_gym_of_document fs' path _ w Hfile).
  unfold storage.payload_of. cbn [assoc String.eqb Ascii.eqb Bool.eqb default].
  cbn [eq_int storage.CURRENT_SCHEMA_VERSION Z.eqb Pos.eqb negb is_dict].
  by apply gym_from_dict_empty.
Qed.


End EmptyGym.

Lemma sample_save_goes_through :
  fst (storage.save_gym (order := Sample.order) Sample.empty_gym
         Sample.save_path Sample.disk) = Ok tt.
Proof. vm_compute. reflexivity. Qed.

Lemma load_after_save_of_empty_gym_witness :
  storage.load_gym (builtins := Sample.builtins)
    (snd (storage.save_gym (order := Sample.order) Sample.empty_gym
            Sample.save_path Sample.disk))
    Sample.save_path Sample.w0
  = (Raise (TypeError "FakePaymentProcessor() takes no arguments"), Sample.w0).
Proof.
  apply (load_after_save_of_empty_gym (builtins := Sample.builtins)
           (order := Sample.order)
           Sample.empty_gym Sample.save_path Sample.disk);
    reflexivity.
Defined.

(** ** The codec (storage.py) *)

Section RoundTrips.
Context {builtins : Builtins}.
Import Snapshot.

Lemma price_policy_round_trip (p : PricePolicy.t) :
  policy_valid p = true ->
  storage.price_policy_from_dict (storage.price_policy_to_dict p) = Ok p.
Proof.
  destruct p as [|d|x]; simpl; intros Hvalid.
  - reflexivity.
  - unfold storage.price_policy_from_dict, PricePolicy.new_PercentOff. cbn.
    by rewrite Hvalid.
  - unfold storage.price_policy_from_dict, PricePolicy.new_FixedPrice. cbn.
    by rewrite Hvalid.
Qed.

Lemma MembershipStatus_round_trip (s : MembershipStatus) :
  MembershipStatus_of (PStr (MembershipStatus_value s)) = Ok s.
Proof. by destruct s. Qed.

Lemma PaymentStatus_round_trip (s : PaymentStatus) :
  PaymentStatus_of (PaymentStatus_value s) = Ok s.
Proof. by destruct s. Qed.

(** What [membership_from_dict] makes of an encoded membership: a fresh
    identifier, the encoded status and policy, and the class named by the
    [type] entry, which [membership_to_dict] always sets to [basic]. *)
Lemma membership_decode_encode (m : BaseMembership.t) (w : world) :
  policy_valid (BaseMembership.price_policy m) = true ->
  exists doc,
    storage.membership_to_dict m = Ok doc
    /\ storage.membership_from_dict doc w
       = (Ok {| BaseMembership.class_of := BaseMembership.BasicMembership;
                BaseMembership.id := ("ms_" ++ uuid_hex w (uuid_calls w))%string;
                BaseMembership.status := BaseMembership.status m;
                BaseMembership.price_policy := BaseMembership.price_policy m |},
          snd (uuid4_hex w)).
Proof.
  intros Hvalid. eexists. split; [reflexivity|].
  unfold storage.membership_from_dict, bind, lift_result, ret. cbn.
  rewrite (price_policy_round_trip _ Hvalid). cbn.
  unfold BaseMembership.new, new_id, bind, ret. cbn.
  by rewrite MembershipStatus_round_trip.
Qed.

(** C2, on its named instance. Encoding a PremiumMembership and decoding the
    result gives a membership with the same status and price policy, but of
    class BasicMembership: the tier is lost. *)
Theorem premium_membership_decodes_as_basic (m : BaseMembership.t) (w : world) :
  BaseMembership.class_of m = BaseMembership.PremiumMembership ->
  policy_valid (BaseMembership.price_policy m) = true ->
  exists doc m' w',
    storage.membership_to_dict m = Ok doc
    /\ storage.membership_from_dict doc w = (Ok m', w')
    /\ BaseMembership.class_of m' = BaseMembership.BasicMembership
    /\ BaseMembership.class_of m' <> BaseMembership.class_of m
    /\ BaseMembership.status m' = BaseMembership.status m
    /\ BaseMembership.price_policy m' = BaseMembership.price_policy m.
Proof.
  intros Hclass Hvalid.
  destruct (membership_decode_encode m w Hvalid) as (doc & Hdoc & Hdecode).
  eexists doc, _, _. split; [exact Hdoc|]. split; [exact Hdecode|].
  simpl. rewrite Hclass. repeat split. discriminate.
Qed.

End RoundTrips.

Lemma premium_membership_decodes_as_basic_witness :
  exists doc m' w',
    storage.membership_to_dict Sample.premium = Ok doc
    /\ storage.membership_from_dict (builtins := Sample.builtins) doc Sample.w0
       = (Ok m', w')
    /\ BaseMembership.class_of m' = BaseMembership.BasicMembership
    /\ BaseMembership.class_of m' <> BaseMembership.class_of Sample.premium
    /\ BaseMembership.status m' = BaseMembership.status Sample.premium
    /\ BaseMembership.price_policy m' = BaseMembership.price_policy Sample.premium.
Proof.
  apply (premium_membership_decodes_as_basic (builtins := Sample.builtins)
           Sample.premium Sample.w0); reflexivity.
Defined.

(** ** Text and well-formed entities (people.py) *)

Section Texts.
Import Text.

Lemma lstrip_chars_has_text (l : list ascii) :
  has_text (lstrip_chars l) = has_text l.
Proof.
  induction l as [|c l IH]; simpl; [done|].
  destruct (is_space c) eqn:E; simpl; [by rewrite IH | by rewrite E].
Qed.

Lemma has_text_rev (l : list ascii) : has_text (rev l) = has_text l.
Proof.
  unfold has_text. apply eq_true_iff_eq.
  rewrite !existsb_exists. split; intros (c & Hin & Hc); exists c;
    (split; [|done]); by apply in_rev in Hin.
Qed.

Lemma lstrip_chars_nil (l : list ascii) :
  lstrip_chars l = [] <-> has_text l = false.
Proof.
  induction l as [|c l IH]; simpl; [done|].
  destruct (is_space c) eqn:E; simpl; [done|]. split; discriminate.
Qed.

Lemma lstrip_chars_head (l l' : list ascii) (c : ascii) :
  lstrip_chars l = c :: l' -> is_space c = false.
Proof.
  induction l as [|d l IH]; simpl; [discriminate|].
  destruct (is_space d) eqn:E; [exact IH|]. intros [= <- _]. exact E.
Qed.

Lemma strip_chars_has_text (l : list ascii) :
  has_text (lstrip_chars (rstrip_chars l)) = has_text l.
Proof.
  unfold rstrip_chars.
  by rewrite lstrip_chars_has_text, has_text_rev, lstrip_chars_has_text, has_text_rev.
Qed.

Lemma string_of_list_ascii_nil (l : list ascii) :
  string_of_list_ascii l = "" <-> l = [].
Proof. destruct l; simpl; split; intros; congruence. Qed.

Lemma str_truthy_text (l : list ascii) :
  str_truthy (string_of_list_ascii l) = match l with [] => false | _ => true end.
Proof. by destruct l. Qed.

(** A string is blank exactly when it has no text. *)
Lemma blank_iff_no_text (s : string) :
  blank s = negb (has_text (list_ascii_of_string s)).
Proof.
  unfold blank, strip. rewrite str_truthy_text.
  pose proof (strip_chars_has_text (list_ascii_of_string s)) as Ht.
  destruct (lstrip_chars (rstrip_chars (list_ascii_of_string s))) as [|c l'] eqn:E.
  - rewrite <- Ht. simpl. by rewrite orb_true_r.
  - rewrite <- Ht. apply lstrip_chars_head in E as Hc.
    simpl. rewrite Hc. simpl. rewrite orb_false_r. destruct s; [|done].
    simpl in E. discriminate.
Qed.

Lemma strip_not_blank (s : string) : blank (strip s) = blank s.
Proof.
  rewrite !blank_iff_no_text. unfold strip.
  by rewrite list_ascii_of_string_of_list_ascii, strip_chars_has_text.
Qed.

Lemma strip_truthy_not_blank (s : string) :
  str_truthy (strip s) = true -> blank (strip s) = false.
Proof.
  intros H. rewrite strip_not_blank. unfold blank. rewrite H.
  destruct s; [discriminate H | done].
Qed.

(** An identifier minted by [new_id] is not blank when its prefix holds a
    character that is not white space. *)
Lemma prefixed_not_blank (prefix rest : string) :
  blank prefix = false -> blank (prefix ++ rest) = false.
Proof.
  rewrite !blank_iff_no_text, list_ascii_of_string_app.
  unfold has_text. rewrite existsb_app.
  intros H. apply negb_false_iff in H. by rewrite H.
Qed.

Lemma required_text_not_blank (v : pyval) (e : exn) (s : string) :
  required_text v e = Ok s -> blank s = false.
Proof.
  unfold required_text. destruct (negb (truthy v)); [discriminate|].
  destruct v; simpl; try discriminate.
  destruct (negb (str_truthy (strip s0))) eqn:E; [discriminate|].
  intros [= <-]. apply strip_truthy_not_blank. by apply negb_false_iff in E.
Qed.

(** Every member that [Member(...)] returns has an identifier and a name
    that are not blank. *)
Lemma Member_new_named (full_name email : pyval) (membership : BaseMembership.t)
    (join_date : option date) (w w' : world) (m : Member.t) :
  Member.new full_name email membership join_date w = (Ok m, w') ->
  member_named m.
Proof.
  unfold Member.new, Person.post_init, new_id, date_today, bind, lift_result, ret, raise.
  change (blank "per") with false. change (blank "mem") with false. cbn iota.
  unfold uuid4_hex, datetime_now.
  destruct (required_text full_name _) as [fn|e] eqn:Efn;
    [|by destruct join_date].
  destruct (required_text email _) as [em|e] eqn:Eem;
    [|by destruct join_date].
  destruct (negb (contains_char "@" em) || negb (contains_char "." em));
    [by destruct join_date|].
  intros H.
  assert (Member.id m = ("mem_" ++ uuid_hex w (S (uuid_calls w)))%string
          /\ Member.full_name m = fn) as [Hid Hfn].
  { destruct join_date; injection H as <- _; done. }
  split.
  - rewrite Hid. by apply (prefixed_not_blank "mem").
  - rewrite Hfn. by apply required_text_not_blank in Efn.
Qed.

End Texts.

Section MemberCodec.
Context {builtins : Builtins}.
Import Snapshot.

(** What [member_from_dict] makes of an encoded member: the stored id, the
    name and the email come back, the membership comes back as a basic one
    with a fresh identifier, and the join date is the day of the decoding:
    the [join_date] entry of the document is not read. *)
Lemma member_decode_encode (m : Member.t) (w : world) :
  blank (Member.full_name m) = false ->
  blank (Member.email m) = false ->
  contains_char "@" (strip (Member.email m)) = true ->
  contains_char "." (strip (Member.email m)) = true ->
  str_truthy (Member.id m) = true ->
  policy_valid (BaseMembership.price_policy (Member.membership m)) = true ->
  exists doc w',
    storage.member_to_dict m = Ok doc
    /\ storage.member_from_dict doc w
       = (Ok {| Member.id := Member.id m;
                Member.full_name := strip (Member.full_name m);
                Member.email := strip (Member.email m);
                Member.membership :=
                  {| BaseMembership.class_of := BaseMembership.BasicMembership;
                     BaseMembership.id := ("ms_" ++ uuid_hex w (uuid_calls w))%string;
                     BaseMembership.status :=
                       BaseMembership.status (Member.membership m);
                     BaseMembership.price_policy :=
                       BaseMembership.price_policy (Member.membership m) |};
                Member.join_date := on_date (clock w (clock_reads w)) |}, w').
Proof.
  intros Hname Hemail Hat Hdot Hid Hvalid.
  destruct (membership_decode_encode (Member.membership m) w Hvalid)
    as (mdoc & Hmdoc & Hmdecode).
  unfold blank in Hname, Hemail.
  apply orb_false_iff in Hname as [Hn1 Hn2].
  apply orb_false_iff in Hemail as [He1 He2].
  eexists _, _. split.
  - unfold storage.member_to_dict. rewrite Hmdoc. reflexivity.
  - unfold storage.member_from_dict, bind, lift_result, ret, raise.
    cbn [is_dict negb dict_get dict_get_default dict_item assoc String.eqb
           Ascii.eqb Bool.eqb truthy str andb orb].
    rewrite Hn1, Hn2, He1. cbn [andb orb]. rewrite Hmdecode.
    unfold Member.new, Person.post_init, required_text, new_id, date_today,
      datetime_now, uuid4_hex, bind, lift_result, ret, raise. cbn.
    change (blank "per") with false. change (blank "mem") with false. cbn.
    rewrite Hn1, Hn2, He1, He2. cbn. rewrite Hat, Hdot, Hid. cbn.
    reflexivity.
Qed.

End MemberCodec.

(** Ann joined on 2020-02-03 with a premium membership; decoded on
    2024-01-01 from her own encoding, she joined that day and is a basic
    member. *)
Lemma decoded_member_joins_today :
  exists doc m' w',
    storage.member_to_dict Sample.ann = Ok doc
    /\ assoc "join_date" (match doc with PDict kvs => kvs | _ => [] end)
       = Some (PStr "2020-02-03")
    /\ storage.member_from_dict (builtins := Sample.builtins) doc Sample.w0
       = (Ok m', w')
    /\ Member.join_date m' = {| year := 2024; month := 1; day := 1 |}
    /\ Member.join_date Sample.ann = {| year := 2020; month := 2; day := 3 |}
    /\ Member.id m' = Member.id Sample.ann.
Proof.
  destruct (member_decode_encode (builtins := Sample.builtins) Sample.ann Sample.w0)
    as (doc & w' & Hdoc & Hdecode); try reflexivity.
  eexists doc, _, w'. split; [exact Hdoc|].
  split; [|split; [exact Hdecode | by repeat split]].
  vm_compute in Hdoc. injection Hdoc as <-. reflexivity.
Qed.

Section EntityRoundTrips.
Context {builtins : Builtins}.
Import Snapshot Text.

Lemma stripped_not_blank (s : string) : stripped s -> blank s = false.
Proof.
  intros [Hs Ht]. unfold blank. by rewrite Hs, Ht.
Qed.

Lemma stripped_checks (s : string) :
  stripped s ->
  negb (str_truthy s) = false /\ negb (str_truthy (strip s)) = false.
Proof. intros [Hs Ht]. by rewrite Hs, Ht. Qed.

Lemma exercise_round_trip (e : Exercise.t) :
  exercise_normal e ->
  storage.exercise_from_dict (storage.exercise_to_dict e) = Ok e.
Proof.
  intros (Hname & Hnonempty & Hsets & Hreps & Hload & Hnotes).
  assert (str_truthy (strip (Exercise.name e)) = true) as Hstrip.
  { destruct (str_truthy (strip (Exercise.name e))) eqn:E; [done|].
    unfold str_truthy in E. apply negb_false_iff, String.eqb_eq in E.
    rewrite E in Hname. change (lower "") with "" in Hname.
    rewrite <- Hname in Hnonempty. discriminate. }
  unfold storage.exercise_from_dict, storage.exercise_to_dict, rbind.
  cbn [is_dict negb dict_get dict_get_default assoc String.eqb Ascii.eqb
         Bool.eqb truthy str int_ andb orb].
  rewrite Hnonempty, Hstrip. cbn [negb orb].
  assert ((if is_None (storage.optional PFloat (Exercise.load e)) then Ok None
           else match float_ (storage.optional PFloat (Exercise.load e)) with
                | Ok x => Ok (Some x)
                | Raise err => Raise err
                end) = Ok (Exercise.load e)) as ->
    by (by destruct (Exercise.load e)).
  assert ((if is_None (storage.optional PStr (Exercise.notes e)) then None
           else Some (str (storage.optional PStr (Exercise.notes e))))
          = Exercise.notes e) as ->
    by (by destruct (Exercise.notes e)).
  unfold Exercise.new. rewrite Hname, Hnonempty. cbn [negb].
  destruct (Exercise.sets e <=? 0)%Z eqn:E1; [apply Z.leb_le in E1; lia|].
  destruct (Exercise.reps e <=? 0)%Z eqn:E2; [apply Z.leb_le in E2; lia|].
  assert (match Exercise.load e with
          | Some x => PrimFloat.ltb x 0
          | None => false
          end = false) as ->
    by (by destruct (Exercise.load e)).
  f_equal. destruct e as [name sets reps load notes]. simpl in *. f_equal.
  destruct notes as [s|]; [|done]. destruct Hnotes as [-> ->]. done.
Qed.

Lemma trainer_round_trip (tr : Trainer.t) (w : world) :
  trainer_normal tr ->
  exists w',
    storage.trainer_from_dict (storage.trainer_to_dict tr) w = (Ok tr, w').
Proof.
  intros (Hname & Hemail & Hat & Hdot & Hid & Hsp).
  destruct (stripped_checks _ Hname) as [Hn1 Hn2].
  destruct (stripped_checks _ Hemail) as [He1 He2].
  destruct Hname as [Hname _]. destruct Hemail as [Hemail _].
  eexists.
  unfold storage.trainer_from_dict, storage.trainer_to_dict, bind, lift_result,
    ret, raise.
  cbn [is_dict negb dict_get dict_get_default assoc String.eqb Ascii.eqb
         Bool.eqb truthy str andb orb].
  rewrite Hn1, Hn2, He1, He2. cbn [orb].
  unfold Trainer.new, Person.post_init, required_text, strip_of, rbind, new_id,
    uuid4_hex, bind, lift_result, ret, raise.
  change (blank "per") with false. change (blank "trn") with false.
  cbn [truthy]. rewrite Hn1, Hn2, He1, He2, Hname, Hemail, Hat, Hdot.
  cbn [negb orb fst snd].
  destruct tr as [id full_name email specialty]. simpl in *.
  destruct specialty as [s|]; cbn [fst snd].
  - destruct Hsp as [Htitle Hs]. rewrite Hs, Htitle. cbn [negb].
    rewrite Hid. reflexivity.
  - rewrite Hid. reflexivity.
Qed.

End EntityRoundTrips.

Section RecordRoundTrips.
Context {builtins : Builtins}.
Import Snapshot Text.

Lemma zero_padded_cons (width : nat) (n : Z) :
  exists c l, zero_padded (S width) n = c :: l.
Proof.
  simpl. destruct (zero_padded width (n / 10)) as [|c l]; simpl; eauto.
Qed.

Lemma datetime_isoformat_truthy (t : datetime) :
  str_truthy (datetime_isoformat t) = true.
Proof.
  unfold datetime_isoformat, date_chars.
  destruct (zero_padded_cons 3 (year (on_date t))) as (c & l & ->). reflexivity.
Qed.

(** Decoding the encoded exercises of a plan appends them, in order. *)
Lemma decode_exercises (exs : list Exercise.t) (plan : WorkoutPlan.t) (w : world) :
  Forall exercise_normal exs ->
  fold_each (map storage.exercise_to_dict exs) plan
    (fun plan ex =>
       let! e := lift_result (storage.exercise_from_dict ex) in
       ret (snd (WorkoutPlan.add_exercise e plan))) w
  = (Ok (WorkoutPlan.set_exercises (WorkoutPlan._exercises plan ++ exs) plan), w).
Proof.
  intros Hexs. revert plan.
  induction Hexs as [|e exs He Hexs IH]; intros plan; simpl.
  - rewrite app_nil_r. by destruct plan.
  - unfold bind at 1. unfold bind at 1, lift_result, ret.
    rewrite (exercise_round_trip e He). rewrite IH.
    unfold WorkoutPlan.add_exercise, modify. simpl.
    by rewrite <- app_assoc.
Qed.

End RecordRoundTrips.

(** ** Lookup after the mutations (gym.py) *)

Section AddRemove.
Import Index.

Lemma add_member_returns (g g' : Gym.t) (member : Member.t) :
  Gym.add_member member g = (Ok tt, g') ->
  Gym.members g !! Member.id member = None
  /\ Gym.members_by_email g !! member_key member = None
  /\ g' = Gym.set_members_by_email
            (<[member_key member := Member.id member]> (Gym.members_by_email g))
            (Gym.set_members (<[Member.id member := member]> (Gym.members g)) g).
Proof.
  unfold Gym.add_member, bind, get, raise, modify, member_key. simpl.
  destruct (MembershipStatus_eqb _ _); [discriminate|].
  destruct (Gym.members g !! Member.id member); [discriminate|].
  destruct (Gym.members_by_email g !! _); [discriminate|].
  simpl. by intros [= <-].
Qed.

(** A member that was added is found by id and by email, whatever the case
    and the surrounding white space of the email asked for. *)
Lemma added_member_is_found (g g' : Gym.t) (member : Member.t) (email : string) :
  Gym.add_member member g = (Ok tt, g') ->
  Gym.email_key email = member_key member ->
  Gym.members g' !! Member.id member = Some member
  /\ Gym.find_member_by_email email g' = (Ok (Some member), g').
Proof.
  intros Hadd Hkey. apply add_member_returns in Hadd as (_ & _ & ->).
  split; [apply lookup_insert_eq|].
  unfold Gym.find_member_by_email, bind, get, ret. simpl.
  by rewrite Hkey, !lookup_insert_eq.
Qed.

(** A second member whose email has the same key is refused. *)
Lemma add_member_same_email (g g' : Gym.t) (first second : Member.t) :
  Gym.add_member first g = (Ok tt, g') ->
  member_key second = member_key first ->
  exists msg, Gym.add_member second g' = (Raise (ValidationError msg), g').
Proof.
  intros Hadd Hkey. apply add_member_returns in Hadd as (_ & _ & ->).
  unfold Gym.add_member, bind, get, raise. simpl.
  destruct (MembershipStatus_eqb _ _); [eauto|].
  destruct (<[Member.id first := first]> (Gym.members g) !! Member.id second);
    [eauto|].
  fold (member_key second). rewrite Hkey, lookup_insert_eq. eauto.
Qed.

Lemma email_keys_ignore_case_and_space :
  Gym.email_key "A@X.COM " = Gym.email_key "a@x.com".
Proof. reflexivity. Qed.

(** Removing a member of a synchronized aggregate returns normally and
    removes both entries: the id is no longer found, nor is the email. *)
Lemma removed_member_is_gone (g : Gym.t) (member_id : string) (member : Member.t) :
  members_synchronized g ->
  Gym.members g !! member_id = Some member ->
  exists g',
    Gym.remove_member member_id g = (Ok tt, g')
    /\ Gym.members g' !! member_id = None
    /\ Gym.find_member_by_email (Member.email member) g' = (Ok None, g').
Proof.
  intros [_ Hsync] Hm. eexists.
  unfold Gym.remove_member, bind, get, raise, modify. simpl. rewrite Hm. simpl.
  pose proof (Hsync _ _ Hm) as Hkey. unfold member_key in Hkey.
  rewrite decide_True by done. simpl.
  split; [reflexivity|]. split; [apply lookup_delete_eq|].
  unfold Gym.find_member_by_email, bind, get, ret. simpl.
  by rewrite lookup_delete_eq.
Qed.

End AddRemove.

Section SchemaVersion.
Context {builtins : Builtins}.

(** A snapshot of schema version 2 is refused. *)
Lemma load_gym_version_2 (fs : gmap Fs.Path Fs.content) (path : Fs.Path)
    (gym_doc : pyval) (w : world) :
  fs !! path = Some (Fs.Json (PDict [("schema_version", PInt 2); ("gym", gym_doc)])) ->
  storage.load_gym fs path w
  = (Raise (ValidationError "Unsupported schema version: expected 1."), w).
Proof.
  intros Hdoc. by rewrite (load_gym_of_document fs path _ w Hdoc).
Qed.

End SchemaVersion.

(* ===================================================================== *)
(** * Part III. Further properties of the code *)
(* ===================================================================== *)

(** ** Normalization of text: [strip], [lower] and [title] *)

Section Normalization.
Import Text.

Lemma lower_char_space (c : ascii) : is_space (lower_char c) = is_space c.
Proof. destruct c as [[] [] [] [] [] [] [] []]; reflexivity. Qed.

Lemma upper_char_space (c : ascii) : is_space (upper_char c) = is_space c.
Proof. destruct c as [[] [] [] [] [] [] [] []]; reflexivity. Qed.

Lemma lower_char_idempotent (c : ascii) : lower_char (lower_char c) = lower_char c.
Proof. destruct c as [[] [] [] [] [] [] [] []]; reflexivity. Qed.

Lemma upper_char_idempotent (c : ascii) : upper_char (upper_char c) = upper_char c.
Proof. destruct c as [[] [] [] [] [] [] [] []]; reflexivity. Qed.

Lemma lower_char_cased (c : ascii) :
  is_upper (lower_char c) || is_lower (lower_char c) = is_upper c || is_lower c.
Proof. destruct c as [[] [] [] [] [] [] [] []]; reflexivity. Qed.

Lemma upper_char_cased (c : ascii) :
  is_upper (upper_char c) || is_lower (upper_char c) = is_upper c || is_lower c.
Proof. destruct c as [[] [] [] [] [] [] [] []]; reflexivity. Qed.

(** Stripping on the left stops at the first character that is not white
    space, whatever follows it. *)
Lemma lstrip_chars_app (x y : list ascii) (c : ascii) :
  is_space c = false ->
  lstrip_chars (x ++ c :: y) = lstrip_chars x ++ c :: y.
Proof.
  intros Hc. induction x as [|d x IH]; simpl; [by rewrite Hc|].
  by destruct (is_space d).
Qed.

Lemma rstrip_chars_app (x y : list ascii) (c : ascii) :
  is_space c = false ->
  rstrip_chars (x ++ c :: y) = x ++ c :: rstrip_chars y.
Proof.
  intros Hc. unfold rstrip_chars.
  rewrite rev_app_distr. simpl. rewrite <- app_assoc. simpl.
  rewrite (lstrip_chars_app (rev y) (rev x) c Hc).
  rewrite rev_app_distr. simpl. rewrite rev_involutive, <- app_assoc. reflexivity.
Qed.

Lemma lstrip_chars_idempotent (l : list ascii) :
  lstrip_chars (lstrip_chars l) = lstrip_chars l.
Proof.
  induction l as [|c l IH]; simpl; [done|].
  destruct (is_space c) eqn:E; [done|]. simpl. by rewrite E.
Qed.

Lemma rstrip_chars_idempotent (l : list ascii) :
  rstrip_chars (rstrip_chars l) = rstrip_chars l.
Proof.
  unfold rstrip_chars. by rewrite rev_involutive, lstrip_chars_idempotent.
Qed.

(** A text is white space only, or white space, then a character that is
    not, then the rest. *)
Lemma text_split (l : list ascii) :
  has_text l = false
  \/ exists pre c rest,
       l = pre ++ c :: rest /\ has_text pre = false /\ is_space c = false.
Proof.
  induction l as [|d l IH]; [by left|].
  destruct (is_space d) eqn:E.
  - destruct IH as [IH | (pre & c & rest & -> & Hpre & Hc)].
    + left. unfold has_text in *. simpl. by rewrite E.
    + right. exists (d :: pre), c, rest. repeat split; [|done].
      unfold has_text in *. simpl. by rewrite E.
  - right. by exists [], d, l.
Qed.

Lemma has_text_rstrip_chars (l : list ascii) :
  has_text (rstrip_chars l) = has_text l.
Proof.
  unfold rstrip_chars. by rewrite has_text_rev, lstrip_chars_has_text, has_text_rev.
Qed.

(** The stripped form of a text. *)
Lemma strip_chars_split (l : list ascii) :
  (has_text l = false /\ lstrip_chars (rstrip_chars l) = [])
  \/ exists pre c rest,
       l = pre ++ c :: rest /\ has_text pre = false /\ is_space c = false
       /\ lstrip_chars (rstrip_chars l) = c :: rstrip_chars rest.
Proof.
  destruct (text_split l) as [H | (pre & c & rest & -> & Hpre & Hc)].
  - left. split; [done|]. apply lstrip_chars_nil. by rewrite has_text_rstrip_chars.
  - right. exists pre, c, rest. repeat split; try done.
    rewrite (rstrip_chars_app pre rest c Hc), (lstrip_chars_app pre _ c Hc).
    apply lstrip_chars_nil in Hpre. by rewrite Hpre.
Qed.

Lemma strip_chars_idempotent (l : list ascii) :
  lstrip_chars (rstrip_chars (lstrip_chars (rstrip_chars l)))
  = lstrip_chars (rstrip_chars l).
Proof.
  destruct (strip_chars_split l) as [[_ ->] | (pre & c & rest & _ & _ & Hc & ->)];
    [done|].
  pose proof (rstrip_chars_app [] (rstrip_chars rest) c Hc) as Hr.
  simpl in Hr. rewrite Hr. simpl.
  by rewrite Hc, rstrip_chars_idempotent.
Qed.

Lemma strip_idempotent (s : string) : strip (strip s) = strip s.
Proof.
  unfold strip. by rewrite list_ascii_of_string_of_list_ascii, strip_chars_idempotent.
Qed.

Lemma str_truthy_strip (s : string) :
  str_truthy (strip s) = has_text (list_ascii_of_string s).
Proof.
  pose proof (blank_iff_no_text s) as H. unfold blank in H.
  destruct (str_truthy (strip s)) eqn:E.
  - rewrite orb_false_r in H. simpl in H.
    destruct (has_text (list_ascii_of_string s)); [done|].
    simpl in H. destruct s; [discriminate E | discriminate H].
  - rewrite orb_true_r in H. by destruct (has_text (list_ascii_of_string s)).
Qed.

(** What the constructors store: a text that stripping leaves as it is. *)
Lemma strip_is_stripped (s : string) :
  str_truthy (strip s) = true -> Snapshot.stripped (strip s).
Proof. intros H. split; [apply strip_idempotent | exact H]. Qed.

Lemma lstrip_chars_lower (l : list ascii) :
  lstrip_chars (map lower_char l) = map lower_char (lstrip_chars l).
Proof.
  induction l as [|c l IH]; simpl; [done|].
  rewrite lower_char_space. by destruct (is_space c).
Qed.

Lemma strip_lower (s : string) : strip (lower s) = lower (strip s).
Proof.
  unfold strip, lower, rstrip_chars.
  rewrite !list_ascii_of_string_of_list_ascii.
  by rewrite <- map_rev, lstrip_chars_lower, <- map_rev, lstrip_chars_lower.
Qed.

Lemma lower_idempotent (s : string) : lower (lower s) = lower s.
Proof.
  unfold lower. rewrite list_ascii_of_string_of_list_ascii, map_map.
  f_equal. apply map_ext. intros c. apply lower_char_idempotent.
Qed.

(** The name an exercise is given is a fixed point of the normalization. *)
Lemma lower_strip_idempotent (s : string) :
  lower (strip (lower (strip s))) = lower (strip s).
Proof. by rewrite strip_lower, strip_idempotent, lower_idempotent. Qed.

Lemma title_chars_idempotent (l : list ascii) (prev : bool) :
  title_chars prev (title_chars prev l) = title_chars prev l.
Proof.
  revert prev. induction l as [|c l IH]; intros prev; simpl; [done|].
  destruct prev.
  - by rewrite lower_char_idempotent, lower_char_cased, IH.
  - by rewrite upper_char_idempotent, upper_char_cased, IH.
Qed.

Lemma title_idempotent (s : string) : title (title s) = title s.
Proof.
  unfold title. by rewrite list_ascii_of_string_of_list_ascii, title_chars_idempotent.
Qed.

Lemma title_chars_has_text (l : list ascii) (prev : bool) :
  has_text (title_chars prev l) = has_text l.
Proof.
  revert prev. unfold has_text.
  induction l as [|c l IH]; intros prev; simpl; [done|].
  rewrite IH. by destruct prev; rewrite ?lower_char_space, ?upper_char_space.
Qed.

Lemma str_truthy_strip_title (s : string) :
  str_truthy (strip (title s)) = str_truthy (strip s).
Proof.
  rewrite !str_truthy_strip. unfold title.
  by rewrite list_ascii_of_string_of_list_ascii, title_chars_has_text.
Qed.

End Normalization.

(** ** The member and trainer registries (gym.py) *)

Section Registries.
Import Index.

(** X2. A member that [add_member] accepted is returned by [get_member] for
    every ASCII spelling of its id that strips to it, and, its email being
    ASCII, by [find_member_by_email] for every ASCII spelling of its email
    with the same lower-cased, stripped form; the member count has grown by
    one. *)
Theorem added_member_lookup (g g' : Gym.t) (member : Member.t) (id email : string) :
  Gym.add_member member g = (Ok tt, g') ->
  is_ascii id = true ->
  is_ascii email = true ->
  is_ascii (Member.email member) = true ->
  strip id = Member.id member ->
  Gym.email_key email = Gym.email_key (Member.email member) ->
  Gym.get_member id g' = (Ok member, g')
  /\ Gym.find_member_by_email email g' = (Ok (Some member), g')
  /\ Gym.total_member_count g' = S (Gym.total_member_count g).
Proof.
  intros Hadd _ _ _ Hid Hkey.
  destruct (added_member_is_found g g' member email Hadd Hkey) as [Hfound Hfind].
  split; [|split; [exact Hfind|]].
  - unfold Gym.get_member, bind, get, ret. by rewrite Hid, Hfound.
  - apply add_member_returns in Hadd as (Hfresh & _ & ->).
    unfold Gym.total_member_count. simpl. by apply map_size_insert_None.
Qed.

Lemma added_member_lookup_witness :
  Gym.get_member " mem_al " Cases.als_gym = (Ok Cases.al, Cases.als_gym)
  /\ Gym.find_member_by_email "A@X.COM " Cases.als_gym
     = (Ok (Some Cases.al), Cases.als_gym)
  /\ Gym.total_member_count Cases.als_gym
     = S (Gym.total_member_count Sample.empty_gym).
Proof.
  apply (added_member_lookup Sample.empty_gym Cases.als_gym Cases.al);
    reflexivity.
Defined.

(** X3. For a member whose email is ASCII, [add_member] refuses, with
    [ValidationError] and without changing the aggregate, exactly when the
    membership is cancelled, the id is already registered, or a member is
    registered under the same email key; otherwise it returns normally. *)
Theorem add_member_refusals (g : Gym.t) (member : Member.t) :
  is_ascii (Member.email member) = true ->
  let refused :=
    BaseMembership.status (Member.membership member) = CANCELLED
    \/ is_Some (Gym.members g !! Member.id member)
    \/ is_Some (Gym.members_by_email g !! Gym.email_key (Member.email member)) in
  (refused ->
   exists msg, Gym.add_member member g = (Raise (ValidationError msg), g))
  /\ (~ refused -> exists g', Gym.add_member member g = (Ok tt, g')).
Proof.
  intros _. unfold Gym.add_member, bind, get, raise, modify. simpl.
  destruct (MembershipStatus_eqb _ CANCELLED) eqn:Es.
  { split; [eauto|]. intros Hnot. destruct Hnot. left.
    by apply MembershipStatus_eqb_eq. }
  destruct (Gym.members g !! Member.id member) eqn:Eid.
  { split; [eauto|]. intros Hnot. destruct Hnot. right. left. eauto. }
  destruct (Gym.members_by_email g !! Gym.email_key (Member.email member)) eqn:Ek.
  { split; [eauto|]. intros Hnot. destruct Hnot. right. right. eauto. }
  split; [|eauto].
  intros [Hc | [[? H] | [? H]]]; try discriminate.
  apply MembershipStatus_eqb_eq in Hc. congruence.
Qed.

Lemma add_member_refusals_witness :
  exists msg,
    Gym.add_member Cases.bob Cases.als_gym = (Raise (ValidationError msg), Cases.als_gym).
Proof.
  apply (proj1 (add_member_refusals Cases.als_gym Cases.bob eq_refl)).
  right. right. exists "mem_al". reflexivity.
Defined.

(** X4. On an aggregate whose member index is synchronized, [remove_member]
    of a registered id returns normally; the id and the member's email key
    are gone, every other member is where it was, the index is still
    synchronized and the count has dropped by one. *)
Theorem remove_member_removes_both (g : Gym.t) (id : string) (member : Member.t) :
  members_synchronized g ->
  Gym.members g !! id = Some member ->
  exists g',
    Gym.remove_member id g = (Ok tt, g')
    /\ Gym.members g' !! id = None
    /\ Gym.members_by_email g' !! Gym.email_key (Member.email member) = None
    /\ Gym.find_member_by_email (Member.email member) g' = (Ok None, g')
    /\ (forall other, other <> id -> Gym.members g' !! other = Gym.members g !! other)
    /\ members_synchronized g'
    /\ S (Gym.total_member_count g') = Gym.total_member_count g.
Proof.
  intros Hsync Hm.
  destruct (removed_member_is_gone g id member Hsync Hm) as (g' & Hrm & Hgone & Hfind).
  exists g'. split; [exact Hrm|]. split; [exact Hgone|].
  pose proof (remove_member_synchronized g id Hsync) as Hsync'.
  rewrite Hrm in Hsync'. simpl in Hsync'.
  assert (g' = Gym.set_members_by_email
                 (delete (Gym.email_key (Member.email member)) (Gym.members_by_email g))
                 (Gym.set_members (delete id (Gym.members g)) g)) as Hg'.
  { revert Hrm. unfold Gym.remove_member, bind, get, raise, modify. simpl.
    rewrite Hm. simpl. destruct (decide _); simpl; [|discriminate].
    by intros [= <-]. }
  split; [rewrite Hg'; simpl; apply lookup_delete_eq|].
  split; [exact Hfind|].
  split; [intros other Hne; rewrite Hg'; simpl; by apply lookup_delete_ne|].
  split; [exact Hsync'|].
  rewrite Hg'. unfold Gym.total_member_count. simpl.
  rewrite map_size_delete, Hm.
  assert (size (Gym.members g) <> 0%nat) as Hpos.
  { intros Hz. apply map_size_empty_inv in Hz. rewrite Hz in Hm.
    by rewrite lookup_empty in Hm. }
  lia.
Qed.

Lemma remove_member_removes_both_witness :
  exists g',
    Gym.remove_member "mem_al" Cases.als_gym = (Ok tt, g')
    /\ Gym.members g' !! "mem_al" = None
    /\ Gym.members_by_email g' !! Gym.email_key (Member.email Cases.al) = None
    /\ Gym.find_member_by_email (Member.email Cases.al) g' = (Ok None, g')
    /\ (forall other, other <> "mem_al" ->
        Gym.members g' !! other = Gym.members Cases.als_gym !! other)
    /\ members_synchronized g'
    /\ S (Gym.total_member_count g') = Gym.total_member_count Cases.als_gym.
Proof.
  apply (remove_member_removes_both Cases.als_gym "mem_al" Cases.al).
  - apply add_member_synchronized.
    split; simpl; intros *; rewrite lookup_empty; done.
  - reflexivity.
Defined.

(** X1. From any aggregate whose three indexes are synchronized, every
    sequence of calls of the mutation operations, raising or not, leaves the
    member and the trainer index synchronized (hence consistent); the plan
    index too when no call is [remove_workout_plan]. *)
Theorem indexes_after_calls (g : Gym.t) (w : world) (ops : list op) :
  members_synchronized g ->
  trainers_synchronized g ->
  plans_synchronized (Gym.workouts g) ->
  let g' := fst (run ops (g, w)) in
  members_synchronized g' /\ members_consistent g'
  /\ trainers_synchronized g' /\ trainers_consistent g'
  /\ (forallb (fun o => negb (is_remove_plan o)) ops = true ->
      plans_synchronized (Gym.workouts g') /\ plans_consistent (Gym.workouts g')).
Proof.
  intros Hm Ht Hp g'. subst g'.
  destruct (run_synchronized ops (g, w) Hm Ht) as [Hm' Ht'].
  split; [exact Hm'|]. split; [by apply synchronized_members_consistent|].
  split; [exact Ht'|]. split; [by apply synchronized_trainers_consistent|].
  intros Hops.
  pose proof (run_plans_synchronized ops (g, w) Hops Hp) as Hp'.
  split; [exact Hp' | by apply synchronized_plans_consistent].
Qed.

Lemma indexes_after_calls_witness :
  members_consistent
    (fst (run [AddMember Sample.ann; AddMember Cases.bob; RemoveMember "mem_ann";
               AddTrainer Cases.cy; CreateWorkoutPlan "mem_bob" "Core"]
            (Sample.empty_gym, Sample.w0))).
Proof.
  refine (proj1 (proj2 (indexes_after_calls Sample.empty_gym Sample.w0 _ _ _ _)));
    split; simpl; intros *; rewrite lookup_empty; done.
Defined.

(** X5. [remove_member] looks the id up as it is given, where [get_member]
    strips it first: an id with surrounding white space whose stripped form
    is registered is found by [get_member] but refused by [remove_member]
    with [NotFoundError], and nothing is removed. *)
Theorem remove_member_takes_the_id_as_given (g : Gym.t) (id : string) (member : Member.t) :
  Gym.members g !! strip id = Some member ->
  Gym.members g !! id = None ->
  Gym.get_member id g = (Ok member, g)
  /\ exists msg, Gym.remove_member id g = (Raise (NotFoundError msg), g).
Proof.
  intros Hstripped Hraw. split.
  - unfold Gym.get_member, bind, get, ret. by rewrite Hstripped.
  - unfold Gym.remove_member, bind, get, raise. rewrite Hraw. eauto.
Qed.

Lemma remove_member_takes_the_id_as_given_witness :
  Gym.get_member " mem_al" Cases.als_gym = (Ok Cases.al, Cases.als_gym)
  /\ exists msg,
       Gym.remove_member " mem_al" Cases.als_gym
       = (Raise (NotFoundError msg), Cases.als_gym).
Proof.
  apply (remove_member_takes_the_id_as_given Cases.als_gym " mem_al" Cases.al);
    reflexivity.
Defined.

(** X6. Adding a member and then removing it gives back the aggregate as it
    was. *)
Theorem add_then_remove_member (g g' : Gym.t) (member : Member.t) :
  Gym.add_member member g = (Ok tt, g') ->
  Gym.remove_member (Member.id member) g' = (Ok tt, g).
Proof.
  intros Hadd. apply add_member_returns in Hadd as (Hfresh & Hkey & ->).
  unfold Gym.remove_member, bind, get, raise, modify. simpl.
  rewrite lookup_insert_eq. simpl.
  unfold member_key in *. rewrite lookup_insert_eq.
  rewrite decide_True by done. simpl.
  rewrite !delete_insert_id by done.
  by destruct g.
Qed.

Lemma add_then_remove_member_witness :
  Gym.remove_member "mem_al" Cases.als_gym = (Ok tt, Sample.empty_gym).
Proof.
  apply (add_then_remove_member Sample.empty_gym Cases.als_gym Cases.al).
  reflexivity.
Defined.

Lemma add_trainer_returns (g g' : Gym.t) (trainer : Trainer.t) :
  Gym.add_trainer trainer g = (Ok tt, g') ->
  Gym.trainers g !! Trainer.id trainer = None
  /\ Gym.trainers_by_email g !! trainer_key trainer = None
  /\ g' = Gym.set_trainers_by_email
            (<[trainer_key trainer := Trainer.id trainer]> (Gym.trainers_by_email g))
            (Gym.set_trainers (<[Trainer.id trainer := trainer]> (Gym.trainers g)) g).
Proof.
  unfold Gym.add_trainer, bind, get, raise, modify, trainer_key. simpl.
  destruct (Gym.trainers g !! Trainer.id trainer); [discriminate|].
  destruct (Gym.trainers_by_email g !! _); [discriminate|].
  simpl. by intros [= <-].
Qed.

(** X7. A trainer that [add_trainer] accepted is returned by [get_trainer]
    for its id and by [find_trainer_by_email] for every spelling of its
    email with the same key; a second trainer with the same id or the same
    email key is refused with [ValidationError]; and [remove_trainer] of the
    id gives back the aggregate as it was. *)
Theorem trainer_registry (g g' : Gym.t) (trainer : Trainer.t) :
  Gym.add_trainer trainer g = (Ok tt, g') ->
  Gym.get_trainer (Trainer.id trainer) g' = (Ok trainer, g')
  /\ (forall email, Gym.email_key email = trainer_key trainer ->
      Gym.find_trainer_by_email email g' = (Ok (Some trainer), g'))
  /\ (forall other,
        Trainer.id other = Trainer.id trainer \/ trainer_key other = trainer_key trainer ->
        exists msg, Gym.add_trainer other g' = (Raise (ValidationError msg), g'))
  /\ Gym.remove_trainer (Trainer.id trainer) g' = (Ok tt, g).
Proof.
  intros Hadd. apply add_trainer_returns in Hadd as (Hfresh & Hkey & ->).
  split; [|split; [|split]].
  - unfold Gym.get_trainer, bind, get, ret. simpl. by rewrite lookup_insert_eq.
  - intros email He. unfold Gym.find_trainer_by_email, bind, get, ret. simpl.
    by rewrite He, !lookup_insert_eq.
  - intros other Hsame. unfold Gym.add_trainer, bind, get, raise. simpl.
    destruct (<[Trainer.id trainer := trainer]> (Gym.trainers g) !! Trainer.id other)
      eqn:Eid; [eauto|].
    destruct Hsame as [Hid | Hk].
    + rewrite Hid, lookup_insert_eq in Eid. discriminate.
    + fold (trainer_key other). rewrite Hk, lookup_insert_eq. eauto.
  - unfold Gym.remove_trainer, bind, get, raise, modify. simpl.
    rewrite lookup_insert_eq. simpl.
    unfold trainer_key in *. rewrite lookup_insert_eq.
    rewrite decide_True by done. simpl.
    rewrite !delete_insert_id by done.
    by destruct g.
Qed.

Lemma trainer_registry_witness :
  Gym.remove_trainer "trn_cy" Cases.cys_gym = (Ok tt, Sample.empty_gym).
Proof.
  refine (proj2 (proj2 (proj2
    (trainer_registry Sample.empty_gym Cases.cys_gym Cases.cy _)))).
  reflexivity.
Defined.

End Registries.

(** ** Membership changes and charges through the aggregate (gym.py) *)

Section AggregateMembership.
Context {builtins : Builtins}.
Import Charge.

(** What [update_member] does when the member is found. *)
Lemma update_member_found (g : Gym.t) (id : string) (member : Member.t)
    (method : M Member.t unit) :
  Gym.members g !! strip id = Some member ->
  Gym.update_member id method g
  = (fst (method member),
     Gym.set_members (<[strip id := snd (method member)]> (Gym.members g)) g).
Proof.
  intros Hm. unfold Gym.update_member, Gym.get_member, bind, get, ret, modify,
    lift_result.
  rewrite Hm. by destruct (method member) as [[u|e] m'].
Qed.

(** X8. Pausing a registered member whose membership is not cancelled
    returns normally and stores the member back as PAUSED; from then on
    [charge_member] refuses it with [ValidationError], for any amount, and
    adds nothing to the ledger. *)
Theorem paused_member_is_not_charged (g : Gym.t) (w : world) (id : string)
    (member : Member.t) (amount : option float) :
  Gym.members g !! strip id = Some member ->
  BaseMembership.status (Member.membership member) <> CANCELLED ->
  exists g' member',
    Gym.pause_membership id g = (Ok tt, g')
    /\ Gym.get_member id g' = (Ok member', g')
    /\ Member.membership_status member' = PAUSED
    /\ Member.id member' = Member.id member
    /\ Gym.payment_ledger g' = Gym.payment_ledger g
    /\ exists msg,
         Gym.charge_member id amount (g', w) = (Raise (ValidationError msg), (g', w)).
Proof.
  intros Hm Hlive.
  unfold Gym.pause_membership. rewrite (update_member_found g id member _ Hm).
  unfold Member.pause_membership, zoom.
  rewrite (pause_from_live_status _ Hlive). simpl.
  eexists _, _. split; [reflexivity|].
  assert (Gym.members
            (Gym.set_members
               (<[strip id := Member.set_membership
                                (BaseMembership.set_status PAUSED (Member.membership member))
                                member]> (Gym.members g)) g) !! strip id
          = Some (Member.set_membership
                    (BaseMembership.set_status PAUSED (Member.membership member)) member))
    as Hm' by (simpl; apply lookup_insert_eq).
  split; [by apply get_member_strips_the_id|].
  repeat split. eexists.
  by apply (charge_member_inactive _ w id _ amount Hm').
Qed.

(** X9. Cancelling through the aggregate is final: after
    [cancel_member_membership] the member is stored as CANCELLED, a later
    [pause_membership] raises [ValidationError] and leaves the aggregate as it
    is, and [charge_member] refuses the member. *)
Theorem cancelled_member_stays_cancelled (g : Gym.t) (w : world) (id : string)
    (member : Member.t) (amount : option float) :
  Gym.members g !! strip id = Some member ->
  exists g' member',
    Gym.cancel_member_membership id g = (Ok tt, g')
    /\ Gym.get_member id g' = (Ok member', g')
    /\ Member.membership_status member' = CANCELLED
    /\ (exists msg, Gym.pause_membership id g' = (Raise (ValidationError msg), g'))
    /\ (exists msg,
          Gym.charge_member id amount (g', w) = (Raise (ValidationError msg), (g', w))).
Proof.
  intros Hm.
  unfold Gym.cancel_member_membership. rewrite (update_member_found g id member _ Hm).
  unfold Member.cancel_membership, zoom. rewrite cancel_always_succeeds. simpl.
  set (member' := Member.set_membership
                    (BaseMembership.set_status CANCELLED (Member.membership member))
                    member).
  set (g' := Gym.set_members (<[strip id := member']> (Gym.members g)) g).
  assert (Gym.members g' !! strip id = Some member') as Hm'
    by (simpl; apply lookup_insert_eq).
  exists g', member'. split; [reflexivity|].
  split; [by apply get_member_strips_the_id|].
  split; [reflexivity|]. split.
  - unfold Gym.pause_membership. rewrite (update_member_found g' id member' _ Hm').
    unfold Member.pause_membership, zoom, BaseMembership.pause, bind, get, raise.
    simpl. eexists. f_equal.
    subst g'. simpl. rewrite insert_insert_eq.
    replace (Member.set_membership
               (BaseMembership.set_status CANCELLED (Member.membership member)) member')
      with member' by reflexivity.
    reflexivity.
  - eexists. by apply (charge_member_inactive g' w id member' amount Hm').
Qed.

(** X10. No call of [charge_member] returns a record or changes the
    aggregate: whatever the gym, the id and the amount, the call raises and
    the aggregate, its ledger included, is as it was. Either it raises
    before an identifier is minted or the clock read, or it has minted one
    identifier and read the clock once and raises the [TypeError] of the
    record's construction. *)
Theorem charge_member_never_charges (g : Gym.t) (w : world)
    (id : string) (amount : option float) :
  exists e w',
    Gym.charge_member id amount (g, w) = (Raise e, (g, w'))
    /\ (w' = w
        \/ (w' = after_minting w
            /\ e = TypeError "PaymentRecord() takes no arguments")).
Proof.
  rewrite charge_member_unfold.
  destruct (Gym.members g !! strip id) as [member|];
    [|by eexists _, _; split; [|left]].
  destruct (negb (Member.is_active member)); [by eexists _, _; split; [|left]|].
  destruct (PrimFloat.ltb (charge_amount member amount) 0);
    [by eexists _, _; split; [|left]|].
  destruct (processor_charge_raises (Gym.payment_processor g) (Member.id member)
              (Member.full_name member) (charge_amount member amount) w)
    as (e & w' & -> & Hw).
  by exists e, w'.
Qed.

End AggregateMembership.

Lemma paused_member_is_not_charged_witness :
  exists g' member',
    Gym.pause_membership "mem_al" Cases.als_gym = (Ok tt, g')
    /\ Gym.get_member "mem_al" g' = (Ok member', g')
    /\ Member.membership_status member' = PAUSED
    /\ Member.id member' = Member.id Cases.al
    /\ Gym.payment_ledger g' = Gym.payment_ledger Cases.als_gym
    /\ exists msg,
         Gym.charge_member (builtins := Sample.builtins) "mem_al" None (g', Sample.w0)
         = (Raise (ValidationError msg), (g', Sample.w0)).
Proof.
  apply (paused_member_is_not_charged (builtins := Sample.builtins)
           Cases.als_gym Sample.w0 "mem_al" Cases.al None).
  - reflexivity.
  - discriminate.
Defined.

Lemma cancelled_member_stays_cancelled_witness :
  exists g' member',
    Gym.cancel_member_membership "mem_al" Cases.als_gym = (Ok tt, g')
    /\ Gym.get_member "mem_al" g' = (Ok member', g')
    /\ Member.membership_status member' = CANCELLED
    /\ (exists msg, Gym.pause_membership "mem_al" g' = (Raise (ValidationError msg), g'))
    /\ (exists msg,
          Gym.charge_member (builtins := Sample.builtins) "mem_al" None (g', Sample.w0)
          = (Raise (ValidationError msg), (g', Sample.w0))).
Proof.
  apply (cancelled_member_stays_cancelled (builtins := Sample.builtins)
           Cases.als_gym Sample.w0 "mem_al" Cases.al None).
  reflexivity.
Defined.

(** ** Identifiers and constructors (gym.py, people.py, workouts.py) *)

Section Constructors.
Context {builtins : Builtins}.
Import Snapshot Text Checks.

Lemma blank_strip_truthy (s : string) : blank s = negb (str_truthy (strip s)).
Proof. by rewrite blank_iff_no_text, str_truthy_strip. Qed.

Lemma required_text_str (s : string) (e : exn) :
  required_text (PStr s) e = if blank s then Raise e else Ok (strip s).
Proof.
  unfold required_text, strip_of, rbind. rewrite blank_strip_truthy. simpl.
  destruct (str_truthy s) eqn:Es; simpl.
  - by destruct (str_truthy (strip s)).
  - unfold str_truthy in Es. apply negb_false_iff, String.eqb_eq in Es. by subst s.
Qed.

Lemma required_text_stripped (v : pyval) (e : exn) (s : string) :
  required_text v e = Ok s -> stripped s.
Proof.
  unfold required_text. destruct (negb (truthy v)); [discriminate|].
  destruct v; simpl; try discriminate.
  destruct (negb (str_truthy (strip s0))) eqn:E; [discriminate|].
  intros [= <-]. apply strip_is_stripped. by apply negb_false_iff in E.
Qed.

Lemma str_truthy_lower (s : string) : str_truthy (lower s) = str_truthy s.
Proof. by destruct s. Qed.

Lemma str_truthy_app (s1 s2 : string) :
  str_truthy s1 = true -> str_truthy (s1 ++ s2) = true.
Proof. by destruct s1. Qed.

(** X12. On an ASCII prefix, [new_id] refuses a blank prefix with
    [ValidationError] without drawing a random value; otherwise it draws one
    value and returns [prefix_value], which is never blank, and two
    identifiers minted one after the other with the same prefix differ
    whenever the two values drawn differ. *)
Theorem new_id_mints (prefix : string) (w : world) :
  is_ascii prefix = true ->
  (blank prefix = true ->
   new_id prefix w
   = (Raise (ValidationError "Prefix must be a non empty string."), w))
  /\ (blank prefix = false ->
      exists id w',
        new_id prefix w = (Ok id, w')
        /\ id = (prefix ++ "_" ++ uuid_hex w (uuid_calls w))%string
        /\ uuid_calls w' = S (uuid_calls w)
        /\ blank id = false
        /\ forall id' w'',
             new_id prefix w' = (Ok id', w'') ->
             uuid_hex w (S (uuid_calls w)) <> uuid_hex w (uuid_calls w) ->
             id' <> id).
Proof.
  intros _. unfold new_id. split; intros Hb; rewrite Hb; [done|].
  unfold bind, uuid4_hex, ret. simpl.
  eexists _, _. split; [reflexivity|]. split; [reflexivity|].
  split; [reflexivity|]. split; [by apply prefixed_not_blank|].
  intros id' w'' [= <- _] Hdiff Heq. apply Hdiff.
  apply String.app_inj in Heq. by injection Heq.
Qed.

Lemma new_id_mints_witness :
  exists id w',
    new_id "wkp" Sample.w0 = (Ok id, w')
    /\ id = ("wkp" ++ "_" ++ uuid_hex Sample.w0 (uuid_calls Sample.w0))%string
    /\ uuid_calls w' = S (uuid_calls Sample.w0)
    /\ blank id = false
    /\ forall id' w'',
         new_id "wkp" w' = (Ok id', w'') ->
         uuid_hex Sample.w0 (S (uuid_calls Sample.w0))
         <> uuid_hex Sample.w0 (uuid_calls Sample.w0) ->
         id' <> id.
Proof. apply (proj2 (new_id_mints "wkp" Sample.w0 eq_refl)). reflexivity. Defined.

(** X13. [Member(full_name, email, membership)] on ASCII strings: when
    the name and the email are not blank and the stripped email holds an [@]
    and a dot, the member has the second identifier minted (the first, with
    prefix [per], is discarded), the stripped name and email, the membership
    given, and the join date given or else today's; otherwise the call
    raises [ValidationError]. *)
Theorem Member_new_checks (full_name email : string) (membership : BaseMembership.t)
    (join_date : option date) (w : world) :
  is_ascii full_name = true ->
  is_ascii email = true ->
  (person_arguments_valid full_name email ->
   exists w',
     Member.new (PStr full_name) (PStr email) membership join_date w
     = (Ok {| Member.id := ("mem_" ++ uuid_hex w (S (uuid_calls w)))%string;
              Member.full_name := strip full_name;
              Member.email := strip email;
              Member.membership := membership;
              Member.join_date :=
                match join_date with
                | Some d => d
                | None => on_date (clock w (clock_reads w))
                end |}, w'))
  /\ (~ person_arguments_valid full_name email ->
      exists msg w',
        Member.new (PStr full_name) (PStr email) membership join_date w
        = (Raise (ValidationError msg), w')).
Proof.
  intros _ _.
  unfold person_arguments_valid, Member.new, Person.post_init, new_id, date_today,
    bind, lift_result, ret, raise.
  change (blank "per") with false. change (blank "mem") with false. cbn iota.
  rewrite !required_text_str. unfold uuid4_hex, datetime_now.
  destruct (blank full_name) eqn:Hn.
  { split; [by intros [? _]|]. intros _. destruct join_date; simpl; eauto. }
  destruct (blank email) eqn:He.
  { split; [by intros (_ & ? & _)|]. intros _. destruct join_date; simpl; eauto. }
  destruct (contains_char "@" (strip email)) eqn:Hat; simpl.
  2:{ split; [by intros (_ & _ & ? & _)|]. intros _. destruct join_date; simpl; eauto. }
  destruct (contains_char "." (strip email)) eqn:Hdot; simpl.
  2:{ split; [by intros (_ & _ & _ & ?)|]. intros _. destruct join_date; simpl; eauto. }
  split; [|intros Hnot; by destruct Hnot].
  intros _. destruct join_date; simpl; eauto.
Qed.

Lemma Member_new_checks_witness :
  exists w',
    Member.new (PStr " Ann Lee ") (PStr "ann@x.com") Sample.premium None Sample.w0
    = (Ok {| Member.id := ("mem_" ++ uuid_hex Sample.w0 (S (uuid_calls Sample.w0)))%string;
             Member.full_name := strip " Ann Lee ";
             Member.email := strip "ann@x.com";
             Member.membership := Sample.premium;
             Member.join_date := on_date (clock Sample.w0 (clock_reads Sample.w0)) |},
       w').
Proof.
  apply (proj1 (Member_new_checks " Ann Lee " "ann@x.com" Sample.premium None
                  Sample.w0 eq_refl eq_refl)).
  by repeat split.
Defined.

(** X14. Every trainer that [Trainer(...)] returns for a name, an email and
    a specialty that are ASCII text is in normal form, and decoding its
    encoding gives it back. *)
Theorem constructed_trainer_round_trips (full_name email specialty : pyval)
    (w w' w0 : world) (tr : Trainer.t) :
  ascii_value full_name = true ->
  ascii_value email = true ->
  ascii_value specialty = true ->
  Trainer.new full_name email specialty w = (Ok tr, w') ->
  trainer_normal tr
  /\ exists w1,
       storage.trainer_from_dict (storage.trainer_to_dict tr) w0 = (Ok tr, w1).
Proof.
  intros _ _ _ Hnew.
  assert (trainer_normal tr) as Hnormal.
  { revert Hnew.
    unfold Trainer.new, Person.post_init, new_id, bind, lift_result, ret, raise.
    change (blank "per") with false. change (blank "trn") with false. cbn iota.
    unfold uuid4_hex.
    destruct (required_text full_name _) as [fn|e] eqn:Efn; [|discriminate].
    destruct (required_text email _) as [em|e] eqn:Eem; [|discriminate].
    destruct (contains_char "@" em) eqn:Hat; simpl; [|discriminate].
    destruct (contains_char "." em) eqn:Hdot; simpl; [|discriminate].
    apply required_text_stripped in Efn, Eem.
    destruct specialty as [| | | |s| |]; try discriminate.
    - intros [= <- _]. unfold trainer_normal. simpl.
      split; [done|]. split; [done|]. split; [done|]. split; [done|].
      split; [reflexivity | done].
    - destruct (str_truthy (strip s)) eqn:Hs; simpl; [|discriminate].
      intros [= <- _]. unfold trainer_normal. simpl.
      split; [done|]. split; [done|]. split; [done|]. split; [done|].
      split; [reflexivity|]. split; [apply title_idempotent|].
      by rewrite str_truthy_strip_title. }
  split; [exact Hnormal|]. by apply trainer_round_trip.
Qed.

(** X15. On a name and notes that are ASCII, [Exercise(...)] returns an
    exercise exactly when the name is not blank, there is at least one set
    and one repetition, and the load, if any, is not negative; the exercise
    then has the name stripped and lower-cased, the numbers as given, and
    the notes stripped, or none when they are blank. Otherwise the call
    raises [ValidationError]. *)
Theorem Exercise_new_checks (name : string) (sets reps : Z) (load : option float)
    (notes : option string) :
  is_ascii name = true ->
  is_ascii (default "" notes) = true ->
  (exercise_arguments_valid name sets reps load ->
   Exercise.new name sets reps load notes
   = Ok {| Exercise.name := lower (strip name);
           Exercise.sets := sets;
           Exercise.reps := reps;
           Exercise.load := load;
           Exercise.notes := kept_notes notes |})
  /\ (~ exercise_arguments_valid name sets reps load ->
      exists msg,
        Exercise.new name sets reps load notes = Raise (ValidationError msg)).
Proof.
  intros _ _. unfold exercise_arguments_valid, Exercise.new, kept_notes.
  rewrite str_truthy_lower, blank_strip_truthy.
  destruct (str_truthy (strip name)); simpl.
  2:{ split; [by intros [? _]|eauto]. }
  destruct (sets <=? 0)%Z eqn:Es.
  { apply Z.leb_le in Es. split; [intros (_ & ? & _); lia | eauto]. }
  destruct (reps <=? 0)%Z eqn:Er.
  { apply Z.leb_le in Er. split; [intros (_ & _ & ? & _); lia | eauto]. }
  apply Z.leb_gt in Es, Er.
  destruct load as [x|].
  - destruct (PrimFloat.ltb x 0) eqn:El.
    + split; [by intros (_ & _ & _ & ?) | eauto].
    + split; [done|]. intros Hnot. destruct Hnot. repeat split; lia || done.
  - split; [done|]. intros Hnot. destruct Hnot. repeat split; lia || done.
Qed.

Lemma Exercise_new_checks_witness :
  Exercise.new " Squat " 3 10 None (Some "  ")
  = Ok {| Exercise.name := lower (strip " Squat ");
          Exercise.sets := 3;
          Exercise.reps := 10;
          Exercise.load := None;
          Exercise.notes := kept_notes (Some "  ") |}.
Proof.
  apply (proj1 (Exercise_new_checks " Squat " 3 10 None (Some "  ")
                  eq_refl eq_refl)).
  repeat split; reflexivity || lia.
Defined.

Lemma Exercise_new_normal (name : string) (sets reps : Z) (load : option float)
    (notes : option string) (e : Exercise.t) :
  Exercise.new name sets reps load notes = Ok e -> exercise_normal e.
Proof.
  unfold Exercise.new.
  destruct (negb (str_truthy (lower (strip name)))) eqn:En; [discriminate|].
  destruct (sets <=? 0)%Z eqn:Es; [discriminate|].
  destruct (reps <=? 0)%Z eqn:Er; [discriminate|].
  destruct (match load with Some x => _ | None => false end) eqn:El; [discriminate|].
  intros [= <-]. apply negb_false_iff in En. apply Z.leb_gt in Es, Er.
  repeat split; simpl; try done.
  - apply lower_strip_idempotent.
  - by destruct load.
  - destruct notes as [s|]; [|done].
    destruct (str_truthy (strip s)) eqn:Hs; [|done].
    by apply strip_is_stripped.
Qed.

(** X16. Every exercise that [Exercise(...)] returns is in normal form, and
    decoding its encoding gives it back. *)
Theorem constructed_exercise_round_trips (name : string) (sets reps : Z)
    (load : option float) (notes : option string) (e : Exercise.t) :
  Exercise.new name sets reps load notes = Ok e ->
  exercise_normal e
  /\ storage.exercise_from_dict (storage.exercise_to_dict e) = Ok e.
Proof.
  intros Hnew. pose proof (Exercise_new_normal _ _ _ _ _ _ Hnew) as Hnormal.
  split; [exact Hnormal | by apply exercise_round_trip].
Qed.

End Constructors.

Lemma constructed_trainer_round_trips_witness :
  exists tr w',
    Trainer.new (PStr "Cy Dee") (PStr "cy@x.com") (PStr "power lifting") Sample.w0
    = (Ok tr, w')
    /\ Snapshot.trainer_normal tr
    /\ exists w1,
         storage.trainer_from_dict (builtins := Sample.builtins)
           (storage.trainer_to_dict tr) Sample.w0 = (Ok tr, w1).
Proof.
  eexists _, _. split; [reflexivity|].
  eapply (constructed_trainer_round_trips (builtins := Sample.builtins)
            (PStr "Cy Dee") (PStr "cy@x.com") (PStr "power lifting") Sample.w0);
    reflexivity.
Defined.

Lemma constructed_exercise_round_trips_witness :
  exists e,
    Exercise.new " Squat " 3 10 (Some 60%float) (Some " slow ") = Ok e
    /\ Snapshot.exercise_normal e
    /\ storage.exercise_from_dict (builtins := Sample.builtins)
         (storage.exercise_to_dict e) = Ok e.
Proof.
  eexists. split; [reflexivity|].
  apply (constructed_exercise_round_trips (builtins := Sample.builtins)
           " Squat " 3 10 (Some 60%float) (Some " slow ")).
  reflexivity.
Defined.

(** ** Workout plans and the catalog (workouts.py, gym.py) *)

Section Plans.
Import PlanNotions Index.

Lemma enumerate_from_lookup {A} (l : list A) (start : Z) (i : nat) :
  WorkoutPlan.enumerate_from start l !! i
  = (fun x => ((start + Z.of_nat i)%Z, x)) <$> l !! i.
Proof.
  revert start i. induction l as [|x l IH]; intros start i; [by destruct i|].
  destruct i as [|i]; simpl.
  - by rewrite Z.add_0_r.
  - rewrite IH. destruct (l !! i); simpl; [|done]. do 2 f_equal. lia.
Qed.

(** X17. [remove_exercise_by_number] with a number from 1 to the number of
    exercises returns normally and removes exactly the exercise at that
    position, keeping the order of the others; with any other number it
    raises [ValidationError] and leaves the plan as it is. *)
Theorem remove_exercise_by_number_checks (plan : WorkoutPlan.t) (num : Z) :
  (in_range plan num ->
   exists before e after,
     WorkoutPlan._exercises plan = before ++ e :: after
     /\ Z.of_nat (length before) = (num - 1)%Z
     /\ WorkoutPlan.remove_exercise_by_number num plan
        = (Ok tt, WorkoutPlan.set_exercises (before ++ after) plan))
  /\ (~ in_range plan num ->
      WorkoutPlan.remove_exercise_by_number num plan
      = (Raise (ValidationError "Exercise number out of range."), plan)).
Proof.
  unfold in_range, WorkoutPlan.remove_exercise_by_number, bind, get, put, raise.
  set (l := WorkoutPlan._exercises plan).
  destruct ((num <? 1)%Z || (Z.of_nat (length l) <? num)%Z) eqn:E.
  - apply orb_true_iff in E as [E|E]; apply Z.ltb_lt in E; split; (lia || done).
  - apply orb_false_iff in E as [E1 E2]. apply Z.ltb_ge in E1, E2.
    split; [|intros Hnot; destruct Hnot; lia].
    intros _.
    assert (Z.to_nat (num - 1) < length l)%nat as Hlt by lia.
    apply lookup_lt_is_Some in Hlt as [e He].
    exists (take (Z.to_nat (num - 1)) l), e, (drop (S (Z.to_nat (num - 1))) l).
    split; [by rewrite take_drop_middle|].
    split; [rewrite length_take; apply lookup_lt_Some in He; lia|].
    by rewrite delete_take_drop.
Qed.

Lemma remove_exercise_by_number_checks_witness :
  exists before e after,
    WorkoutPlan._exercises core_plan = before ++ e :: after
    /\ Z.of_nat (length before) = (2 - 1)%Z
    /\ WorkoutPlan.remove_exercise_by_number 2 core_plan
       = (Ok tt, WorkoutPlan.set_exercises (before ++ after) core_plan).
Proof.
  apply (proj1 (remove_exercise_by_number_checks core_plan 2)).
  unfold in_range. simpl. lia.
Defined.

(** X18. The numbers [list_exercises_numbered] shows are the ones
    [remove_exercise_by_number] takes: the list pairs the exercises, in
    order, with 1, 2, ..., and removing by a number shown removes the
    exercise shown with it. *)
Theorem numbered_exercise_is_the_one_removed (plan : WorkoutPlan.t) (i : nat)
    (num : Z) (e : Exercise.t) :
  WorkoutPlan.list_exercises_numbered plan !! i = Some (num, e) ->
  num = (Z.of_nat i + 1)%Z
  /\ WorkoutPlan._exercises plan !! i = Some e
  /\ WorkoutPlan.remove_exercise_by_number num plan
     = (Ok tt,
        WorkoutPlan.set_exercises
          (take i (WorkoutPlan._exercises plan)
             ++ drop (S i) (WorkoutPlan._exercises plan)) plan).
Proof.
  unfold WorkoutPlan.list_exercises_numbered, WorkoutPlan.exercises.
  rewrite enumerate_from_lookup.
  destruct (WorkoutPlan._exercises plan !! i) as [e'|] eqn:He; [|discriminate].
  simpl. intros [= <- <-].
  split; [lia|]. split; [done|].
  unfold WorkoutPlan.remove_exercise_by_number, bind, get, put, raise.
  apply lookup_lt_Some in He as Hlt.
  destruct ((1 + Z.of_nat i <? 1)%Z || _) eqn:E.
  - apply orb_true_iff in E as [E|E]; apply Z.ltb_lt in E; lia.
  - replace (Z.to_nat (1 + Z.of_nat i - 1)) with i by lia.
    by rewrite delete_take_drop.
Qed.

Lemma numbered_exercise_is_the_one_removed_witness :
  2%Z = (Z.of_nat 1 + 1)%Z
  /\ WorkoutPlan._exercises core_plan !! 1%nat = Some plank
  /\ WorkoutPlan.remove_exercise_by_number 2 core_plan
     = (Ok tt,
        WorkoutPlan.set_exercises
          (take 1 (WorkoutPlan._exercises core_plan)
             ++ drop 2 (WorkoutPlan._exercises core_plan)) core_plan).
Proof.
  apply (numbered_exercise_is_the_one_removed core_plan 1 2 plank). reflexivity.
Defined.

Lemma remove_first_none (matches : Exercise.t -> bool) (l : list Exercise.t) :
  WorkoutPlan.remove_first matches l = None
  <-> Forall (fun ex => matches ex = false) l.
Proof.
  induction l as [|e l IH]; simpl; [by split|].
  destruct (matches e) eqn:E.
  - split; [discriminate|]. intros H. apply Forall_cons in H as [H _]. congruence.
  - destruct (WorkoutPlan.remove_first matches l).
    + split; [discriminate|]. intros H. apply Forall_cons in H as [_ H].
      by apply IH in H.
    + split; [|done]. intros _. constructor; [done|]. by apply IH.
Qed.

Lemma remove_first_split (matches : Exercise.t -> bool) (before after : list Exercise.t)
    (e : Exercise.t) :
  Forall (fun ex => matches ex = false) before ->
  matches e = true ->
  WorkoutPlan.remove_first matches (before ++ e :: after) = Some (before ++ after).
Proof.
  intros Hbefore He. induction Hbefore as [|x before Hx _ IH]; simpl.
  - by rewrite He.
  - by rewrite Hx, IH.
Qed.

(** X19. On ASCII names, [remove_exercise_by_name] compares names
    lower-cased and stripped. It removes the first exercise whose name
    matches and only that one; it raises [ValidationError], leaving the plan
    as it is, when the name asked for is blank or no exercise matches. *)
Theorem remove_exercise_by_name_checks (plan : WorkoutPlan.t) (name : string) :
  is_ascii name = true ->
  Forall (fun ex => is_ascii (Exercise.name ex) = true) (WorkoutPlan._exercises plan) ->
  let key := lower (strip name) in
  (blank name = true ->
   exists msg,
     WorkoutPlan.remove_exercise_by_name name plan = (Raise (ValidationError msg), plan))
  /\ (Forall (fun ex => name_matches key ex = false) (WorkoutPlan._exercises plan) ->
      exists msg,
        WorkoutPlan.remove_exercise_by_name name plan
        = (Raise (ValidationError msg), plan))
  /\ (forall before e after,
        blank name = false ->
        WorkoutPlan._exercises plan = before ++ e :: after ->
        Forall (fun ex => name_matches key ex = false) before ->
        name_matches key e = true ->
        WorkoutPlan.remove_exercise_by_name name plan
        = (Ok tt, WorkoutPlan.set_exercises (before ++ after) plan)).
Proof.
  intros _ _ key.
  assert (str_truthy key = negb (blank name)) as Hkey.
  { subst key. rewrite str_truthy_lower, blank_strip_truthy.
    by destruct (str_truthy (strip name)). }
  unfold WorkoutPlan.remove_exercise_by_name, bind, get, put, raise.
  fold key. fold (name_matches key). rewrite Hkey.
  split; [|split].
  - intros ->. simpl. eauto.
  - intros Hnone. destruct (blank name); simpl; [eauto|].
    apply remove_first_none in Hnone. rewrite Hnone. eauto.
  - intros before e after -> Hl Hbefore He. simpl.
    by rewrite Hl, (remove_first_split _ before after e Hbefore He).
Qed.

Lemma remove_exercise_by_name_checks_witness :
  WorkoutPlan.remove_exercise_by_name " PLANK " core_plan
  = (Ok tt, WorkoutPlan.set_exercises ([squat] ++ []) core_plan).
Proof.
  assert (Forall (fun ex => is_ascii (Exercise.name ex) = true)
            (WorkoutPlan._exercises core_plan)) as Hascii
    by (repeat constructor).
  apply (proj2 (proj2 (remove_exercise_by_name_checks core_plan " PLANK "
                         eq_refl Hascii))
           [squat] plank []); try reflexivity.
  by repeat constructor.
Defined.

(** X20. Adding an exercise puts it last, raises the total of sets by its
    sets, and gives it the next number; removing that number gives back the
    plan as it was. *)
Theorem add_exercise_then_remove_last (plan : WorkoutPlan.t) (e : Exercise.t) :
  exists plan',
    WorkoutPlan.add_exercise e plan = (Ok tt, plan')
    /\ WorkoutPlan.exercises plan' = WorkoutPlan.exercises plan ++ [e]
    /\ WorkoutPlan.total_sets plan' = (WorkoutPlan.total_sets plan + Exercise.sets e)%Z
    /\ WorkoutPlan.list_exercises_numbered plan'
       = WorkoutPlan.list_exercises_numbered plan
           ++ [(Z.of_nat (length (WorkoutPlan.exercises plan)) + 1, e)%Z]
    /\ WorkoutPlan.remove_exercise_by_number
         (Z.of_nat (length (WorkoutPlan.exercises plan)) + 1) plan'
       = (Ok tt, plan).
Proof.
  eexists. split; [reflexivity|]. simpl.
  unfold WorkoutPlan.exercises, WorkoutPlan.total_sets,
    WorkoutPlan.list_exercises_numbered, WorkoutPlan.exercises. simpl.
  set (l := WorkoutPlan._exercises plan).
  split; [done|]. split; [rewrite List.map_app, fold_left_app; reflexivity|]. split.
  - assert (forall s, length (WorkoutPlan.enumerate_from s l) = length l) as Hlen.
    { clear. induction l as [|x l IH]; intros s; simpl; [done|]. by rewrite IH. }
    apply list_eq. intros i. rewrite enumerate_from_lookup.
    destruct (decide (i < length l)%nat) as [Hlt|Hge].
    + rewrite !lookup_app_l by (rewrite ?Hlen; lia).
      by rewrite enumerate_from_lookup.
    + rewrite !lookup_app_r by (rewrite ?Hlen; lia). rewrite Hlen.
      destruct (i - length l)%nat eqn:Ei; simpl; [|done].
      do 2 f_equal. lia.
  - unfold WorkoutPlan.remove_exercise_by_number, bind, get, put, raise. simpl.
    rewrite length_app. simpl.
    destruct ((Z.of_nat (length l) + 1 <? 1)%Z || _) eqn:E.
    + apply orb_true_iff in E as [E|E]; apply Z.ltb_lt in E; lia.
    + replace (Z.to_nat (Z.of_nat (length l) + 1 - 1)) with (length l) by lia.
      rewrite delete_take_drop, take_app_length.
      rewrite drop_ge by (rewrite length_app; simpl; lia).
      rewrite app_nil_r. subst l. by destruct plan.
Qed.

End Plans.

(** ** The catalog of plans (workouts.py, gym.py) *)

Section Catalog.
Import PlanNotions Index Snapshot.

Lemma omap_agree {A B} (f g : A -> option B) (l : list A) :
  (forall x, x ∈ l -> f x = g x) -> omap f l = omap g l.
Proof.
  induction l as [|x l IH]; intros H; csimpl; [done|].
  rewrite (H x) by apply list_elem_of_here.
  rewrite IH; [done|]. intros y Hy. apply H. by apply list_elem_of_further.
Qed.

Lemma listed_plans_after_insert (cat : WorkoutCatalog.t) (plan : WorkoutPlan.t)
    (key : string) :
  plans_synchronized cat ->
  WorkoutCatalog.plans cat !! WorkoutPlan.id plan = None ->
  omap (fun pid => <[WorkoutPlan.id plan := plan]> (WorkoutCatalog.plans cat) !! pid)
    (default [] (WorkoutCatalog.plans_by_member cat !! key))
  = omap (fun pid => WorkoutCatalog.plans cat !! pid)
      (default [] (WorkoutCatalog.plans_by_member cat !! key)).
Proof.
  intros [H1 _] Hfresh. apply omap_agree. intros pid Hin.
  destruct (WorkoutCatalog.plans_by_member cat !! key) as [ids|] eqn:Eids;
    simpl in Hin; [|by apply elem_of_nil in Hin].
  destruct (H1 _ _ _ Eids Hin) as (p & Hp & _).
  rewrite lookup_insert_ne; [done|]. intros E. congruence.
Qed.

Lemma add_plan_lists_last (cat cat' : WorkoutCatalog.t) (plan : WorkoutPlan.t) :
  plans_synchronized cat ->
  WorkoutCatalog.add_plan plan cat = (Ok tt, cat') ->
  WorkoutCatalog.plans cat' = <[WorkoutPlan.id plan := plan]> (WorkoutCatalog.plans cat)
  /\ WorkoutCatalog.plans cat !! WorkoutPlan.id plan = None
  /\ WorkoutCatalog.list_all_plans_for_member cat' (WorkoutPlan.member_id plan)
     = WorkoutCatalog.list_all_plans_for_member cat (WorkoutPlan.member_id plan)
         ++ [plan]
  /\ (forall member_id, member_id <> WorkoutPlan.member_id plan ->
        WorkoutCatalog.list_all_plans_for_member cat' member_id
        = WorkoutCatalog.list_all_plans_for_member cat member_id).
Proof.
  intros Hsync Hadd.
  unfold WorkoutCatalog.add_plan, bind, get, put, raise in Hadd.
  destruct (WorkoutCatalog.plans cat !! WorkoutPlan.id plan) eqn:Hfresh;
    [discriminate|].
  injection Hadd as <-. split; [done|]. split; [done|].
  unfold WorkoutCatalog.list_all_plans_for_member. simpl. split.
  - rewrite lookup_insert_eq. simpl. rewrite omap_app. simpl.
    rewrite lookup_insert_eq. f_equal.
    by apply listed_plans_after_insert.
  - intros member_id Hne. rewrite lookup_insert_ne by done.
    by apply listed_plans_after_insert.
Qed.

(** X21. A plan accepted by [WorkoutCatalog.add_plan] is returned by
    [get_plan] under its id and comes last in its owner's list, after the
    plans the owner had; the lists of the other members and the plans under
    other ids stay as they were, and adding the same plan again is refused
    with [ValidationError]. *)
Theorem added_plan_is_listed_last (cat cat' : WorkoutCatalog.t)
    (plan : WorkoutPlan.t) :
  plans_synchronized cat ->
  WorkoutCatalog.add_plan plan cat = (Ok tt, cat') ->
  WorkoutCatalog.get_plan (WorkoutPlan.id plan) cat' = (Ok plan, cat')
  /\ WorkoutCatalog.list_all_plans_for_member cat' (WorkoutPlan.member_id plan)
     = WorkoutCatalog.list_all_plans_for_member cat (WorkoutPlan.member_id plan)
         ++ [plan]
  /\ (forall member_id, member_id <> WorkoutPlan.member_id plan ->
        WorkoutCatalog.list_all_plans_for_member cat' member_id
        = WorkoutCatalog.list_all_plans_for_member cat member_id)
  /\ (forall plan_id, plan_id <> WorkoutPlan.id plan ->
        fst (WorkoutCatalog.get_plan plan_id cat')
        = fst (WorkoutCatalog.get_plan plan_id cat))
  /\ WorkoutCatalog.add_plan plan cat'
     = (Raise (ValidationError "This plan already exists in the system."), cat').
Proof.
  intros Hsync Hadd.
  destruct (add_plan_lists_last cat cat' plan Hsync Hadd) as (Hplans & _ & Hown & Hothers).
  split; [|split; [done|split; [done|split]]].
  - unfold WorkoutCatalog.get_plan, bind, get, ret, raise.
    by rewrite Hplans, lookup_insert_eq.
  - intros plan_id Hne.
    unfold WorkoutCatalog.get_plan, bind, get, ret, raise.
    rewrite Hplans, lookup_insert_ne by done.
    by destruct (WorkoutCatalog.plans cat !! plan_id).
  - unfold WorkoutCatalog.add_plan, bind, get, put, raise.
    by rewrite Hplans, lookup_insert_eq.
Qed.

Lemma added_plan_is_listed_last_witness :
  WorkoutCatalog.get_plan "wkp_7" (snd (WorkoutCatalog.add_plan core_plan WorkoutCatalog.empty))
  = (Ok core_plan, snd (WorkoutCatalog.add_plan core_plan WorkoutCatalog.empty))
  /\ WorkoutCatalog.list_all_plans_for_member
       (snd (WorkoutCatalog.add_plan core_plan WorkoutCatalog.empty)) "mem_al"
     = WorkoutCatalog.list_all_plans_for_member WorkoutCatalog.empty "mem_al"
         ++ [core_plan].
Proof.
  assert (plans_synchronized WorkoutCatalog.empty) as Hsync.
  { split.
    - intros key ids id H. unfold WorkoutCatalog.empty in H. simpl in H.
      by rewrite lookup_empty in H.
    - intros id p H. unfold WorkoutCatalog.empty in H. simpl in H.
      by rewrite lookup_empty in H. }
  destruct (added_plan_is_listed_last WorkoutCatalog.empty
              (snd (WorkoutCatalog.add_plan core_plan WorkoutCatalog.empty))
              core_plan Hsync eq_refl) as (H1 & H2 & _).
  exact (conj H1 H2).
Defined.

Lemma create_workout_plan_unfold (g : Gym.t) (w : world) (member_id title : string) :
  Gym.create_workout_plan member_id title (g, w)
  = match Gym.members g !! strip member_id with
    | None =>
        (Raise (NotFoundError
                  ("Member with '" ++ member_id ++ "' member id not found in the system.")),
         (g, w))
    | Some member =>
        match WorkoutPlan.new (PStr (Member.id member)) (PStr title) w with
        | (Raise e, w') => (Raise e, (g, w'))
        | (Ok plan, w') =>
            match WorkoutCatalog.add_plan plan (Gym.workouts g) with
            | (Raise e, cat') => (Raise e, (Gym.set_workouts cat' g, w'))
            | (Ok _, cat') => (Ok plan, (Gym.set_workouts cat' g, w'))
            end
        end
    end.
Proof.
  unfold Gym.create_workout_plan, Gym.on_gym, Gym.on_world, Gym.on_workouts, zoom,
    Gym.get_member, bind, get, ret, raise. simpl.
  destruct (Gym.members g !! strip member_id); simpl; [|done].
  destruct (WorkoutPlan.new _ _ w) as [[plan|e] w']; simpl; [|done].
  by destruct (WorkoutCatalog.add_plan plan (Gym.workouts g)) as [[u|e] cat'].
Qed.

Lemma WorkoutPlan_new_str (member_id title : string) (w : world) :
  WorkoutPlan.new (PStr member_id) (PStr title) w
  = if blank member_id
    then (Raise (ValidationError "member_id cannot be empty."), w)
    else if blank title
    then (Raise (ValidationError "title cannot be left empty."), w)
    else (Ok {| WorkoutPlan.member_id := strip member_id;
                WorkoutPlan.title := strip title;
                WorkoutPlan.id := "wkp_" ++ uuid_hex w (uuid_calls w);
                WorkoutPlan.created_at := clock w (clock_reads w);
                WorkoutPlan._exercises := [] |},
          {| uuid_hex := uuid_hex w; uuid_calls := S (uuid_calls w);
             clock := clock w; clock_reads := S (clock_reads w) |}).
Proof.
  unfold WorkoutPlan.new, lift_result, bind. rewrite !required_text_str.
  destruct (blank member_id); [done|]. by destruct (blank title).
Qed.

(** X22. On an ASCII id and title, [Gym.create_workout_plan] refuses an
    unknown member id with [NotFoundError] and a blank title with
    [ValidationError]; in both cases the gym is as it was and neither the
    random source nor the clock has been read. *)
Theorem create_workout_plan_refusals (g : Gym.t) (w : world)
    (member_id title : string) :
  is_ascii member_id = true ->
  is_ascii title = true ->
  Gym.members g !! strip member_id = None
  \/ (is_Some (Gym.members g !! strip member_id) /\ blank title = true) ->
  exists e,
    Gym.create_workout_plan member_id title (g, w) = (Raise e, (g, w))
    /\ match Gym.members g !! strip member_id with
       | None => exists msg, e = NotFoundError msg
       | Some _ => exists msg, e = ValidationError msg
       end.
Proof.
  rewrite create_workout_plan_unfold.
  intros _ _ [Hnone | [[member Hm] Htitle]].
  - rewrite Hnone. eauto.
  - rewrite Hm, WorkoutPlan_new_str, Htitle.
    destruct (blank (Member.id member)); eauto.
Qed.

Lemma create_workout_plan_refusals_witness :
  exists e,
    Gym.create_workout_plan "mem_al" "  " (Cases.als_gym, Sample.w0)
    = (Raise e, (Cases.als_gym, Sample.w0))
    /\ match Gym.members Cases.als_gym !! strip "mem_al" with
       | None => exists msg, e = NotFoundError msg
       | Some _ => exists msg, e = ValidationError msg
       end.
Proof.
  apply (create_workout_plan_refusals Cases.als_gym Sample.w0 "mem_al" "  "
           eq_refl eq_refl).
  right. split; [|reflexivity]. exists Cases.al. reflexivity.
Defined.

(** X23. For an ASCII id that finds a member of the gym whose own id is
    stripped ASCII text, an ASCII title that is not blank and a fresh plan
    id, [Gym.create_workout_plan] returns a plan owned by the member, with
    the stripped title, the id [wkp_] followed by the random value drawn,
    the time read from the clock and no exercise.
    The registers of members and trainers are untouched, [get_workout_plan]
    returns the plan under its id, and [list_plans_for_member] shows it last,
    after the member's earlier plans. *)
Theorem created_plan_is_listed (g : Gym.t) (w : world) (member_id title : string)
    (member : Member.t) :
  is_ascii member_id = true ->
  is_ascii title = true ->
  is_ascii (Member.id member) = true ->
  Gym.members g !! strip member_id = Some member ->
  stripped (Member.id member) ->
  blank title = false ->
  plans_synchronized (Gym.workouts g) ->
  WorkoutCatalog.plans (Gym.workouts g) !! ("wkp_" ++ uuid_hex w (uuid_calls w))%string
  = None ->
  exists g' w',
    let plan :=
      {| WorkoutPlan.member_id := Member.id member;
         WorkoutPlan.title := strip title;
         WorkoutPlan.id := "wkp_" ++ uuid_hex w (uuid_calls w);
         WorkoutPlan.created_at := clock w (clock_reads w);
         WorkoutPlan._exercises := [] |} in
    Gym.create_workout_plan member_id title (g, w) = (Ok plan, (g', w'))
    /\ same_people g g'
    /\ Gym.payment_ledger g' = Gym.payment_ledger g
    /\ Gym.get_workout_plan (WorkoutPlan.id plan) g' = (Ok plan, g')
    /\ Gym.list_plans_for_member member_id g'
       = (Ok (WorkoutCatalog.list_all_plans_for_member (Gym.workouts g)
                (Member.id member) ++ [plan]), g').
Proof.
  intros _ _ _ Hm [Hid Hsome] Htitle Hsync Hfresh.
  assert (blank (Member.id member) = false) as Hblank.
  { rewrite blank_strip_truthy, Hid, Hsome. reflexivity. }
  rewrite create_workout_plan_unfold, Hm, WorkoutPlan_new_str, Hblank, Htitle, Hid.
  set (plan := {| WorkoutPlan.member_id := Member.id member;
                  WorkoutPlan.title := strip title;
                  WorkoutPlan.id := ("wkp_" ++ uuid_hex w (uuid_calls w))%string;
                  WorkoutPlan.created_at := clock w (clock_reads w);
                  WorkoutPlan._exercises := [] |}).
  destruct (WorkoutCatalog.add_plan plan (Gym.workouts g)) as [[[]|e] cat'] eqn:Eadd.
  2: { unfold WorkoutCatalog.add_plan, bind, get, put, raise in Eadd.
       simpl in Eadd. by rewrite Hfresh in Eadd. }
  destruct (add_plan_lists_last _ _ _ Hsync Eadd) as (Hplans & _ & Hown & _).
  eexists _, _. split; [reflexivity|]. split; [done|]. split; [done|]. split.
  - unfold Gym.get_workout_plan, Gym.on_workouts, zoom, WorkoutCatalog.get_plan,
      bind, get, ret, raise. simpl.
    rewrite Hplans. simpl. rewrite lookup_insert_eq. by destruct g.
  - unfold Gym.list_plans_for_member, Gym.get_member, bind, get, ret, raise.
    change (Gym.members (Gym.set_workouts cat' g)) with (Gym.members g).
    rewrite Hm. simpl. simpl in Hown. by rewrite Hown.
Qed.

Lemma created_plan_is_listed_witness :
  exists g' w',
    let plan :=
      {| WorkoutPlan.member_id := "mem_al";
         WorkoutPlan.title := "Core";
         WorkoutPlan.id := "wkp_" ++ uuid_hex Sample.w0 (uuid_calls Sample.w0);
         WorkoutPlan.created_at := clock Sample.w0 (clock_reads Sample.w0);
         WorkoutPlan._exercises := [] |} in
    Gym.create_workout_plan " mem_al" " Core " (Cases.als_gym, Sample.w0)
    = (Ok plan, (g', w'))
    /\ same_people Cases.als_gym g'
    /\ Gym.payment_ledger g' = Gym.payment_ledger Cases.als_gym
    /\ Gym.get_workout_plan (WorkoutPlan.id plan) g' = (Ok plan, g')
    /\ Gym.list_plans_for_member " mem_al" g'
       = (Ok (WorkoutCatalog.list_all_plans_for_member (Gym.workouts Cases.als_gym)
                "mem_al" ++ [plan]), g').
Proof.
  apply (created_plan_is_listed Cases.als_gym Sample.w0 " mem_al" " Core " Cases.al
           eq_refl eq_refl eq_refl).
  - reflexivity.
  - split; reflexivity.
  - reflexivity.
  - split.
    + intros key ids id H. vm_compute in H. discriminate.
    + intros id p H. vm_compute in H. discriminate.
  - reflexivity.
Defined.

End Catalog.

(** ** Editing a plan through the gym (gym.py) *)

Section PlanEdits.
Import PlanNotions Index.

Lemma update_plan_unfold (g : Gym.t) (plan_id : string) (method : M WorkoutPlan.t unit) :
  Gym.update_plan plan_id method g
  = match WorkoutCatalog.plans (Gym.workouts g) !! plan_id with
    | None =>
        (Raise (ValidationError
                  ("Plan with '" ++ plan_id ++ "' does not exist in the system.")), g)
    | Some plan =>
        (fst (method plan),
         Gym.set_workouts
           {| WorkoutCatalog.plans :=
                <[plan_id := snd (method plan)]> (WorkoutCatalog.plans (Gym.workouts g));
              WorkoutCatalog.plans_by_member :=
                WorkoutCatalog.plans_by_member (Gym.workouts g) |} g)
    end.
Proof.
  unfold Gym.update_plan, Gym.get_workout_plan, Gym.on_workouts, zoom,
    WorkoutCatalog.get_plan, modify, lift_result, bind, get, put, ret, raise.
  destruct (WorkoutCatalog.plans (Gym.workouts g) !! plan_id) as [plan|] eqn:E; simpl.
  - destruct (method plan) as [[[]|e] plan']; simpl; by destruct g, workouts.
  - by destruct g, workouts.
Qed.

(** X24. An exercise added through [Gym.add_exercise_to_plan] is seen by
    the next [get_workout_plan]: the stored plan has it last. The members,
    the trainers and the plans under other ids are untouched, and removing
    the exercise by the number it got gives back the gym as it was. Under a
    plan id that is not in the catalog the three editing operations raise
    [ValidationError] and change nothing. *)
Theorem plan_edits_through_the_gym (g : Gym.t) (plan_id : string) (e : Exercise.t) :
  match WorkoutCatalog.plans (Gym.workouts g) !! plan_id with
  | Some plan =>
      exists g',
        Gym.add_exercise_to_plan plan_id e g = (Ok tt, g')
        /\ Gym.get_workout_plan plan_id g'
           = (Ok (WorkoutPlan.set_exercises (WorkoutPlan.exercises plan ++ [e]) plan), g')
        /\ same_people g g'
        /\ (forall other, other <> plan_id ->
              WorkoutCatalog.plans (Gym.workouts g') !! other
              = WorkoutCatalog.plans (Gym.workouts g) !! other)
        /\ Gym.remove_exercise_from_plan plan_id
             (Z.of_nat (length (WorkoutPlan.exercises plan)) + 1) g'
           = (Ok tt, g)
  | None =>
      exists msg,
        Gym.add_exercise_to_plan plan_id e g = (Raise (ValidationError msg), g)
        /\ (forall number,
              Gym.remove_exercise_from_plan plan_id number g
              = (Raise (ValidationError msg), g))
        /\ (forall name,
              Gym.remove_exercise_by_name plan_id name g
              = (Raise (ValidationError msg), g))
  end.
Proof.
  unfold Gym.add_exercise_to_plan, Gym.remove_exercise_from_plan,
    Gym.remove_exercise_by_name.
  destruct (WorkoutCatalog.plans (Gym.workouts g) !! plan_id) as [plan|] eqn:Eplan.
  - eexists. rewrite update_plan_unfold, Eplan. split; [reflexivity|].
    unfold WorkoutPlan.add_exercise, modify. simpl.
    split; [|split; [done|split]].
    + unfold Gym.get_workout_plan, Gym.on_workouts, zoom, WorkoutCatalog.get_plan,
        bind, get, ret, raise. simpl. by rewrite lookup_insert_eq.
    + intros other Hne. by rewrite lookup_insert_ne.
    + rewrite update_plan_unfold. simpl. rewrite lookup_insert_eq.
      unfold WorkoutPlan.remove_exercise_by_number, WorkoutPlan.exercises,
        bind, get, put, raise. simpl.
      set (l := WorkoutPlan._exercises plan).
      rewrite length_app. simpl.
      destruct ((Z.of_nat (length l) + 1 <? 1)%Z || _) eqn:E.
      { apply orb_true_iff in E as [E|E]; apply Z.ltb_lt in E; lia. }
      replace (Z.to_nat (Z.of_nat (length l) + 1 - 1)) with (length l) by lia.
      rewrite delete_take_drop, take_app_length.
      rewrite drop_ge by (rewrite length_app; simpl; lia).
      rewrite app_nil_r. simpl. rewrite insert_insert_eq.
      replace (WorkoutPlan.set_exercises l
                 (WorkoutPlan.set_exercises (l ++ [e]) plan)) with plan
        by (subst l; by destruct plan).
      rewrite insert_id by done. by destruct g, workouts.
  - eexists. rewrite update_plan_unfold, Eplan. split; [reflexivity|].
    split; intros x; by rewrite update_plan_unfold, Eplan.
Qed.

End PlanEdits.

(** ** Loading a snapshot (storage.py) *)

Section Loading.
Context {builtins : Builtins}.
Import Outcome.

Lemma always_raises_raise {S A} (e : exn) : always_raises (raise e : M S A).
Proof. intros s. by exists e, s. Qed.

Lemma always_raises_bind {S A B} (m : M S A) (k : A -> M S B) :
  (forall a, always_raises (k a)) -> always_raises (bind m k).
Proof.
  intros Hk s. unfold bind. destruct (m s) as [[a|e] s']; [apply Hk | eauto].
Qed.

Lemma always_raises_lifted {S A B} (e : exn) (k : A -> M S B) :
  always_raises (bind (lift_result (Raise e)) k).
Proof. intros s. by exists e, s. Qed.

Lemma gym_from_dict_always_raises (data : pyval) :
  always_raises (storage.gym_from_dict data).
Proof.
  unfold storage.gym_from_dict.
  destruct (negb (is_dict data)); [apply always_raises_raise|].
  apply always_raises_bind. intros name.
  destruct (negb (truthy name) || _); [apply always_raises_raise|].
  do 9 (apply always_raises_bind; intros ?).
  apply always_raises_bind. intros pp_data.
  apply always_raises_bind. intros pp_type.
  destruct (eq_str pp_type "fake"); [|apply always_raises_raise].
  apply always_raises_bind. intros fail_threshold.
  apply always_raises_lifted.
Qed.

(** X25. [gym_from_dict] returns no gym, whatever it is given: every input
    that passes its checks reaches [FakePaymentProcessor(fail_threshold=...)],
    which raises [TypeError], and the others raise before. So [load_gym]
    returns no gym either, whatever the file system holds. *)
Theorem load_gym_never_returns_a_gym (data : pyval)
    (fs : gmap Fs.Path Fs.content) (path : Fs.Path) (w : world) :
  (exists e w', storage.gym_from_dict data w = (Raise e, w'))
  /\ (exists e w', storage.load_gym fs path w = (Raise e, w')).
Proof.
  split; [apply gym_from_dict_always_raises|].
  revert w. change (always_raises (storage.load_gym fs path)).
  unfold storage.load_gym.
  destruct (negb (Fs.exists_ fs path)); [apply always_raises_raise|].
  apply always_raises_bind. intros payload.
  destruct (negb (is_dict payload)); [apply always_raises_raise|].
  apply always_raises_bind. intros version.
  destruct (negb (eq_int version storage.CURRENT_SCHEMA_VERSION));
    [apply always_raises_raise|].
  apply always_raises_bind. intros gym_data.
  destruct (negb (is_dict gym_data)); [apply always_raises_raise|].
  apply gym_from_dict_always_raises.
Qed.

End Loading.

(** ** What the gym creates can be stored and read back (storage.py) *)

Section Stored.
Context {builtins : Builtins}.
Import Snapshot PlanNotions.

Lemma stripped_strip (s : string) : blank s = false -> stripped (strip s).
Proof.
  intros Hb. apply strip_is_stripped.
  rewrite blank_strip_truthy in Hb. by apply negb_false_iff in Hb.
Qed.

Lemma always_raises_first {S A B} (m : M S A) (k : A -> M S B) :
  Outcome.always_raises m -> Outcome.always_raises (bind m k).
Proof.
  intros Hm s. unfold bind. destruct (Hm s) as (e & s' & ->). eauto.
Qed.

Lemma payment_record_from_dict_always_raises (data : pyval) :
  Outcome.always_raises (storage.payment_record_from_dict data).
Proof.
  unfold storage.payment_record_from_dict.
  destruct (negb (is_dict data)); [apply always_raises_raise|].
  apply always_raises_bind. intros member_id.
  destruct (negb (truthy member_id) || _); [apply always_raises_raise|].
  apply always_raises_bind. intros member_name.
  destruct (negb (truthy member_name) || _); [apply always_raises_raise|].
  apply always_raises_bind. intros amount_raw.
  apply always_raises_bind. intros amount.
  destruct (PrimFloat.ltb amount 0); [apply always_raises_raise|].
  apply always_raises_bind. intros status_str.
  destruct (negb (truthy status_str) || _); [apply always_raises_raise|].
  apply always_raises_bind. intros status.
  apply always_raises_bind. intros message.
  destruct (negb (truthy message) || _); [apply always_raises_raise|].
  apply always_raises_first. intros w.
  destruct (create_raises (strip (str member_id)) (strip (str member_name)) amount
              status (strip (str message)) w) as (e & w' & -> & _).
  eauto.
Qed.

(** X26. [payment_record_from_dict] returns no record, whatever it is
    given: what passes its checks reaches [PaymentRecord.create], which
    raises. So [ledger_from_dict] returns a ledger only for a document that
    lists no record, and that ledger is empty. *)
Theorem stored_records_are_not_read_back (data : pyval) (w : world) :
  (exists e w', storage.payment_record_from_dict data w = (Raise e, w'))
  /\ (forall ledger w',
        storage.ledger_from_dict data w = (Ok ledger, w') ->
        InMemoryPaymentLedger.records ledger = []
        /\ w' = w
        /\ dict_get_default data "records" (PList []) = Ok (PList [])).
Proof.
  split; [apply payment_record_from_dict_always_raises|].
  intros ledger w'. unfold storage.ledger_from_dict.
  destruct (negb (is_dict data)); [discriminate|].
  unfold bind at 1, lift_result.
  destruct (dict_get_default data "records" (PList [])) as [records_data|e];
    [|discriminate].
  destruct records_data as [| | | | |items|]; try discriminate.
  destruct items as [|rdata items]; [by intros [= <- <-]|].
  simpl. unfold bind at 1. unfold bind at 1.
  destruct (payment_record_from_dict_always_raises rdata w) as (e & w1 & ->).
  discriminate.
Qed.

Lemma workout_plan_round_trip_at (p : WorkoutPlan.t) (w : world) :
  Clocks.parses (WorkoutPlan.created_at p) ->
  workout_plan_normal p ->
  exists w',
    storage.workout_plan_from_dict (storage.workout_plan_to_dict p) w = (Ok p, w').
Proof.
  intros Hiso (Hmid & Htitle & Hid & Hexs).
  destruct (stripped_checks _ Hmid) as [Hi1 Hi2].
  destruct (stripped_checks _ Htitle) as [Ht1 Ht2].
  destruct Hmid as [Hmid _]. destruct Htitle as [Htitle _].
  eexists.
  unfold storage.workout_plan_from_dict, storage.workout_plan_to_dict,
    bind, lift_result, ret, raise.
  cbn [is_dict negb dict_get dict_get_default assoc String.eqb Ascii.eqb
         Bool.eqb truthy str andb orb].
  rewrite Hi1, Hi2, Ht1, Ht2. cbn [orb].
  unfold WorkoutPlan.new, required_text, strip_of, rbind, new_id, uuid4_hex,
    datetime_now, bind, lift_result, ret, raise.
  change (blank "wkp") with false.
  cbn [truthy]. rewrite Hi1, Hi2, Ht1, Ht2, Hmid, Htitle.
  cbn [fst snd]. rewrite Hid, datetime_isoformat_truthy.
  unfold fromisoformat. unfold Clocks.parses in Hiso. rewrite Hiso.
  unfold WorkoutPlan.exercises.
  match goal with
  | |- fold_each _ ?plan ?body ?w0 = _ =>
      pose proof (decode_exercises (WorkoutPlan._exercises p) plan w0 Hexs) as Hfold
  end.
  unfold bind, lift_result, ret in Hfold. rewrite Hfold.
  destruct p. reflexivity.
Qed.

Lemma add_exercises (exs : list Exercise.t) (plan : WorkoutPlan.t) :
  for_each exs WorkoutPlan.add_exercise plan
  = (Ok tt, WorkoutPlan.set_exercises (WorkoutPlan._exercises plan ++ exs) plan).
Proof.
  revert plan. induction exs as [|e exs IH]; intros plan; simpl.
  - rewrite app_nil_r. by destruct plan.
  - unfold bind, WorkoutPlan.add_exercise at 1, modify. rewrite IH. simpl.
    by rewrite <- app_assoc.
Qed.

(** X27. A plan made by [Gym.create_workout_plan] and then given exercises
    in normal form with [add_exercise] holds those exercises in the order
    given and is read back by [workout_plan_from_dict] from what
    [workout_plan_to_dict] wrote, provided [datetime.fromisoformat] reads
    the time the clock gave. *)
Theorem built_plan_round_trips (g : Gym.t) (w w1 : world) (member_id title : string)
    (plan : WorkoutPlan.t) (s' : Gym.t * world) (exs : list Exercise.t) :
  Gym.create_workout_plan member_id title (g, w) = (Ok plan, s') ->
  Forall exercise_normal exs ->
  Clocks.parses (clock w (clock_reads w)) ->
  exists built,
    for_each exs WorkoutPlan.add_exercise plan = (Ok tt, built)
    /\ WorkoutPlan.exercises built = exs
    /\ exists w1',
         storage.workout_plan_from_dict (storage.workout_plan_to_dict built) w1
         = (Ok built, w1').
Proof.
  rewrite create_workout_plan_unfold. intros Hcreate Hexs Hparses.
  destruct (Gym.members g !! strip member_id) as [member|]; [|discriminate].
  rewrite WorkoutPlan_new_str in Hcreate.
  destruct (blank (Member.id member)) eqn:Hid; [discriminate|].
  destruct (blank title) eqn:Htitle; [discriminate|].
  destruct (WorkoutCatalog.add_plan _ _) as [[[]|e] cat']; [|discriminate].
  injection Hcreate as <- _.
  rewrite add_exercises. eexists. split; [reflexivity|]. split; [done|].
  apply workout_plan_round_trip_at; [done|].
  repeat split; simpl; try done; by apply stripped_strip.
Qed.

End Stored.

Lemma built_plan_round_trips_witness :
  exists built,
    for_each [PlanNotions.squat; PlanNotions.plank] WorkoutPlan.add_exercise
      {| WorkoutPlan.member_id := "mem_al";
         WorkoutPlan.title := "Core";
         WorkoutPlan.id := "wkp_0000";
         WorkoutPlan.created_at := Sample.new_year;
         WorkoutPlan._exercises := [] |}
    = (Ok tt, built)
    /\ WorkoutPlan.exercises built = [PlanNotions.squat; PlanNotions.plank]
    /\ exists w1',
         storage.workout_plan_from_dict (builtins := Clocks.builtins)
           (storage.workout_plan_to_dict built) Sample.w0
         = (Ok built, w1').
Proof.
  eapply (built_plan_round_trips (builtins := Clocks.builtins)
            Cases.als_gym Sample.w0 Sample.w0 " mem_al" " Core ").
  - vm_compute. reflexivity.
  - repeat constructor.
  - reflexivity.
Defined.

(** ** Saving, and starting the program (storage.py, main.py) *)

Section Saving.
Context {builtins : Builtins} {order : DictOrder}.



Lemma Gym_new_str (name : string) :
  blank name = false ->
  Gym.new (PStr name)
  = Ok {| Gym.name := name; Gym.members := ∅; Gym.trainers := ∅;
          Gym.members_by_email := ∅; Gym.trainers_by_email := ∅;
          Gym.payment_processor := {| FakePaymentProcessor.fail_threshold := None |};
          Gym.payment_ledger := {| InMemoryPaymentLedger.records := [] |};
          Gym.workouts := WorkoutCatalog.empty |}.
Proof.
  intros Hb. pose proof Hb as Hs. rewrite blank_strip_truthy in Hs.
  apply negb_false_iff in Hs.
  unfold Gym.new. simpl.
  assert (str_truthy name = true) as Ht.
  { destruct name; [|done]. by vm_compute in Hs. }
  by rewrite Ht, Hs.
Qed.

Lemma saved_empty_gym_is_not_loaded (gym : Gym.t) (path : Fs.Path)
    (fs fs' : gmap Fs.Path Fs.content) (w : world) :
  blank (Gym.name gym) = false ->
  Gym.members gym = ∅ ->
  Gym.trainers gym = ∅ ->
  WorkoutCatalog.plans (Gym.workouts gym) = ∅ ->
  InMemoryPaymentLedger.records (Gym.payment_ledger gym) = [] ->
  storage.save_gym gym path fs = (Ok tt, fs') ->
  is_Some (fs' !! path)
  /\ storage.load_gym fs' path w
     = (Raise (TypeError "FakePaymentProcessor() takes no arguments"), w).
Proof.
  intros Hname Hm Ht Hp Hl Hsave.
  pose proof (gym_to_dict_empty gym Hm Ht Hp Hl) as Hdoc.
  destruct (save_gym_returns gym path fs fs' Hsave) as (doc & tmp & Hdoc' & _ & _ & ->).
  rewrite Hdoc in Hdoc'. injection Hdoc' as <-.
  split; [rewrite lookup_insert_eq; eauto|].
  rewrite (load_gym_of_document _ path _ w (lookup_insert_eq _ _ _)).
  unfold storage.payload_of. cbn [assoc String.eqb Ascii.eqb Bool.eqb default].
  cbn [eq_int storage.CURRENT_SCHEMA_VERSION Z.eqb Pos.eqb negb is_dict].
  by apply gym_from_dict_empty.
Qed.

(** X29. The first start of the program, with an ASCII name typed that is
    not blank, no regular file at [data], nothing at [data/gym.json] and no
    directory at [data/gym.json.tmp], returns a new gym of that name,
    stripped, and saves it at [data/gym.json]. Every later start from the
    files it left raises [TypeError]: the snapshot is found, and reading it
    back fails. *)
Theorem second_start_raises (typed : string) (fs : gmap Fs.Path Fs.content)
    (w : world) :
  is_ascii typed = true ->
  blank typed = false ->
  Fs.is_file fs (Fs.parent main.SAVE_PATH) = false ->
  fs !! main.SAVE_PATH = None ->
  fs !! (Fs.parent main.SAVE_PATH ++ ["gym.json.tmp"]) <> Some Fs.Directory ->
  exists gym fs',
    main.load_or_create_gym typed (fs, w) = (Ok gym, (fs', w))
    /\ Gym.name gym = strip typed
    /\ Gym.members gym = ∅
    /\ is_Some (fs' !! main.SAVE_PATH)
    /\ forall typed' w',
         main.load_or_create_gym typed' (fs', w')
         = (Raise (TypeError "FakePaymentProcessor() takes no arguments"), (fs', w')).
Proof.
  intros _ Htyped Hdir Hfile Htmp.
  assert (blank (strip typed) = false) as Hname.
  { apply stripped_not_blank, strip_is_stripped.
    rewrite blank_strip_truthy in Htyped. by apply negb_false_iff in Htyped. }
  set (gym := {| Gym.name := strip typed; Gym.members := ∅; Gym.trainers := ∅;
                 Gym.members_by_email := ∅; Gym.trainers_by_email := ∅;
                 Gym.payment_processor :=
                   {| FakePaymentProcessor.fail_threshold := None |};
                 Gym.payment_ledger := {| InMemoryPaymentLedger.records := [] |};
                 Gym.workouts := WorkoutCatalog.empty |}).
  set (dirs := Fs.ancestors_or_self (Fs.parent main.SAVE_PATH)).
  set (tmp := Fs.parent main.SAVE_PATH ++ ["gym.json.tmp"]) in *.
  assert (existsb (Fs.is_file fs) dirs = false) as Hmkdir.
  { change (Fs.is_file fs (Fs.parent main.SAVE_PATH) || false = false).
    by rewrite Hdir. }
  set (fs1 := Fs.make_directories dirs fs).
  assert (Fs.step (Fs.Mkdir (Fs.parent main.SAVE_PATH)) fs = (Ok tt, fs1)) as Hstep.
  { unfold Fs.step, bind, get, put, raise. fold dirs. by rewrite Hmkdir. }
  assert (Fs.with_suffix main.SAVE_PATH (Fs.suffix main.SAVE_PATH ++ ".tmp") = Ok tmp)
    as Hsuffix by reflexivity.
  destruct (tmp_length _ _ Hsuffix) as (Hlen & _ & Hne).
  pose proof (gym_to_dict_empty gym eq_refl eq_refl eq_refl eq_refl) as Hdoc.
  destruct (storage.save_gym gym main.SAVE_PATH fs1) as [r fs'] eqn:Hsave.
  assert (r = Ok tt) as ->.
  { rewrite (save_gym_result gym main.SAVE_PATH tmp _ fs1 Hdoc Hsuffix) in Hsave.
    cbv zeta in Hsave. fold dirs in Hsave. unfold fs1 in Hsave.
    rewrite (made_is_no_file dirs fs Hmkdir) in Hsave.
    rewrite (make_directories_elsewhere dirs fs tmp) in Hsave
      by (apply beside_the_ancestors; [lia | done]).
    rewrite (make_directories_elsewhere dirs fs main.SAVE_PATH) in Hsave
      by apply not_above_itself.
    rewrite Hfile in Hsave.
    unfold Fs.Path in *.
    destruct (fs !! tmp) as [[d|t|]|]; by injection Hsave as <- _. }
  assert (forall w', is_Some (fs' !! main.SAVE_PATH)
                     /\ storage.load_gym fs' main.SAVE_PATH w'
                        = (Raise (TypeError "FakePaymentProcessor() takes no arguments"),
                           w')) as Hload.
  { intros w'.
    by apply (saved_empty_gym_is_not_loaded gym main.SAVE_PATH fs1 fs' w' Hname). }
  destruct (Hload w) as [Hthere _].
  exists gym, fs'.
  split; [|split; [done|split; [done|split; [done|]]]].
  - unfold main.load_or_create_gym, main.on_files, main.prompt, zoom, bind, get,
      lift_result, ret, raise. cbn [fst snd].
    unfold Fs.exists_ at 1. rewrite Hfile.
    rewrite bool_decide_eq_false_2 by (by intros [? ?]).
    rewrite (Gym_new_str _ Hname). fold gym.
    change ((fs, w).1) with fs. change ((fs, w).2) with w.
    rewrite Hstep. cbn [fst snd]. by rewrite Hsave.
  - intros typed' w'.
    unfold main.load_or_create_gym, zoom, bind, get.
    change ((fs', w').1) with fs'. change ((fs', w').2) with w'.
    unfold Fs.exists_ at 1. rewrite bool_decide_eq_true_2 by done.
    change ((fs', w').1) with fs'. change ((fs', w').2) with w'.
    by rewrite (proj2 (Hload w')).
Qed.

End Saving.


Lemma second_start_raises_witness :
  exists gym fs',
    main.load_or_create_gym (builtins := Sample.builtins) (order := Sample.order)
      " Iron Den " (∅, Sample.w0)
    = (Ok gym, (fs', Sample.w0))
    /\ Gym.name gym = strip " Iron Den "
    /\ Gym.members gym = ∅
    /\ is_Some (fs' !! main.SAVE_PATH)
    /\ forall typed' w',
         main.load_or_create_gym (builtins := Sample.builtins) (order := Sample.order)
           typed' (fs', w')
         = (Raise (TypeError "FakePaymentProcessor() takes no arguments"), (fs', w')).
Proof.
  apply (second_start_raises (builtins := Sample.builtins) (order := Sample.order)
           " Iron Den " ∅ Sample.w0).
  - reflexivity.
  - reflexivity.
  - reflexivity.
  - apply lookup_empty.
  - by rewrite lookup_empty.
Defined.
